(** * Monks marketing dashboard backend: loader, sorter, paginator, presenter

    A shallow embedding of [backend/main.py].  The request pipeline is
    pure once [data/metrics.csv] is taken as the list of rows that
    [csv.DictReader] yields and the caller as the row of [data/users.csv]
    that [get_current_user] returns, so a handler becomes a function from
    the rows, the query parameters and the user to an HTTP result.  Log
    lines are not modelled, except for the values they read.

    Python values are represented as follows.
    - [str] is [string]; the text is taken to be ASCII (Python also
      accepts non-ASCII digits and spaces in [float] and [strptime];
      those code points are outside this model).
    - [float] is an IEEE-754 binary64 number, [SpecFloat.spec_float] with
      precision 53 and maximal exponent 1024, rounded to nearest even.
    - [int] is [Z]; [//] is [Z.div] (both round towards minus infinity).
    - a [dict] with string keys is a [gmap string _].
    - an exception is a value of a sum type; [try]/[except] is a [match]. *)

From Stdlib Require Import ZArith NArith List Ascii String Bool Lia.
From Stdlib Require Import SpecFloat Sorting.Sorted Sorting.Permutation.
From stdpp Require Import base option list sorting gmap strings pretty.

Local Open Scope Z_scope.

(* ===================================================================== *)
(** ** Python [str] methods used by the backend *)
(* ===================================================================== *)

Module PyStr.

Definition code (c : ascii) : N := N_of_ascii c.

(** [c.isspace()] on ASCII: TAB, LF, VT, FF, CR, FS, GS, RS, US, SPACE. *)
Definition is_space (c : ascii) : bool :=
  ((9 <=? code c) && (code c <=? 13) || (28 <=? code c) && (code c <=? 32))%N.

Definition is_digit (c : ascii) : bool :=
  ((48 <=? code c) && (code c <=? 57))%N.

Definition digit_val (c : ascii) : N := (code c - 48)%N.

(** [s.lstrip()], [s.rstrip()], [s.strip()]; the set of characters that
    count as blank is a parameter because [float] uses a smaller one. *)
Fixpoint lstrip_where (blank : ascii -> bool) (s : string) : string :=
  match s with
  | String c s' => if blank c then lstrip_where blank s' else s
  | EmptyString => EmptyString
  end.

Fixpoint rstrip_where (blank : ascii -> bool) (s : string) : string :=
  match s with
  | String c s' =>
      match rstrip_where blank s' with
      | EmptyString => if blank c then EmptyString else String c EmptyString
      | r => String c r
      end
  | EmptyString => EmptyString
  end.

Definition strip_where (blank : ascii -> bool) (s : string) : string :=
  rstrip_where blank (lstrip_where blank s).

Definition strip : string -> string := strip_where is_space.

(** [c in s] for a one-character [c] *)
Fixpoint contains (c : ascii) (s : string) : bool :=
  match s with
  | String a s' => if Ascii.eqb a c then true else contains c s'
  | EmptyString => false
  end.

(** [s.rfind(c)] for a one-character [c]: the highest index, or -1 *)
Fixpoint rfind (c : ascii) (s : string) : Z :=
  match s with
  | String a s' =>
      let r := rfind c s' in
      if 0 <=? r then r + 1 else if Ascii.eqb a c then 0 else -1
  | EmptyString => -1
  end.

Fixpoint starts_with (p s : string) : bool :=
  match p, s with
  | EmptyString, _ => true
  | String a p', String b s' => Ascii.eqb a b && starts_with p' s'
  | String _ _, EmptyString => false
  end.

(** [s.replace(old, new)]: occurrences are found left to right and do
    not overlap.  [skip] counts the characters of an occurrence that are
    still to be passed over. *)
Fixpoint replace_from (old new : string) (skip : nat) (s : string) : string :=
  match s with
  | EmptyString => EmptyString
  | String c s' =>
      match skip with
      | S k => replace_from old new k s'
      | O =>
          if starts_with old s
          then new +:+ replace_from old new (Nat.pred (String.length old)) s'
          else String c (replace_from old new O s')
      end
  end.

Fixpoint interleave (new s : string) : string :=
  match s with
  | EmptyString => EmptyString
  | String c s' => String c (new +:+ interleave new s')
  end.

Definition replace (old new s : string) : string :=
  match old with
  | EmptyString => new +:+ interleave new s
  | _ => replace_from old new O s
  end.

(** [s.lower()] on ASCII letters *)
Definition lower_char (c : ascii) : ascii :=
  if ((65 <=? code c) && (code c <=? 90))%N
  then ascii_of_N (code c + 32) else c.

Fixpoint lower (s : string) : string :=
  match s with
  | String c s' => String (lower_char c) (lower s')
  | EmptyString => EmptyString
  end.

(** [s.rjust(n, '0')] *)
Fixpoint zeros (n : nat) : string :=
  match n with O => EmptyString | S k => String "0" (zeros k) end.

Definition zfill (n : nat) (s : string) : string :=
  zeros (n - String.length s) +:+ s.

End PyStr.

(* ===================================================================== *)
(** ** Python [float] *)
(* ===================================================================== *)

Module PyFloat.

Definition float : Type := spec_float.
Definition prec : Z := 53.
Definition emax : Z := 1024.

Definition zero : float := S754_zero false.
Definition nan : float := S754_nan.

(** [x < y], [x <= y], [x == y], [x + y] *)
Definition lt (x y : float) : bool := SFltb x y.
Definition le (x y : float) : bool := SFleb x y.
Definition eq (x y : float) : bool := SFeqb x y.
Definition add (x y : float) : float := SFadd prec emax x y.

Definition is_nan (x : float) : bool :=
  match x with S754_nan => true | _ => false end.

(** The binary64 number nearest to [(-1)^neg * m * 10^e]. *)
Definition of_decimal (neg : bool) (m : N) (e : Z) : float :=
  match m with
  | N0 => S754_zero neg
  | Npos p =>
      if 0 <=? e
      then binary_round prec emax neg (p * Z.to_pos (10 ^ e)) 0
      else SFdiv prec emax (S754_finite neg p 0)
                           (S754_finite false (Z.to_pos (10 ^ (- e))) 0)
  end.

(** *** [float(s)] for a string [s]

    [None] stands for [ValueError].  The steps are those of CPython:
    blanks are removed at both ends, underscores are allowed between
    two digits only, then the text is [inf], [infinity] or [nan] in
    any case with an optional sign, or a decimal literal
    [[sign] digits [. digits] [(e|E) [sign] digits]] with at least one
    digit before the exponent. *)

(** Blanks in the sense of C's [isspace]. *)
Definition is_blank (c : ascii) : bool :=
  ((9 <=? PyStr.code c) && (PyStr.code c <=? 13) || (PyStr.code c =? 32))%N.

Definition is_underscore (c : ascii) : bool := Ascii.eqb c "_".

Fixpoint drop_underscores (prev : ascii) (s : string) : option string :=
  match s with
  | EmptyString => if is_underscore prev then None else Some EmptyString
  | String c s' =>
      if is_underscore c
      then if PyStr.is_digit prev then drop_underscores c s' else None
      else if is_underscore prev && negb (PyStr.is_digit c) then None
      else String c <$> drop_underscores c s'
  end.

Definition read_sign (s : string) : bool * string :=
  match s with
  | String "-" s' => (true, s')
  | String "+" s' => (false, s')
  | _ => (false, s)
  end.

(** Reads a run of digits: the number read so far, how many digits were
    read, and the rest of the text. *)
Fixpoint read_digits (acc : N) (count : nat) (s : string) : N * nat * string :=
  match s with
  | String c s' =>
      if PyStr.is_digit c
      then read_digits (10 * acc + PyStr.digit_val c)%N (S count) s'
      else (acc, count, s)
  | EmptyString => (acc, count, s)
  end.

(** The exponent part: [Some 0] for the empty text, [None] when the text
    is not an exponent. *)
Definition read_exponent (s : string) : option Z :=
  match s with
  | EmptyString => Some 0
  | String c s' =>
      if Ascii.eqb c "e" || Ascii.eqb c "E" then
        let '(neg, s'') := read_sign s' in
        match read_digits 0 0 s'' with
        | (_, O, _) => None
        | (n, S _, EmptyString) => Some (if neg then - Z.of_N n else Z.of_N n)
        | (_, S _, String _ _) => None
        end
      else None
  end.

Definition parse_decimal (neg : bool) (s : string) : option float :=
  let '(m1, n1, r1) := read_digits 0 0 s in
  let '(m2, n2, r2) :=
    match r1 with
    | String "." r => read_digits m1 0 r
    | _ => (m1, O, r1)
    end in
  match (n1 + n2)%nat with
  | O => None
  | S _ =>
      e ← read_exponent r2;
      Some (of_decimal neg m2 (e - Z.of_nat n2))
  end.

Definition parse_inf_or_nan (neg : bool) (s : string) : option float :=
  let w := PyStr.lower s in
  if String.eqb w "inf" || String.eqb w "infinity" then Some (S754_infinity neg)
  else if String.eqb w "nan" then Some S754_nan
  else None.

Definition of_string (s : string) : option float :=
  t ← drop_underscores "000" (PyStr.strip_where is_blank s);
  let '(neg, body) := read_sign t in
  match parse_inf_or_nan neg body with
  | Some x => Some x
  | None => parse_decimal neg body
  end.

(** *** [format(x, ',.Nf')]: fixed notation with [N] decimals, the
    integer part grouped by thousands with commas.  Python rounds the
    exact binary value to [N] decimals, ties to even. *)

Definition div_half_even (a b : Z) : Z :=
  let q := a / b in
  match (2 * (a mod b)) ?= b with
  | Lt => q
  | Gt => q + 1
  | Eq => if Z.even q then q else q + 1
  end.

(** [m * 2^e * 10^nd] rounded to an integer *)
Definition scaled (m : positive) (e : Z) (nd : nat) : Z :=
  if 0 <=? e then Z.pos m * 2 ^ e * 10 ^ Z.of_nat nd
  else div_half_even (Z.pos m * 10 ^ Z.of_nat nd) (2 ^ (- e)).

Fixpoint group_from (k : nat) (s : string) : string :=
  match s with
  | EmptyString => EmptyString
  | String c s' =>
      match k with
      | O => String "," (String c (group_from 2 s'))
      | S k' => String c (group_from k' s')
      end
  end.

Definition group_thousands (s : string) : string :=
  group_from (match (String.length s mod 3)%nat with O => 3%nat | r => r end) s.

Definition sign_text (neg : bool) : string := if neg then "-" else "".

Definition fixed_text (neg : bool) (n : Z) (nd : nat) : string :=
  let ds := PyStr.zfill (S nd) (pretty n) in
  let k := (String.length ds - nd)%nat in
  sign_text neg +:+ group_thousands (String.substring 0 k ds)
    +:+ match nd with
        | O => ""
        | S _ => "." +:+ String.substring k nd ds
        end.

Definition format_f (nd : nat) (x : float) : string :=
  match x with
  | S754_nan => "nan"
  | S754_infinity neg => sign_text neg +:+ "inf"
  | S754_zero neg => fixed_text neg 0 nd
  | S754_finite neg m e => fixed_text neg (scaled m e nd) nd
  end.

(** *** [repr(x)], which is also [str(x)]: the shortest decimal text
    that reads back as [x], the nearest to [x] among the shortest. *)

Definition same (x y : float) : bool :=
  match x, y with
  | S754_zero a, S754_zero b => Bool.eqb a b
  | S754_infinity a, S754_infinity b => Bool.eqb a b
  | S754_nan, S754_nan => true
  | S754_finite a m e, S754_finite b m' e' =>
      Bool.eqb a b && (m =? m')%positive && (e =? e')
  | _, _ => false
  end.

(** [m * 2^e / 10^g] as a fraction *)
Definition fraction (m : positive) (e g : Z) : Z * Z :=
  (Z.pos m * 2 ^ Z.max e 0 * 10 ^ Z.max (- g) 0,
   2 ^ Z.max (- e) 0 * 10 ^ Z.max g 0).

(** The largest [d], searched downwards from [d0], with
    [10^(d-1) <= m * 2^e]; a binary64 number lies between [10^-324] and
    [10^309], which bounds the search. *)
Fixpoint decimal_point (fuel : nat) (m : positive) (e d0 : Z) : Z :=
  match fuel with
  | O => d0
  | S k =>
      let '(a, b) := fraction m e (d0 - 1) in
      if b <=? a then d0 else decimal_point k m e (d0 - 1)
  end.

(** The integers next to [m * 2^e / 10^g], the nearer one first *)
Definition neighbours (m : positive) (e g : Z) : list Z :=
  let '(a, b) := fraction m e g in
  let q := a / b in
  let r := a mod b in
  if r =? 0 then [q]
  else match (2 * r) ?= b with
       | Lt => [q; q + 1]
       | Gt => [q + 1; q]
       | Eq => if Z.even q then [q; q + 1] else [q + 1; q]
       end.

Definition reads_back (m : positive) (e g : Z) (c : Z) : bool :=
  same (of_decimal false (Z.to_N c) g) (S754_finite false m e).

(** Digits [c] and exponent [g] of the shortest text, trying
    1, 2, ... digits; [n] is the number of digits tried next.  17 digits
    always read back, which bounds the search. *)
Fixpoint shortest (fuel : nat) (m : positive) (e dp : Z) (n : Z) : Z * Z :=
  let g := dp - n in
  match List.find (reads_back m e g) (neighbours m e g) with
  | Some c => (c, g)
  | None =>
      match fuel with
      | O => (hd 0 (neighbours m e g), g)
      | S k => shortest k m e dp (n + 1)
      end
  end.

Fixpoint rstrip_zeros (s : string) : string :=
  match s with
  | String c s' =>
      match rstrip_zeros s' with
      | EmptyString => if Ascii.eqb c "0" then EmptyString else String c EmptyString
      | r => String c r
      end
  | EmptyString => EmptyString
  end.

Definition repr_finite (neg : bool) (m : positive) (e : Z) : string :=
  let dp0 := decimal_point 700 m e 310 in
  let '(c, g) := shortest 16 m e dp0 1 in
  let all := pretty c in
  let ds := rstrip_zeros all in
  let n := String.length ds in
  let dp := g + Z.of_nat (String.length all) in
  sign_text neg +:+
  if (dp <=? -4) || (16 <? dp) then
    String.substring 0 1 ds
      +:+ (if (1 <? n)%nat then "." +:+ String.substring 1 (n - 1) ds else "")
      +:+ "e" +:+ (if dp - 1 <? 0 then "-" else "+")
      +:+ PyStr.zfill 2 (pretty (Z.abs (dp - 1)))
  else if dp <=? 0 then
    "0." +:+ PyStr.zeros (Z.to_nat (- dp)) +:+ ds
  else if Z.of_nat n <=? dp then
    ds +:+ PyStr.zeros (Z.to_nat dp - n) +:+ ".0"
  else
    String.substring 0 (Z.to_nat dp) ds +:+ "."
      +:+ String.substring (Z.to_nat dp) (n - Z.to_nat dp) ds.

Definition repr (x : float) : string :=
  match x with
  | S754_nan => "nan"
  | S754_infinity neg => sign_text neg +:+ "inf"
  | S754_zero neg => sign_text neg +:+ "0.0"
  | S754_finite neg m e => repr_finite neg m e
  end.

(** [float(n)] for a small integer literal *)
Definition of_Z (n : Z) : float :=
  of_decimal (n <? 0) (Z.to_N (Z.abs n)) 0.

End PyFloat.

(* ===================================================================== *)
(** ** Python [datetime], restricted to dates at midnight *)
(* ===================================================================== *)

Module PyDate.

(** Every [datetime] of the backend comes from [strptime] with the
    format [%Y-%m-%d], so its time of day is 00:00:00. *)
Record date : Type := Date { year : Z; month : Z; day : Z }.

(** [datetime.min] *)
Definition min : date := Date 1 1 1.

(** [a == b] *)
Definition eq (a b : date) : bool :=
  (year a =? year b) && (month a =? month b) && (day a =? day b).

(** [a < b] *)
Definition lt (a b : date) : bool :=
  (year a <? year b)
  || (year a =? year b)
     && ((month a <? month b) || (month a =? month b) && (day a <? day b)).

Definition is_leap (y : Z) : bool :=
  (y mod 4 =? 0) && (negb (y mod 100 =? 0) || (y mod 400 =? 0)).

Definition days_in_month (y m : Z) : Z :=
  if m =? 2 then (if is_leap y then 29 else 28)
  else if (m =? 4) || (m =? 6) || (m =? 9) || (m =? 11) then 30
  else 31.

(** [datetime(y, m, d)] raises [ValueError] outside these bounds. *)
Definition valid (y m d : Z) : bool :=
  (1 <=? y) && (y <=? 9999) && (1 <=? m) && (m <=? 12)
  && (1 <=? d) && (d <=? days_in_month y m).

(** *** [datetime.strptime(s, '%Y-%m-%d')]

    The format compiles to the regular expression
    [(\d\d\d\d)-(1[0-2]|0[1-9]|[1-9])-(3[0-1]|[1-2]\d|0[1-9]|[1-9]| [1-9])];
    the first match in the order of the alternatives is taken, text left
    over after it is an error, and so is a date that does not exist.
    [None] stands for [ValueError]. *)

Definition between (lo hi c : ascii) : bool :=
  ((PyStr.code lo <=? PyStr.code c) && (PyStr.code c <=? PyStr.code hi))%N.

Definition val (c : ascii) : Z := Z.of_N (PyStr.digit_val c).

Definition read_year (s : string) : option (Z * string) :=
  match s with
  | String a (String b (String c (String d r))) =>
      if PyStr.is_digit a && PyStr.is_digit b && PyStr.is_digit c && PyStr.is_digit d
      then Some (1000 * val a + 100 * val b + 10 * val c + val d, r)
      else None
  | _ => None
  end.

(** The ways a month, and a day, can be read at the head of [s], in
    the order the regular expression tries them. *)
Definition month_alts (s : string) : list (Z * string) :=
  match s with
  | String a (String b r) =>
      if Ascii.eqb a "1" && between "0" "2" b then [(10 + val b, r)]
      else if Ascii.eqb a "0" && between "1" "9" b then [(val b, r)]
      else []
  | _ => []
  end ++
  match s with
  | String a r => if between "1" "9" a then [(val a, r)] else []
  | _ => []
  end.

Definition day_alts (s : string) : list (Z * string) :=
  match s with
  | String a (String b r) =>
      if Ascii.eqb a "3" && between "0" "1" b then [(30 + val b, r)]
      else if between "1" "2" a && PyStr.is_digit b then [(10 * val a + val b, r)]
      else if Ascii.eqb a "0" && between "1" "9" b then [(val b, r)]
      else []
  | _ => []
  end ++
  match s with
  | String a r => if between "1" "9" a then [(val a, r)] else []
  | _ => []
  end ++
  match s with
  | String a (String b r) =>
      if Ascii.eqb a " " && between "1" "9" b then [(val b, r)] else []
  | _ => []
  end.

(** After the month: a dash, then a day.  The result is the day and the
    text left over. *)
Definition read_dash_day (s : string) : option (Z * string) :=
  match s with
  | String "-" r => head (day_alts r)
  | _ => None
  end.

Fixpoint first_month (alts : list (Z * string)) : option (Z * Z * string) :=
  match alts with
  | [] => None
  | (m, r) :: rest =>
      match read_dash_day r with
      | Some (d, r') => Some (m, d, r')
      | None => first_month rest
      end
  end.

Definition strptime (s : string) : option date :=
  '(y, r1) ← read_year s;
  match r1 with
  | String "-" r2 =>
      '(m, d, r3) ← first_month (month_alts r2);
      match r3 with
      | EmptyString => if valid y m d then Some (Date y m d) else None
      | String _ _ => None
      end
  | _ => None
  end.

(** [d.strftime('%Y-%m-%d')], as the C library on Linux formats it: the
    year without padding, month and day on two digits. *)
Definition strftime (d : date) : string :=
  pretty (year d) +:+ "-" +:+ PyStr.zfill 2 (pretty (month d))
    +:+ "-" +:+ PyStr.zfill 2 (pretty (day d)).

(** [str(d)] *)
Definition str (d : date) : string :=
  PyStr.zfill 4 (pretty (year d)) +:+ "-" +:+ PyStr.zfill 2 (pretty (month d))
    +:+ "-" +:+ PyStr.zfill 2 (pretty (day d)) +:+ " 00:00:00".

End PyDate.

(* ===================================================================== *)
(** ** Python lists: slices and [list.sort] *)
(* ===================================================================== *)

Module PyList.

Section Slice.
Context {A : Type}.

(** A slice bound: a negative index counts from the end, and the
    result is clipped to [0, n]. *)
Definition clip (n i : Z) : Z :=
  if i <? 0 then Z.max (i + n) 0 else Z.min i n.

(** [l[start:stop]] *)
Definition slice (l : list A) (start stop : Z) : list A :=
  let n := Z.of_nat (length l) in
  let a := clip n start in
  let b := clip n stop in
  take (Z.to_nat (b - a)) (drop (Z.to_nat a) l).
End Slice.

Section Sort.
Context {A K : Type} (key : A -> K) (lt : K -> K -> bool).

(** [list.sort(key=key, reverse=reverse)] compares keys with [<] only
    and is stable.  It is modelled by the stable insertion sort: on
    keys that [<] orders as a strict weak order every stable sort
    returns the same list ([sort_ascending_unique] below), so this is
    also what CPython's merge sort returns.  For keys that [<] does not
    order, such as a NaN among floats, the order CPython leaves is
    specific to its algorithm.

    [insert x l] puts [x], which stood before all of [l], in front of
    the first element whose key is not smaller than that of [x]. *)
Fixpoint insert (x : A) (l : list A) : list A :=
  match l with
  | [] => [x]
  | y :: l' => if lt (key y) (key x) then y :: insert x l' else x :: l
  end.

Definition sort_ascending (l : list A) : list A := foldr insert [] l.

(** With [reverse=True] the list is reversed, sorted and reversed
    again, which keeps equal elements in their original order. *)
Definition sort (reverse : bool) (l : list A) : list A :=
  if reverse then rev (sort_ascending (rev l)) else sort_ascending l.
End Sort.

End PyList.

(* ===================================================================== *)
(** ** Values, rows, exceptions, responses *)
(* ===================================================================== *)

(** The values found in a row: text or [None] as read from the CSV file
    (a short line leaves [None] in the missing columns), and the numbers
    and date the loader puts in their place.  The integer [0] that the
    code passes as a default ([row.get(k, 0)], [val or 0], the start of
    [sum]) is written as the float zero where [float], [== 0], [+] and
    the [f] format treat both alike. *)
Inductive value : Type :=
  | VStr (s : string)
  | VNone
  | VFloat (x : PyFloat.float)
  | VDate (d : PyDate.date).

(** A row of a CSV file as [csv.DictReader] yields it, and a user. *)
Abbreviation row := (gmap string value).

Inductive exn_class : Type := ValueError | KeyError | TypeError | AttributeError.

(** An exception that reaches a handler: its class and [str(e)]. *)
Inductive exn : Type := Exn (cls : exn_class) (msg : string).

Definition exn_str (e : exn) : string := let 'Exn _ msg := e in msg.

(** The outcome of code that may raise. *)
Inductive result (E A : Type) : Type :=
  | Ok (a : A)
  | Raise (e : E).
Arguments Ok {E A} a.
Arguments Raise {E A} e.

Global Instance result_ret {E} : MRet (result E) := fun _ a => Ok a.
Global Instance result_bind {E} : MBind (result E) := fun _ _ f m =>
  match m with Ok a => f a | Raise e => Raise e end.
Global Instance result_fmap {E} : FMap (result E) := fun _ _ f m =>
  match m with Ok a => Ok (f a) | Raise e => Raise e end.

(** JSON values of the responses. *)
Inductive json : Type :=
  | JNull
  | JInt (n : Z)
  | JStr (s : string)
  | JList (items : list (gmap string string)).

Inductive http_result : Type :=
  | Ok200 (body : gmap string json)
  | HTTPException (status_code : Z) (detail : string).

(** *** Helpers shared by the functions below *)

(** [bool(v)] *)
Definition truthy (v : value) : bool :=
  match v with
  | VStr s => negb (String.eqb s "")
  | VNone => false
  | VFloat x => negb (PyFloat.eq x PyFloat.zero)
  | VDate _ => true
  end.

Definition is_str (v : value) : bool :=
  match v with VStr _ => true | _ => false end.

(** [type(v).__name__], as error messages print it *)
Definition type_name (v : value) : string :=
  match v with
  | VStr _ => "str"
  | VNone => "NoneType"
  | VFloat _ => "float"
  | VDate _ => "datetime.datetime"
  end.

(** [float(v)]; only the class of the exception is kept, the loader and
    the sorter never read the message. *)
Definition float_of (v : value) : result exn_class PyFloat.float :=
  match v with
  | VStr s =>
      match PyFloat.of_string s with
      | Some x => Ok x
      | None => Raise ValueError
      end
  | VFloat x => Ok x
  | VNone | VDate _ => Raise TypeError
  end.

(** [datetime.strptime(v, '%Y-%m-%d')] *)
Definition strptime_of (v : value) : result exn_class PyDate.date :=
  match v with
  | VStr s =>
      match PyDate.strptime s with
      | Some d => Ok d
      | None => Raise ValueError
      end
  | _ => Raise TypeError
  end.

(** [str(v)] *)
Definition py_str (v : value) : string :=
  match v with
  | VStr s => s
  | VNone => "None"
  | VFloat x => PyFloat.repr x
  | VDate d => PyDate.str d
  end.

(** [repr(k)] for a key made of printable characters other than quotes
    and backslashes, such as the two keys read from a user. *)
Definition repr_key (k : string) : string := "'" +:+ k +:+ "'".

(** [d[k]] *)
Definition subscript (d : row) (k : string) : result exn value :=
  match d !! k with
  | Some v => Ok v
  | None => Raise (Exn KeyError (repr_key k))
  end.

(** [v == s] for a string literal [s] *)
Definition eq_str (v : value) (s : string) : bool :=
  match v with
  | VStr t => String.eqb t s
  | _ => false
  end.

Definition MAX_RECORDS_PER_REQUEST : Z := 1000.

Definition numeric_fields : list string :=
  ["cost_micros"; "clicks"; "conversions"; "impressions"; "interactions"].

(* ===================================================================== *)
(** ** The backend *)
(* ===================================================================== *)

(** *** [sort_data] *)

Definition date_key (x : row) : PyDate.date :=
  match x !! "date" with
  | Some (VDate d) => d
  | Some v =>
      match strptime_of v with
      | Ok d => d
      | Raise _ => PyDate.min
      end
  | None => PyDate.min
  end.

Definition num_key (sort_by : string) (x : row) : PyFloat.float :=
  match float_of (default (VFloat PyFloat.zero) (x !! sort_by)) with
  | Ok f => f
  | Raise _ => PyFloat.zero
  end.

Definition str_key (sort_by : string) (x : row) : string :=
  py_str (default (VStr "") (x !! sort_by)).

Definition sort_data (data : list row) (sort_by : string) (sort_desc : bool)
  : list row :=
  if decide (sort_by = "date") then
    PyList.sort date_key PyDate.lt sort_desc data
  else if decide (sort_by ∈ numeric_fields) then
    PyList.sort (num_key sort_by) PyFloat.lt sort_desc data
  else if decide (sort_by ∈ ["account_id"; "campaign_id"]) then
    PyList.sort (str_key sort_by) String.ltb sort_desc data
  else data.

(** *** [load_metrics_optimized] *)

(** The inner function [normalize_num] *)
Definition normalize_num (val : value) : result exn_class PyFloat.float :=
  if negb (truthy val) || negb (is_str val) then
    (* float(val or 0) *)
    if truthy val then float_of val else Ok PyFloat.zero
  else
    match val with
    | VStr s =>
        let val := PyStr.strip s in
        let val :=
          if PyStr.contains "," val then
            if PyStr.contains "." val
               && (PyStr.rfind "." val <? PyStr.rfind "," val)
            then PyStr.replace "," "." (PyStr.replace "." "" val)
            else PyStr.replace "," "." val
          else val in
        float_of (VStr val)
    | _ => float_of val
    end.

(** A date bound of the request: [None] when absent, empty or not a date. *)
Definition parse_bound (bound : option string) : option PyDate.date :=
  match bound with
  | Some s => if String.eqb s "" then None else PyDate.strptime s
  | None => None
  end.

(** [row[k] = normalize_num(row.get(k, '0'))] *)
Definition normalize_field (k : string) (r : row) : result exn_class row :=
  x ← normalize_num (default (VStr "0") (r !! k));
  Ok (<[k := VFloat x]> r).

(** The body of the loop for one row.  [Ok None] is a [continue] taken
    because the date is out of the bounds, [Ok (Some r)] is the row that
    is appended. *)
Definition process_row (start_dt end_dt : option PyDate.date) (r : row)
  : result exn_class (option row) :=
  v ← match r !! "date" with Some v => Ok v | None => Raise KeyError end;
  row_date ← strptime_of v;
  if match start_dt with Some s => PyDate.lt row_date s | None => false end
  then Ok None
  else if match end_dt with Some e => PyDate.lt e row_date | None => false end
  then Ok None
  else
    r ← normalize_field "cost_micros" r;
    r ← normalize_field "clicks" r;
    r ← normalize_field "conversions" r;
    r ← normalize_field "impressions" r;
    r ← normalize_field "interactions" r;
    Ok (Some (<["date" := VDate row_date]> r)).

(** The loop over the rows: a [ValueError] or a [KeyError] skips the row,
    any other exception leaves the loop. *)
Fixpoint read_rows (start_dt end_dt : option PyDate.date) (rows : list row)
  : result exn_class (list row) :=
  match rows with
  | [] => Ok []
  | r :: rest =>
      match process_row start_dt end_dt r with
      | Ok (Some r') => (r' ::.) <$> read_rows start_dt end_dt rest
      | Ok None => read_rows start_dt end_dt rest
      | Raise ValueError | Raise KeyError => read_rows start_dt end_dt rest
      | Raise e => Raise e
      end
  end.

(** [csv] is the content of [data/metrics.csv]: [None] when the file does
    not exist, otherwise its rows in order. *)
Definition load_metrics_optimized (csv : option (list row))
    (start_date end_date : option string) (sort_by : string)
    (sort_desc : bool) (page page_size : Z) : list row * Z :=
  match csv with
  | None => ([], 0)
  | Some rows =>
      let start_dt := parse_bound start_date in
      let end_dt := parse_bound end_date in
      match read_rows start_dt end_dt rows with
      | Raise _ => ([], 0)
      | Ok all_metrics =>
          let total_filtered := Z.of_nat (length all_metrics) in
          let all_metrics := sort_data all_metrics sort_by sort_desc in
          let start_idx := (page - 1) * page_size in
          let end_idx := start_idx + page_size in
          let paginated_data := PyList.slice all_metrics start_idx end_idx in
          (paginated_data, total_filtered)
      end
  end.

(** *** [GET /columns] *)

Definition column (key label : string) : gmap string string :=
  {[ "key" := key; "label" := label ]}.

Definition base_columns : list (gmap string string) :=
  [ column "account_id" "Account ID";
    column "campaign_id" "Campaign ID";
    column "clicks" "Clicks";
    column "conversions" "Conversions";
    column "impressions" "Impressions";
    column "interactions" "Interactions";
    column "date" "Date" ].

(** [l.insert(i, x)] for [i] within the list *)
Definition list_insert_at {A} (i : nat) (x : A) (l : list A) : list A :=
  take i l ++ x :: drop i l.

(** The handler has no [try]: a missing [role] key raises out of it. *)
Definition get_available_columns (current_user : row)
  : result exn (gmap string json) :=
  role ← subscript current_user "role";
  let base_columns :=
    if eq_str role "admin"
    then list_insert_at 2 (column "cost_micros" "Cost (Micros)") base_columns
    else base_columns in
  Ok {[ "columns" := JList base_columns ]}.

(** *** [GET /data] *)

(** The inner function [format_br].  A [datetime] formats itself with
    [strftime], which returns a format without directives unchanged. *)
Definition format_br (value : value) : result exn string :=
  let swap (str_value : string) :=
    let str_value := PyStr.replace "," "TEMP" str_value in
    let str_value := PyStr.replace "." "," str_value in
    PyStr.replace "TEMP" "." str_value in
  match value with
  | VFloat x =>
      if PyFloat.eq x PyFloat.zero then Ok "0,00"
      else Ok (swap (PyFloat.format_f 2 x))
  | VStr _ =>
      Raise (Exn ValueError "Unknown format code 'f' for object of type 'str'")
  | VNone =>
      Raise (Exn TypeError "unsupported format string passed to NoneType.__format__")
  | VDate _ => Ok (swap ",.2f")
  end.

(** [row.get('date', datetime.now()).strftime('%Y-%m-%d')]; [now] is the
    clock, read as a date. *)
Definition format_date (now : PyDate.date) (r : row) : result exn string :=
  match default (VDate now) (r !! "date") with
  | VDate d => Ok (PyDate.strftime d)
  | v => Raise (Exn AttributeError
                  ("'" +:+ type_name v +:+ "' object has no attribute 'strftime'"))
  end.

Definition format_field (k : string) (r : row) : result exn string :=
  format_br (default (VFloat PyFloat.zero) (r !! k)).

(** The body of the loop that builds one item of the response. *)
Definition format_row (now : PyDate.date) (current_user r : row)
  : result exn (gmap string string) :=
  let item : gmap string string := ∅ in
  let item := <["account_id" := py_str (default (VStr "") (r !! "account_id"))]> item in
  let item := <["campaign_id" := py_str (default (VStr "") (r !! "campaign_id"))]> item in
  v ← format_field "clicks" r; let item := <["clicks" := v]> item in
  v ← format_field "conversions" r; let item := <["conversions" := v]> item in
  v ← format_field "impressions" r; let item := <["impressions" := v]> item in
  v ← format_field "interactions" r; let item := <["interactions" := v]> item in
  v ← format_date now r; let item := <["date" := v]> item in
  role ← subscript current_user "role";
  if eq_str role "admin" then
    v ← format_field "cost_micros" r;
    Ok (<["cost_micros" := v]> item)
  else Ok item.

Fixpoint format_rows (now : PyDate.date) (current_user : row) (data : list row)
  : result exn (list (gmap string string)) :=
  match data with
  | [] => Ok []
  | r :: rest =>
      item ← format_row now current_user r;
      (item ::.) <$> format_rows now current_user rest
  end.

(** The [try] block of the handler. *)
Definition get_metrics_data_body (csv : option (list row)) (now : PyDate.date)
    (start_date end_date : option string) (sort_by : string) (sort_desc : bool)
    (page page_size : Z) (current_user : row) : result exn (gmap string json) :=
  let page_size := Z.min page_size MAX_RECORDS_PER_REQUEST in
  let page := Z.max 1 page in
  (* the log line reads current_user['username'] *)
  _ ← subscript current_user "username";
  let '(data, total) :=
    load_metrics_optimized csv start_date end_date sort_by sort_desc page page_size in
  match data with
  | [] =>
      Ok {[ "data" := JList [];
            "total" := JInt 0;
            "page" := JInt page;
            "page_size" := JInt page_size;
            "total_pages" := JInt 0;
            "message" := JStr "Nenhum dado encontrado" ]}
  | _ :: _ =>
      response_data ← format_rows now current_user data;
      let total_pages := (total + page_size - 1) / page_size in
      Ok {[ "data" := JList response_data;
            "total" := JInt total;
            "page" := JInt page;
            "page_size" := JInt page_size;
            "total_pages" := JInt total_pages;
            "showing" := JInt (Z.of_nat (length response_data)) ]}
  end.

Definition get_metrics_data (csv : option (list row)) (now : PyDate.date)
    (start_date end_date : option string) (sort_by : string) (sort_desc : bool)
    (page page_size : Z) (current_user : row) : http_result :=
  match get_metrics_data_body csv now start_date end_date sort_by sort_desc
          page page_size current_user with
  | Ok body => Ok200 body
  | Raise e => HTTPException 500 ("Erro interno do servidor: " +:+ exn_str e)
  end.

(** *** [GET /stats] *)

(** [sum(row.get(k, 0) for row in rows)]: the items are added from left
    to right.  The sum starts from the integer 0 and becomes a float
    with the first float added; [acc] is [None] while it is still the
    integer.  (CPython, from version 3.12 on, also compensates the
    rounding errors of the float additions; nothing below depends on
    the rounding of a sum.) *)
Fixpoint sum_from (acc : option PyFloat.float) (k : string) (rows : list row)
  : result exn (option PyFloat.float) :=
  match rows with
  | [] => Ok acc
  | r :: rest =>
      match r !! k with
      | None => sum_from (acc ≫= fun a => Some (PyFloat.add a PyFloat.zero)) k rest
      | Some (VFloat x) =>
          sum_from (Some (PyFloat.add (default PyFloat.zero acc) x)) k rest
      | Some v =>
          Raise (Exn TypeError
                   ("unsupported operand type(s) for +: '"
                      +:+ match acc with Some _ => "float" | None => "int" end
                      +:+ "' and '" +:+ type_name v +:+ "'"))
      end
  end.

Definition sum_field (k : string) (rows : list row) : result exn PyFloat.float :=
  default PyFloat.zero <$> sum_from None k rows.

Definition sample_note (n : nat) : string :=
  "Calculado com amostra de " +:+ pretty n +:+ " registros".

(** The [try] block of the handler. *)
Definition get_basic_stats_body (csv : option (list row))
    (start_date end_date : option string) (current_user : row)
  : result exn (gmap string json) :=
  _ ← subscript current_user "username";
  let '(sample_data, total) :=
    load_metrics_optimized csv start_date end_date "date" false 1 5000 in
  match sample_data with
  | [] =>
      Ok {[ "total_records" := JInt 0;
            "total_clicks" := JStr "0";
            "total_conversions" := JStr "0";
            "total_impressions" := JStr "0" ]}
  | _ :: _ =>
      total_clicks ← sum_field "clicks" sample_data;
      total_conversions ← sum_field "conversions" sample_data;
      total_impressions ← sum_field "impressions" sample_data;
      Ok {[ "total_records" := JInt total;
            "total_clicks" := JStr (PyFloat.format_f 0 total_clicks);
            "total_conversions" := JStr (PyFloat.format_f 0 total_conversions);
            "total_impressions" := JStr (PyFloat.format_f 0 total_impressions);
            "note" := if Z.of_nat (length sample_data) <? total
                      then JStr (sample_note (length sample_data))
                      else JNull ]}
  end.

Definition get_basic_stats (csv : option (list row))
    (start_date end_date : option string) (current_user : row) : http_result :=
  match get_basic_stats_body csv start_date end_date current_user with
  | Ok body => Ok200 body
  | Raise e =>
      Ok200 {[ "total_records" := JInt 0;
               "total_clicks" := JStr "0";
               "total_conversions" := JStr "0";
               "total_impressions" := JStr "0";
               "error" := JStr (exn_str e) ]}
  end.

(* ===================================================================== *)
(** ** Users, login and the bearer token *)
(* ===================================================================== *)

Definition SECRET_KEY : string := "monks-case-secret-key-2025".
Definition ALGORITHM : string := "HS256".
Definition ACCESS_TOKEN_EXPIRE_HOURS : Z := 24.

(** What a function of this part raises: an [HTTPException], or an
    exception that no clause catches and that leaves the handler. *)
Inductive raised : Type :=
  | HTTP (status_code : Z) (detail : string) (headers : gmap string string)
  | Uncaught (e : exn).

(** Code whose exceptions no clause catches. *)
Definition uncaught {A : Type} (m : result exn A) : result raised A :=
  match m with
  | Ok a => Ok a
  | Raise e => Raise (Uncaught e)
  end.

(** [a == b] on the values of a row *)
Definition value_eq (a b : value) : bool :=
  match a, b with
  | VStr s, VStr t => String.eqb s t
  | VNone, VNone => true
  | VFloat x, VFloat y => PyFloat.eq x y
  | VDate d, VDate e => PyDate.eq d e
  | _, _ => false
  end.

(** The validator [username_must_not_be_empty] of [LoginRequest]. *)
Definition username_must_not_be_empty (v : string) : result exn string :=
  if String.eqb v "" || String.eqb (PyStr.strip v) ""
  then Raise (Exn ValueError "Username não pode estar vazio")
  else Ok (PyStr.strip v).

(** [load_users]; [users_csv] is the content of [data/users.csv], [None]
    when the file cannot be read. *)
Definition load_users (users_csv : option (list row)) : list row :=
  match users_csv with
  | Some users => users
  | None => []
  end.

(** The loop of [authenticate_user] over the users. *)
Fixpoint find_user (users : list row) (username password : string)
  : result exn (option row) :=
  match users with
  | [] => Ok None
  | user :: rest =>
      u ← subscript user "username";
      if eq_str u username then
        p ← subscript user "password";
        if eq_str p password then Ok (Some user)
        else find_user rest username password
      else find_user rest username password
  end.

Definition authenticate_user (users_csv : option (list row))
    (username password : string) : result exn (option row) :=
  find_user (load_users users_csv) username password.

(** The payload of a token: its entries other than [exp], and the
    expiry held under [exp], a time in seconds. *)
Record payload : Type := Payload { claims : gmap string value; exp : option Z }.

(** [create_access_token]; [jwt_encode] is [jwt.encode] of the library
    and [utcnow] the clock, in seconds.  [update] replaces an [exp] that
    [data] held. *)
Definition create_access_token (jwt_encode : payload -> string -> string -> string)
    (utcnow : Z) (data : gmap string value) : string :=
  let to_encode := data in
  let expire := utcnow + ACCESS_TOKEN_EXPIRE_HOURS * 3600 in
  let to_encode := Payload (delete "exp" to_encode) (Some expire) in
  jwt_encode to_encode SECRET_KEY ALGORITHM.

Definition credentials_exception : raised :=
  HTTP 401 "Token inválido" {[ "WWW-Authenticate" := "Bearer" ]}.

(** [next((u for u in users if u['username'] == username), None)] *)
Fixpoint first_named (users : list row) (username : value)
  : result exn (option row) :=
  match users with
  | [] => Ok None
  | u :: rest =>
      name ← subscript u "username";
      if value_eq name username then Ok (Some u) else first_named rest username
  end.

(** [get_current_user]; [jwt_decode] is [jwt.decode] of the library,
    [None] standing for [JWTError]. *)
Definition get_current_user
    (jwt_decode : string -> string -> list string -> option payload)
    (users_csv : option (list row)) (token : string) : result raised row :=
  username ←
    match jwt_decode token SECRET_KEY [ALGORITHM] with
    | None => Raise credentials_exception
    | Some payload =>
        match claims payload !! "sub" with
        | None | Some VNone => Raise credentials_exception
        | Some username => Ok username
        end
    end;
  let users := load_users users_csv in
  user ← uncaught (first_named users username);
  match user with
  | None => Raise credentials_exception
  | Some user => Ok user
  end.

(** The body of the answer of [POST /login]. *)
Record LoginResponse : Type := MkLoginResponse {
  access_token : string;
  token_type : string;
  user : gmap string value
}.

(** [login], on a request whose user name has passed the validator. *)
Definition login (jwt_encode : payload -> string -> string -> string)
    (utcnow : Z) (users_csv : option (list row)) (username password : string)
  : result raised LoginResponse :=
  user ← uncaught (authenticate_user users_csv username password);
  match user with
  | None => Raise (HTTP 401 "Credenciais inválidas" ∅)
  | Some user =>
      sub ← uncaught (subscript user "username");
      let access_token :=
        create_access_token jwt_encode utcnow {[ "sub" := sub ]} in
      name ← uncaught (subscript user "username");
      role ← uncaught (subscript user "role");
      Ok (MkLoginResponse access_token "bearer"
            {[ "username" := name; "role" := role ]})
  end.

(* ===================================================================== *)
(** ** Vocabulary of the statements *)
(* ===================================================================== *)

(** Lexicographic order on triples of integers: the order of dates, and,
    through [float_rank], the order of floats. *)
Definition lex_lt (a b : Z * Z * Z) : bool :=
  let '(a1, a2, a3) := a in
  let '(b1, b2, b3) := b in
  (a1 <? b1) || (a1 =? b1) && ((a2 <? b2) || (a2 =? b2) && (a3 <? b3)).

Definition date_rank (d : PyDate.date) : Z * Z * Z :=
  (PyDate.year d, PyDate.month d, PyDate.day d).

Definition float_rank (x : PyFloat.float) : Z * Z * Z :=
  match x with
  | S754_infinity true => (-2, 0, 0)
  | S754_finite true m e => (-1, - e, Z.neg m)
  | S754_zero _ | S754_nan => (0, 0, 0)
  | S754_finite false m e => (1, e, Z.pos m)
  | S754_infinity false => (2, 0, 0)
  end.

(** [a <= b] on dates *)
Definition date_le (a b : PyDate.date) : bool := negb (PyDate.lt b a).

(** The two tests on the date of a row, lines 147 to 150. *)
Definition in_bounds (start_dt end_dt : option PyDate.date) (d : PyDate.date)
  : bool :=
  match start_dt with Some s => date_le s d | None => true end
  && match end_dt with Some e => date_le d e | None => true end.


(** The rows kept by the loop of the loader, in file order; empty when
    the file is missing or the loop was left by an exception. *)
Definition all_metrics (csv : option (list row))
    (start_date end_date : option string) : list row :=
  match csv with
  | Some rows =>
      match read_rows (parse_bound start_date) (parse_bound end_date) rows with
      | Ok l => l
      | Raise _ => []
      end
  | None => []
  end.

(** A row as the loader returns it: a date and five floats. *)
Definition loaded (r : row) : Prop :=
  (exists d, r !! "date" = Some (VDate d))
  /\ forall k, k ∈ numeric_fields -> exists x, r !! k = Some (VFloat x).

(** The float found under [k] in a loaded row. *)
Definition field (k : string) (r : row) : PyFloat.float :=
  match r !! k with Some (VFloat x) => x | _ => PyFloat.zero end.

(** The sum of a list of floats, from the left, starting at zero. *)
Definition float_sum (l : list PyFloat.float) : PyFloat.float :=
  fold_left PyFloat.add l PyFloat.zero.

(** Orders of a sorted list.  [x] may stand before [y] in ascending
    order when the key of [y] is not smaller, and in descending order
    when the key of [x] is not smaller. *)
Definition may_precede {A K : Type} (key : A -> K) (lt : K -> K -> bool)
  (x y : A) : Prop := lt (key y) (key x) = false.

Definition may_follow {A K : Type} (key : A -> K) (lt : K -> K -> bool)
  (x y : A) : Prop := lt (key x) (key y) = false.

(** The keys of [x] and [y] are not ordered either way: for a strict
    weak order, they are equivalent. *)
Definition unordered {A K : Type} (key : A -> K) (lt : K -> K -> bool)
  (x y : A) : bool :=
  negb (lt (key y) (key x)) && negb (lt (key x) (key y)).

(** A predicate that the elements moved over by an insertion never
    satisfy together with the inserted one. *)
Definition respects {A K : Type} (key : A -> K) (lt : K -> K -> bool)
  (ok : K -> Prop) (p : A -> bool) : Prop :=
  forall x y, ok (key x) -> ok (key y) ->
    p x = true -> lt (key y) (key x) = true -> p y = false.

(** The text read with a comma, if there is one, as the decimal
    separator and the points as thousands separators. *)
Definition decimal_comma_text (v : string) : string :=
  if PyStr.contains "," v
  then PyStr.replace "," "." (PyStr.replace "." "" v)
  else v.

(** [x] is a number or an infinity. *)
Definition not_nan (x : PyFloat.float) : Prop := PyFloat.is_nan x = false.

(** [row.get(k, '0')] *)
Definition cell (k : string) (r : row) : value := default (VStr "0") (r !! k).

(** Lines 152 to 157: the five numeric columns are normalized and the
    date is stored. *)
Definition normalize_row (row_date : PyDate.date) (r : row)
  : result exn_class row :=
  r ← normalize_field "cost_micros" r;
  r ← normalize_field "clicks" r;
  r ← normalize_field "conversions" r;
  r ← normalize_field "impressions" r;
  r ← normalize_field "interactions" r;
  Ok (<["date" := VDate row_date]> r).

(** The items of a response. *)
Definition items_of (body : gmap string json) (k : string)
  : list (gmap string string) :=
  match body !! k with Some (JList l) => l | _ => [] end.

(** The page [GET /data] asks the loader for, after clamping. *)
Definition requested_page (csv : option (list row))
    (start_date end_date : option string) (sort_by : string) (sort_desc : bool)
    (page page_size : Z) : list row :=
  (load_metrics_optimized csv start_date end_date sort_by sort_desc
     (Z.max 1 page) (Z.min page_size MAX_RECORDS_PER_REQUEST)).1.

(** A field of the body of a response, when the response is a 200. *)
Definition response_field (r : http_result) (k : string) : option json :=
  match r with
  | Ok200 body => body !! k
  | HTTPException _ _ => None
  end.


(** Every character of the text is a blank. *)
Fixpoint blank_text (s : string) : bool :=
  match s with
  | String c s' => PyStr.is_space c && blank_text s'
  | EmptyString => true
  end.


(** The rows of page [p], counted from 1, for a page size. *)
Definition page_rows (csv : option (list row))
    (start_date end_date : option string) (sort_by : string) (sort_desc : bool)
    (page_size : Z) (p : nat) : list row :=
  (load_metrics_optimized csv start_date end_date sort_by sort_desc
     (Z.of_nat p) page_size).1.

(** The text with its commas and its points exchanged. *)
Definition swap_separator (c : ascii) : ascii :=
  if Ascii.eqb c "," then "."%char
  else if Ascii.eqb c "." then ","%char
  else c.

Fixpoint swap_separators (s : string) : string :=
  match s with
  | String c s' => String (swap_separator c) (swap_separators s')
  | EmptyString => EmptyString
  end.

(** The three replacements of [format_br], lines 331 to 333. *)
Definition through_temp (str_value : string) : string :=
  let str_value := PyStr.replace "," "TEMP" str_value in
  let str_value := PyStr.replace "." "," str_value in
  PyStr.replace "TEMP" "." str_value.

(** The year [y] prints on four digits that read back as [y]. *)
Definition four_digits (y : Z) : bool :=
  match pretty y with
  | String a (String b (String c (String d EmptyString))) =>
      PyStr.is_digit a && PyStr.is_digit b && PyStr.is_digit c && PyStr.is_digit d
      && (1000 * PyDate.val a + 100 * PyDate.val b + 10 * PyDate.val c
          + PyDate.val d =? y)
  | _ => false
  end.

(** Month [m] and day [d], printed on two digits each around a dash,
    read back as [m] and [d] with nothing left over. *)
Definition month_day_read_back (m d : Z) : bool :=
  match PyDate.first_month
          (PyDate.month_alts
             (PyStr.zfill 2 (pretty m) +:+ "-" +:+ PyStr.zfill 2 (pretty d))) with
  | Some (m', d', EmptyString) => (m' =? m) && (d' =? d)
  | _ => false
  end.

(** *** Rows and users of the examples *)

Definition example_row (date clicks : string) : row :=
  {[ "account_id" := VStr "acc"; "campaign_id" := VStr "cmp";
     "date" := VStr date; "cost_micros" := VStr "1"; "clicks" := VStr clicks;
     "conversions" := VStr "1"; "impressions" := VStr "1";
     "interactions" := VStr "1" ]}.


Definition three_rows : list row :=
  [ example_row "2024-01-03" "30"; example_row "2024-01-01" "10";
    example_row "2024-01-02" "20" ].

Definition admin_user : row := {[ "username" := VStr "ana"; "role" := VStr "admin" ]}.
Definition viewer_user : row := {[ "username" := VStr "bia"; "role" := VStr "user" ]}.
Definition some_day : PyDate.date := PyDate.Date 2025 6 1.

(** Three rows as the loader returns them, with clicks 2.0, NaN, 1.0. *)
Definition nan_rows : list row :=
  all_metrics
    (Some [ example_row "2024-01-01" "2"; example_row "2024-01-02" "nan";
            example_row "2024-01-03" "1" ]) None None.

(** Two rows of a users file. *)
Definition admin_password_user : row :=
  {[ "username" := VStr "ana"; "password" := VStr "s3cret"; "role" := VStr "admin" ]}.
Definition viewer_password_user : row :=
  {[ "username" := VStr "bia"; "password" := VStr "letmein"; "role" := VStr "user" ]}.

(** A stand-in for the token library in the examples: it issues one
    token, and decodes it to the payload of a login of [ana] at time 0. *)
Definition example_payload : payload :=
  Payload {[ "sub" := VStr "ana" ]} (Some 86400).

Definition example_encode (p : payload) (key algorithm : string) : string :=
  "token-of-ana".

Definition example_decode (token key : string) (algorithms : list string)
  : option payload :=
  if String.eqb token "token-of-ana" then Some example_payload else None.

(* ===================================================================== *)
(** ** Facts about the Python primitives *)
(* ===================================================================== *)

Section LexOrder.

Lemma lex_lt_irrefl a : lex_lt a a = false.
Proof. destruct a as [[a1 a2] a3]; simpl. lia. Qed.

Lemma lex_lt_asym a b : lex_lt a b = true -> lex_lt b a = false.
Proof.
  destruct a as [[a1 a2] a3], b as [[b1 b2] b3]; simpl. lia.
Qed.

Lemma lex_lt_negtrans a b c :
  lex_lt a c = true -> lex_lt a b = true \/ lex_lt b c = true.
Proof.
  destruct a as [[a1 a2] a3], b as [[b1 b2] b3], c as [[c1 c2] c3]; simpl.
  destruct (Z.ltb_spec a1 b1), (Z.eqb_spec a1 b1), (Z.ltb_spec a2 b2),
    (Z.eqb_spec a2 b2), (Z.ltb_spec a3 b3); simpl; auto; lia.
Qed.


End LexOrder.

Section FloatOrder.

Lemma float_compare_rank (x y : PyFloat.float) :
  PyFloat.is_nan x = false -> PyFloat.is_nan y = false ->
  SFcompare x y
  = Some (if lex_lt (float_rank x) (float_rank y) then Lt
          else if lex_lt (float_rank y) (float_rank x) then Gt else Eq).
Proof.
  intros Hx Hy.
  destruct x as [[]|[]| |[] m e], y as [[]|[]| |[] m' e'];
    try discriminate; try reflexivity;
    unfold SFcompare, float_rank, lex_lt;
    change (Pos.compare_cont Eq m m') with (Pos.compare m m');
    destruct (Z.compare_spec e e'), (Pos.compare_spec m m'); simpl;
    repeat match goal with
      | |- context [?a <? ?b] => destruct (Z.ltb_spec a b)
      | |- context [?a =? ?b] => destruct (Z.eqb_spec a b)
      end; simpl; try reflexivity; lia.
Qed.

Lemma float_lt_rank (x y : PyFloat.float) :
  PyFloat.is_nan x = false -> PyFloat.is_nan y = false ->
  PyFloat.lt x y = lex_lt (float_rank x) (float_rank y).
Proof.
  intros Hx Hy. unfold PyFloat.lt, SFltb.
  rewrite (float_compare_rank x y Hx Hy).
  destruct (lex_lt (float_rank x) (float_rank y)) eqn:E; [reflexivity|].
  destruct (lex_lt (float_rank y) (float_rank x)); reflexivity.
Qed.

Lemma float_le_not_lt (x y : PyFloat.float) :
  PyFloat.is_nan x = false -> PyFloat.is_nan y = false ->
  PyFloat.le x y = negb (PyFloat.lt y x).
Proof.
  intros Hx Hy. rewrite (float_lt_rank y x Hy Hx).
  unfold PyFloat.le, SFleb. rewrite (float_compare_rank x y Hx Hy).
  destruct (lex_lt (float_rank x) (float_rank y)) eqn:E.
  - rewrite (lex_lt_asym _ _ E). reflexivity.
  - destruct (lex_lt (float_rank y) (float_rank x)); reflexivity.
Qed.

Lemma float_eq_not_lt (x y : PyFloat.float) :
  PyFloat.is_nan x = false -> PyFloat.is_nan y = false ->
  PyFloat.eq x y = negb (PyFloat.lt x y) && negb (PyFloat.lt y x).
Proof.
  intros Hx Hy. rewrite (float_lt_rank y x Hy Hx), (float_lt_rank x y Hx Hy).
  unfold PyFloat.eq, SFeqb. rewrite (float_compare_rank x y Hx Hy).
  destruct (lex_lt (float_rank x) (float_rank y)) eqn:E; [reflexivity|].
  destruct (lex_lt (float_rank y) (float_rank x)); reflexivity.
Qed.

(** A NaN is neither smaller than, nor equal to, anything. *)
Lemma float_nan_unordered (x : PyFloat.float) :
  PyFloat.le PyFloat.nan x = false /\ PyFloat.le x PyFloat.nan = false
  /\ PyFloat.lt PyFloat.nan x = false /\ PyFloat.lt x PyFloat.nan = false
  /\ PyFloat.eq x PyFloat.nan = false.
Proof. destruct x as [[]|[]| |[] m e]; repeat split; reflexivity. Qed.

End FloatOrder.

Section DateOrder.

Lemma date_lt_rank a b : PyDate.lt a b = lex_lt (date_rank a) (date_rank b).
Proof. reflexivity. Qed.


Lemma date_le_refl d : date_le d d = true.
Proof. unfold date_le. rewrite date_lt_rank, lex_lt_irrefl. reflexivity. Qed.

End DateOrder.

Section StringOrder.

Lemma string_ltb_asym a b : String.ltb a b = true -> String.ltb b a = false.
Proof.
  unfold String.ltb. rewrite (String.compare_antisym b a).
  destruct (String.compare a b); simpl; congruence.
Qed.

Lemma string_compare_trans_lt a b c :
  String.compare a b = Lt -> String.compare b c = Lt -> String.compare a c = Lt.
Proof.
  revert b c. induction a as [|x a IH]; intros [|y b] [|z c]; simpl;
    try congruence.
  destruct (Ascii.compare x y) eqn:Hxy; try congruence;
    destruct (Ascii.compare y z) eqn:Hyz; try congruence; intros H1 H2.
  - apply Ascii.compare_eq_iff in Hxy, Hyz. subst.
    unfold Ascii.compare. rewrite N.compare_refl. eauto.
  - apply Ascii.compare_eq_iff in Hxy. subst. rewrite Hyz. reflexivity.
  - apply Ascii.compare_eq_iff in Hyz. subst. rewrite Hxy. reflexivity.
  - unfold Ascii.compare in *.
    rewrite N.compare_lt_iff in *. 
    assert (N_of_ascii x < N_of_ascii z)%N as H by lia.
    apply N.compare_lt_iff in H. rewrite H. reflexivity.
Qed.

Lemma string_ltb_negtrans a b c :
  String.ltb a c = true -> String.ltb a b = true \/ String.ltb b c = true.
Proof.
  unfold String.ltb. intros Hac.
  destruct (String.compare a b) eqn:Hab; auto; right.
  - apply String.compare_eq_iff in Hab. subst. exact Hac.
  - destruct (String.compare b c) eqn:Hbc; auto; exfalso.
    + apply String.compare_eq_iff in Hbc. subst.
      rewrite Hab in Hac. discriminate.
    + assert (String.compare c b = Lt) as H1
        by (rewrite String.compare_antisym, Hbc; reflexivity).
      assert (String.compare b a = Lt) as H2
        by (rewrite String.compare_antisym, Hab; reflexivity).
      pose proof (string_compare_trans_lt _ _ _ H1 H2) as H3.
      rewrite String.compare_antisym, H3 in Hac. discriminate.
Qed.

Lemma string_ltb_total a b :
  String.ltb a b = false -> String.ltb b a = false -> a = b.
Proof.
  unfold String.ltb. rewrite (String.compare_antisym b a).
  destruct (String.compare a b) eqn:E; simpl; try discriminate.
  intros _ _. apply String.compare_eq_iff. exact E.
Qed.

End StringOrder.

(** *** [list.sort]: the result is a permutation, it is ordered, and
  elements that compare equal keep their order *)

Section SortPermutation.
Context {A K : Type} (key : A -> K) (lt : K -> K -> bool).

Lemma insert_perm (x : A) (l : list A) :
  Permutation (PyList.insert key lt x l) (x :: l).
Proof.
  induction l as [|y l IH]; simpl; [reflexivity|].
  destruct (lt (key y) (key x)); [|reflexivity].
  rewrite IH. apply perm_swap.
Qed.

Lemma sort_ascending_perm (l : list A) :
  Permutation (PyList.sort_ascending key lt l) l.
Proof.
  induction l as [|x l IH]; simpl; [reflexivity|].
  rewrite insert_perm. constructor. exact IH.
Qed.

Lemma sort_perm (reverse : bool) (l : list A) :
  Permutation (PyList.sort key lt reverse l) l.
Proof.
  destruct reverse; simpl; [|apply sort_ascending_perm].
  rewrite <- Permutation_rev, sort_ascending_perm, <- Permutation_rev.
  reflexivity.
Qed.

Lemma sort_length (reverse : bool) (l : list A) :
  length (PyList.sort key lt reverse l) = length l.
Proof. apply Permutation_length, sort_perm. Qed.

Lemma sort_Forall (P : A -> Prop) (reverse : bool) (l : list A) :
  Forall P l -> Forall P (PyList.sort key lt reverse l).
Proof. intros H. rewrite sort_perm. exact H. Qed.

End SortPermutation.

Lemma StronglySorted_rev {A : Type} (R : A -> A -> Prop) (l : list A) :
StronglySorted R l -> StronglySorted (flip R) (rev l).
Proof.
induction 1 as [|x l Hs IH Hx]; simpl; [constructor|].
apply StronglySorted_app_2; [|exact IH|repeat constructor].
intros y z Hy Hz. apply list_elem_of_singleton in Hz. subst z.
rewrite Forall_forall in Hx. apply Hx.
apply list_elem_of_In, in_rev, list_elem_of_In. exact Hy.
Qed.

Lemma StronglySorted_weaken {A : Type} (R R' : A -> A -> Prop) (l : list A) :
  (forall x y, x ∈ l -> y ∈ l -> R x y -> R' x y) ->
  StronglySorted R l -> StronglySorted R' l.
Proof.
  intros HR Hs. induction Hs as [|x l Hs IH Hx]; constructor.
  - apply IH. intros y z Hy Hz. apply HR; right; assumption.
  - rewrite Forall_forall in *. intros y Hy.
    apply HR; [left|right; exact Hy|apply Hx, Hy].
Qed.

Section SortOrder.
Context {A K : Type} (key : A -> K) (lt : K -> K -> bool) (ok : K -> Prop).

(** [lt] is a strict weak order on the keys that satisfy [ok]. *)
Hypothesis lt_asym :
  forall a b, ok a -> ok b -> lt a b = true -> lt b a = false.
Hypothesis lt_negtrans :
  forall a b c, ok a -> ok b -> ok c ->
    lt a c = true -> lt a b = true \/ lt b c = true.

Lemma insert_sorted (x : A) (l : list A) :
  ok (key x) -> Forall (fun y => ok (key y)) l ->
  StronglySorted (may_precede key lt) l ->
  StronglySorted (may_precede key lt) (PyList.insert key lt x l).
Proof.
  intros Hx Hl Hs. induction l as [|y l IH]; simpl.
  - repeat constructor.
  - apply Forall_cons in Hl as [Hy Hl].
    apply StronglySorted_cons in Hs as [Hyl Hs].
    destruct (lt (key y) (key x)) eqn:E.
    + apply StronglySorted_cons. split; [|auto].
      rewrite insert_perm. constructor; [|exact Hyl].
      unfold may_precede. auto.
    + apply StronglySorted_cons. split.
      * constructor; [exact E|].
        rewrite Forall_forall in *. intros z Hz.
        specialize (Hyl z Hz). unfold may_precede in *.
        destruct (lt (key z) (key x)) eqn:Ez; [|reflexivity].
        destruct (lt_negtrans (key z) (key y) (key x)); auto; congruence.
      * apply StronglySorted_cons. auto.
Qed.

Lemma sort_ascending_sorted (l : list A) :
  Forall (fun y => ok (key y)) l ->
  StronglySorted (may_precede key lt) (PyList.sort_ascending key lt l).
Proof.
  induction 1 as [|x l Hx Hl IH]; simpl; [constructor|].
  apply insert_sorted; auto. rewrite sort_ascending_perm. exact Hl.
Qed.

Lemma insert_filter (p : A -> bool) (x : A) (l : list A) :
  respects key lt ok p -> ok (key x) -> Forall (fun y => ok (key y)) l ->
  List.filter p (PyList.insert key lt x l) = List.filter p (x :: l).
Proof.
  intros Hp Hx Hl. induction Hl as [|y l Hy Hl IH]; [reflexivity|].
  simpl. destruct (lt (key y) (key x)) eqn:E; [|reflexivity].
  simpl in *. rewrite IH. destruct (p x) eqn:Epx; [|reflexivity].
  rewrite (Hp x y Hx Hy Epx E). reflexivity.
Qed.

Lemma sort_ascending_stable (p : A -> bool) (l : list A) :
  respects key lt ok p -> Forall (fun y => ok (key y)) l ->
  List.filter p (PyList.sort_ascending key lt l) = List.filter p l.
Proof.
  intros Hp Hl. induction Hl as [|x l Hx Hl IH]; [reflexivity|].
  simpl PyList.sort_ascending. rewrite insert_filter; auto.
  - simpl. rewrite IH. reflexivity.
  - rewrite sort_ascending_perm. exact Hl.
Qed.

Lemma sort_stable (p : A -> bool) (reverse : bool) (l : list A) :
  respects key lt ok p -> Forall (fun y => ok (key y)) l ->
  List.filter p (PyList.sort key lt reverse l) = List.filter p l.
Proof.
  intros Hp Hl. destruct reverse; simpl; [|apply sort_ascending_stable; auto].
  rewrite List.filter_rev, sort_ascending_stable, <- List.filter_rev,
    rev_involutive; auto.
  apply Forall_rev. exact Hl.
Qed.

(** Elements whose keys are not ordered either way, such as equal keys. *)
Lemma respects_unordered (k : K) :
  ok k -> respects key lt ok (fun y => negb (lt (key y) k) && negb (lt k (key y))).
Proof.
  intros Hk x y Hx Hy Hpx Hyx.
  apply andb_true_iff in Hpx as [H1 H2].
  apply negb_true_iff in H1, H2.
  cbv beta.
  destruct (lt_negtrans (key y) k (key x) Hy Hk Hx Hyx) as [H|H];
    [rewrite H; reflexivity|congruence].
Qed.

Lemma sort_sorted (l : list A) :
  Forall (fun y => ok (key y)) l ->
  StronglySorted (may_precede key lt) (PyList.sort key lt false l)
  /\ StronglySorted (may_follow key lt) (PyList.sort key lt true l).
Proof.
  intros Hl. split; [apply sort_ascending_sorted; exact Hl|].
  simpl. apply (StronglySorted_rev (may_precede key lt)).
  apply sort_ascending_sorted, Forall_rev, Hl.
Qed.

(** A sorted list is determined by its elements and by the order of the
    elements with equivalent keys: every stable sort returns the list
    that [sort_ascending] returns. *)
Lemma sorted_stable_unique (l1 l2 : list A) :
  Forall (fun y => ok (key y)) l1 ->
  Permutation l1 l2 ->
  StronglySorted (may_precede key lt) l1 ->
  StronglySorted (may_precede key lt) l2 ->
  (forall x, x ∈ l1 ->
     List.filter (unordered key lt x) l1 = List.filter (unordered key lt x) l2) ->
  l1 = l2.
Proof.
  revert l2. induction l1 as [|a l1 IH]; intros l2 Hok Hp H1 H2 Hf.
  - apply Permutation_nil in Hp. congruence.
  - destruct l2 as [|b l2]; [symmetry in Hp; apply Permutation_nil in Hp; congruence|].
    apply Forall_cons in Hok as [Ha Hok].
    apply StronglySorted_cons in H1 as [Hal H1].
    apply StronglySorted_cons in H2 as [Hbl H2].
    rewrite Forall_forall in Hal, Hbl.
    assert (forall x, ok (key x) -> lt (key x) (key x) = false) as Hirr.
    { intros x Hx. destruct (lt (key x) (key x)) eqn:E; [|reflexivity].
      rewrite <- E at 1. apply lt_asym; assumption. }
    assert (lt (key a) (key b) = false) as Hab.
    { assert (a ∈ b :: l2) as Hin by (rewrite <- Hp; left).
      apply elem_of_cons in Hin as [->|Hin]; [apply Hirr, Ha|apply Hbl, Hin]. }
    assert (lt (key b) (key a) = false) as Hba.
    { assert (b ∈ a :: l1) as Hin by (rewrite Hp; left).
      apply elem_of_cons in Hin as [->|Hin]; [apply Hirr, Ha|apply Hal, Hin]. }
    assert (unordered key lt a a = true) as Haa
      by (unfold unordered; rewrite (Hirr a Ha); reflexivity).
    assert (unordered key lt a b = true) as Hab'
      by (unfold unordered; rewrite Hab, Hba; reflexivity).
    pose proof (Hf a ltac:(left)) as Hfa. cbn [List.filter] in Hfa.
    rewrite Haa, Hab' in Hfa. injection Hfa as <- _. f_equal.
    apply IH; try assumption.
    + eapply Permutation_cons_inv, Hp.
    + intros x Hx. pose proof (Hf x ltac:(right; exact Hx)) as Hfx.
      cbn [List.filter] in Hfx.
      destruct (unordered key lt x a); [injection Hfx as Hfx|]; exact Hfx.
Qed.

Lemma sort_ascending_unique (l l' : list A) :
  Forall (fun y => ok (key y)) l ->
  Permutation l' l ->
  StronglySorted (may_precede key lt) l' ->
  (forall x, x ∈ l ->
     List.filter (unordered key lt x) l' = List.filter (unordered key lt x) l) ->
  l' = PyList.sort_ascending key lt l.
Proof.
  intros Hok Hp Hs Hf.
  assert (Forall (fun y => ok (key y)) l') as Hok' by (rewrite Hp; exact Hok).
  apply sorted_stable_unique; try assumption.
  - rewrite Hp. symmetry. apply sort_ascending_perm.
  - apply sort_ascending_sorted, Hok.
  - intros x Hx. rewrite Hp in Hx. rewrite (Hf x Hx). symmetry.
    apply sort_ascending_stable; [|exact Hok].
    rewrite Forall_forall in Hok.
    exact (respects_unordered (key x) (Hok x Hx)).
Qed.

End SortOrder.

(** *** Text: [in], [rfind] and [replace] across a concatenation *)

Section TextFacts.

Lemma contains_app c a b :
  PyStr.contains c (a +:+ b) = PyStr.contains c a || PyStr.contains c b.
Proof.
  induction a as [|x a IH]; [reflexivity|].
  change (String x a +:+ b) with (String x (a +:+ b)). simpl.
  destruct (Ascii.eqb x c); [reflexivity|exact IH].
Qed.

Lemma rfind_found c s : (0 <=? PyStr.rfind c s) = PyStr.contains c s.
Proof.
  induction s as [|x s IH]; simpl; [reflexivity|].
  destruct (PyStr.contains c s); destruct (Z.leb_spec 0 (PyStr.rfind c s));
    try discriminate.
  - destruct (Ascii.eqb x c); lia.
  - destruct (Ascii.eqb x c); reflexivity.
Qed.

Lemma rfind_range c s :
  -1 <= PyStr.rfind c s < Z.of_nat (String.length s).
Proof.
  induction s as [|x s IH]; simpl String.length; simpl PyStr.rfind; [lia|].
  destruct (Z.leb_spec 0 (PyStr.rfind c s)); [lia|].
  destruct (Ascii.eqb x c); lia.
Qed.

Lemma rfind_app_r c a b :
  PyStr.contains c b = true ->
  PyStr.rfind c (a +:+ b) = Z.of_nat (String.length a) + PyStr.rfind c b.
Proof.
  intros Hb. induction a as [|x a IH]; simpl String.length.
  { change (EmptyString +:+ b) with b. lia. }
  change (String x a +:+ b) with (String x (a +:+ b)). simpl PyStr.rfind.
  rewrite IH.
  pose proof (rfind_found c b) as H. rewrite Hb in H.
  apply Z.leb_le in H.
  destruct (Z.leb_spec 0 (Z.of_nat (String.length a) + PyStr.rfind c b)); lia.
Qed.

Lemma rfind_app_l c a b :
  PyStr.contains c b = false ->
  PyStr.rfind c (a +:+ b) = PyStr.rfind c a.
Proof.
  intros Hb. induction a as [|x a IH].
  - change (EmptyString +:+ b) with b. simpl.
    pose proof (rfind_found c b) as H. rewrite Hb in H.
    apply Z.leb_gt in H. pose proof (rfind_range c b). lia.
  - change (String x a +:+ b) with (String x (a +:+ b)). simpl PyStr.rfind.
    rewrite IH. reflexivity.
Qed.

(** Replacing a character that does not occur changes nothing. *)
Lemma replace_absent c new s :
  PyStr.contains c s = false ->
  PyStr.replace (String c EmptyString) new s = s.
Proof.
  unfold PyStr.replace. induction s as [|x s IH]; simpl; [reflexivity|].
  rewrite (Ascii.eqb_sym c x). destruct (Ascii.eqb x c); [discriminate|].
  simpl. intros H. rewrite (IH H). reflexivity.
Qed.

Lemma text_nonempty s : s <> "" -> String.eqb s "" = false.
Proof. intros H. apply String.eqb_neq. exact H. Qed.

End TextFacts.

(** *** [normalize_num] on text *)

Section NormalizeNum.

(** The text that [normalize_num] hands to [float]. *)
Lemma normalize_num_text (s : string) :
  s <> "" ->
  normalize_num (VStr s)
  = float_of (VStr
      (let val := PyStr.strip s in
       if PyStr.contains "," val then
         if PyStr.contains "." val
            && (PyStr.rfind "." val <? PyStr.rfind "," val)
         then PyStr.replace "," "." (PyStr.replace "." "" val)
         else PyStr.replace "," "." val
       else val)).
Proof.
  intros H. unfold normalize_num. simpl truthy. simpl is_str.
  rewrite (text_nonempty s H). reflexivity.
Qed.

Lemma float_of_text (t : string) :
  float_of (VStr t) = Raise ValueError
  \/ exists x, PyFloat.of_string t = Some x /\ float_of (VStr t) = Ok x.
Proof.
  simpl. destruct (PyFloat.of_string t) as [x|]; [right|left]; eauto.
Qed.



End NormalizeNum.

(* ===================================================================== *)
(** ** C1: the numeric normalizer *)
(* ===================================================================== *)

Section C1.

Lemma rightmost_comma (v ip fp : string) :
  v = ip +:+ "," +:+ fp -> PyStr.contains "." fp = false ->
  PyStr.contains "," v = true
  /\ (PyStr.contains "." v = true -> PyStr.rfind "." v < PyStr.rfind "," v).
Proof.
  intros -> Hfp. split.
  - rewrite contains_app. change ("," +:+ fp) with (String "," fp).
    simpl. apply orb_true_r.
  - intros _.
    rewrite (rfind_app_r "," ip ("," +:+ fp)) by reflexivity.
    rewrite (rfind_app_l "." ip ("," +:+ fp)) by exact Hfp.
    pose proof (rfind_range "." ip).
    pose proof (rfind_found "," ("," +:+ fp)) as H1.
    change (PyStr.contains "," ("," +:+ fp)) with true in H1.
    apply Z.leb_le in H1. lia.
Qed.

(** C1, as the spec states it, fails: text that is not a number is not
    normalized to 0 but raises [ValueError], and so does ["1,234.56"],
    whose comma is replaced by a second point. *)
Lemma normalize_num_raises :
  normalize_num (VStr "abc") = Raise ValueError
  /\ normalize_num (VStr "1,234.56") = Raise ValueError
  /\ float_of (VStr "1234.56") = Ok (PyFloat.of_decimal false 123456 (-2)).
Proof. vm_compute. repeat split; reflexivity. Qed.

(** C1 (amended).  For non-empty text [s], with [v] the text without
    the blanks at its ends: if [v] has no comma, or if its last comma
    stands to the right of every point ([v = ip , fp] with no point in
    [fp]), then the result is [float] of [v] with every point removed
    and every comma turned into a point when there is a comma, and of
    [v] itself when there is none; if [float] does not read that text,
    [ValueError] is raised: the text is not coerced to 0.  Whatever the
    text, the outcome is a float or [ValueError].  ["1.234,56"] gives
    1234.56, ["50"] gives 50.0, and the empty text and [None] give 0.0. *)
Theorem normalize_num_spec (s ip fp : string) :
  s <> "" ->
  PyStr.contains "," (PyStr.strip s) = false
  \/ (PyStr.strip s = ip +:+ "," +:+ fp /\ PyStr.contains "." fp = false) ->
  normalize_num (VStr s) = float_of (VStr (decimal_comma_text (PyStr.strip s)))
  /\ (PyFloat.of_string (decimal_comma_text (PyStr.strip s)) = None ->
      normalize_num (VStr s) = Raise ValueError)
  /\ (forall t, t <> "" ->
        normalize_num (VStr t) = Raise ValueError
        \/ exists x, normalize_num (VStr t) = Ok x)
  /\ normalize_num (VStr "1.234,56") = Ok (PyFloat.of_decimal false 123456 (-2))
  /\ normalize_num (VStr "50") = Ok (PyFloat.of_decimal false 50 0)
  /\ normalize_num (VStr "") = Ok PyFloat.zero
  /\ normalize_num VNone = Ok PyFloat.zero.
Proof.
  intros Hs Hv.
  assert (normalize_num (VStr s)
          = float_of (VStr (decimal_comma_text (PyStr.strip s)))) as E.
  { rewrite (normalize_num_text s Hs). cbv zeta. unfold decimal_comma_text.
    destruct Hv as [Hc|[Hv Hfp]]; [rewrite Hc; reflexivity|].
    destruct (rightmost_comma _ ip fp Hv Hfp) as [Hc Hlt]. rewrite Hc.
    destruct (PyStr.contains "." (PyStr.strip s)) eqn:Hd; cbn [andb].
    - apply Z.ltb_lt in Hlt; [|reflexivity]. rewrite Hlt. reflexivity.
    - rewrite (replace_absent "." "" _ Hd). reflexivity. }
  split; [exact E|]. split; [|split].
  - intros Hnone. rewrite E. simpl. rewrite Hnone. reflexivity.
  - intros t Ht. rewrite (normalize_num_text t Ht).
    match goal with |- float_of (VStr ?u) = _ \/ _ =>
      destruct (float_of_text u) as [Eu|(x & _ & Eu)]; rewrite Eu; eauto
    end.
  - vm_compute. repeat split; reflexivity.
Qed.

Lemma normalize_num_spec_witness :
  normalize_num (VStr " 1.234,56 ") = float_of (VStr "1234.56")
  /\ normalize_num (VStr "50") = float_of (VStr "50")
  /\ normalize_num (VStr "12,5kg") = Raise ValueError.
Proof.
  split; [|split].
  - destruct (normalize_num_spec " 1.234,56 " "1.234" "56") as (H & _);
      [discriminate|right; split; reflexivity|exact H].
  - destruct (normalize_num_spec "50" "" "") as (H & _);
      [discriminate|left; reflexivity|exact H].
  - destruct (normalize_num_spec "12,5kg" "12" "5kg") as (_ & H & _);
      [discriminate|right; split; reflexivity|].
    apply H. reflexivity.
Defined.

End C1.

(* ===================================================================== *)
(** ** The loop of the loader, row by row *)
(* ===================================================================== *)

Section RowFacts.


Lemma process_row_parsed (start_dt end_dt : option PyDate.date) (r : row)
    (sd : string) (d : PyDate.date) :
  r !! "date" = Some (VStr sd) -> PyDate.strptime sd = Some d ->
  process_row start_dt end_dt r
  = if in_bounds start_dt end_dt d then Some <$> normalize_row d r else Ok None.
Proof.
  intros Hr Hd. unfold process_row, in_bounds, date_le, normalize_row.
  rewrite Hr. simpl. rewrite Hd. simpl.
  destruct start_dt as [s|], end_dt as [e|]; simpl;
    repeat match goal with |- context [PyDate.lt ?a ?b] =>
      destruct (PyDate.lt a b); simpl end; try reflexivity;
    repeat match goal with |- context [normalize_field ?k ?x] =>
      destruct (normalize_field k x); simpl end; reflexivity.
Qed.

Lemma process_row_unparsed (start_dt end_dt : option PyDate.date) (r : row)
    (sd : string) :
  r !! "date" = Some (VStr sd) -> PyDate.strptime sd = None ->
  process_row start_dt end_dt r = Raise ValueError.
Proof.
  intros Hr Hd. unfold process_row. rewrite Hr. simpl. rewrite Hd. reflexivity.
Qed.

Lemma normalize_field_lookup (k : string) (r : row) :
  normalize_field k r
  = match normalize_num (cell k r) with
    | Ok x => Ok (<[k := VFloat x]> r)
    | Raise e => Raise e
    end.
Proof. reflexivity. Qed.

Lemma cell_insert_ne (k k' : string) (v : value) (r : row) :
  k' <> k -> cell k (<[k' := v]> r) = cell k r.
Proof. intros H. unfold cell. rewrite lookup_insert_ne by exact H. reflexivity. Qed.

(** All five columns normalize: the row is stored with the five floats. *)
Lemma normalize_row_ok (d : PyDate.date) (r : row) (x1 x2 x3 x4 x5 : PyFloat.float) :
  normalize_num (cell "cost_micros" r) = Ok x1 ->
  normalize_num (cell "clicks" r) = Ok x2 ->
  normalize_num (cell "conversions" r) = Ok x3 ->
  normalize_num (cell "impressions" r) = Ok x4 ->
  normalize_num (cell "interactions" r) = Ok x5 ->
  normalize_row d r
  = Ok (<["date" := VDate d]>
         (<["interactions" := VFloat x5]>
           (<["impressions" := VFloat x4]>
             (<["conversions" := VFloat x3]>
               (<["clicks" := VFloat x2]>
                 (<["cost_micros" := VFloat x1]> r)))))).
Proof.
  intros H1 H2 H3 H4 H5. unfold normalize_row.
  rewrite normalize_field_lookup, H1. simpl.
  rewrite normalize_field_lookup, cell_insert_ne, H2 by discriminate. simpl.
  rewrite normalize_field_lookup, !cell_insert_ne, H3 by discriminate. simpl.
  rewrite normalize_field_lookup, !cell_insert_ne, H4 by discriminate. simpl.
  rewrite normalize_field_lookup, !cell_insert_ne, H5 by discriminate. simpl.
  reflexivity.
Qed.

(** One column raises: the row raises the same exception, provided the
    columns before it normalize. *)
Lemma normalize_row_cases (d : PyDate.date) (r : row) :
  (exists x1 x2 x3 x4 x5,
     normalize_num (cell "cost_micros" r) = Ok x1
     /\ normalize_num (cell "clicks" r) = Ok x2
     /\ normalize_num (cell "conversions" r) = Ok x3
     /\ normalize_num (cell "impressions" r) = Ok x4
     /\ normalize_num (cell "interactions" r) = Ok x5)
  \/ (exists k e, k ∈ numeric_fields
        /\ normalize_num (cell k r) = Raise e /\ normalize_row d r = Raise e).
Proof.
  unfold normalize_row.
  rewrite normalize_field_lookup.
  destruct (normalize_num (cell "cost_micros" r)) as [x1|e] eqn:H1;
    [|right; exists "cost_micros", e; repeat split; auto; set_solver].
  simpl. rewrite normalize_field_lookup, cell_insert_ne by discriminate.
  destruct (normalize_num (cell "clicks" r)) as [x2|e] eqn:H2;
    [|right; exists "clicks", e; repeat split; auto; set_solver].
  simpl. rewrite normalize_field_lookup, !cell_insert_ne by discriminate.
  destruct (normalize_num (cell "conversions" r)) as [x3|e] eqn:H3;
    [|right; exists "conversions", e; repeat split; auto; set_solver].
  simpl. rewrite normalize_field_lookup, !cell_insert_ne by discriminate.
  destruct (normalize_num (cell "impressions" r)) as [x4|e] eqn:H4;
    [|right; exists "impressions", e; repeat split; auto; set_solver].
  simpl. rewrite normalize_field_lookup, !cell_insert_ne by discriminate.
  destruct (normalize_num (cell "interactions" r)) as [x5|e] eqn:H5;
    [|right; exists "interactions", e; repeat split; auto; set_solver].
  left. exists x1, x2, x3, x4, x5. auto.
Qed.

Lemma numeric_fields_cases (P : string -> Prop) :
  (forall k, k ∈ numeric_fields -> P k)
  <-> P "cost_micros" /\ P "clicks" /\ P "conversions" /\ P "impressions"
      /\ P "interactions".
Proof.
  unfold numeric_fields. split.
  - intros H. repeat split; apply H; set_solver.
  - intros (H1 & H2 & H3 & H4 & H5) k Hk.
    repeat (apply elem_of_cons in Hk as [->|Hk]; [assumption|]).
    apply elem_of_nil in Hk. contradiction.
Qed.

Lemma normalize_row_loaded (d : PyDate.date) (r r' : row) :
  normalize_row d r = Ok r' ->
  r' !! "date" = Some (VDate d)
  /\ (forall k, k ∈ numeric_fields ->
        exists x, normalize_num (cell k r) = Ok x /\ r' !! k = Some (VFloat x))
  /\ (forall k, k <> "date" -> k ∉ numeric_fields -> r' !! k = r !! k).
Proof.
  intros H.
  destruct (normalize_row_cases d r)
    as [(x1 & x2 & x3 & x4 & x5 & H1 & H2 & H3 & H4 & H5)|(k & e & _ & _ & E)];
    [|congruence].
  rewrite (normalize_row_ok d r _ _ _ _ _ H1 H2 H3 H4 H5) in H.
  injection H as <-. split; [apply lookup_insert_eq|]. split.
  - apply numeric_fields_cases; repeat split; eexists; (split; [eassumption|]);
      repeat (rewrite lookup_insert_ne by discriminate); apply lookup_insert_eq.
  - intros k Hd Hk. unfold numeric_fields in Hk.
    rewrite !not_elem_of_cons in Hk. destruct Hk as (?&?&?&?&?&_).
    rewrite !lookup_insert_ne by congruence. reflexivity.
Qed.

End RowFacts.

Section LoopFacts.

Lemma process_row_kept (start_dt end_dt : option PyDate.date) (r r' : row) :
  process_row start_dt end_dt r = Ok (Some r') ->
  exists sd d, r !! "date" = Some (VStr sd) /\ PyDate.strptime sd = Some d
    /\ in_bounds start_dt end_dt d = true /\ normalize_row d r = Ok r'.
Proof.
  intros H. destruct (r !! "date") as [[sd| | |]|] eqn:Hr;
    try (unfold process_row in H; rewrite Hr in H; discriminate).
  destruct (PyDate.strptime sd) as [d|] eqn:Hd.
  - rewrite (process_row_parsed _ _ _ _ _ Hr Hd) in H.
    exists sd, d. destruct (in_bounds start_dt end_dt d); [|discriminate].
    destruct (normalize_row d r); simpl in H; [|discriminate].
    injection H as ->. auto.
  - rewrite (process_row_unparsed _ _ _ _ Hr Hd) in H. discriminate.
Qed.

Lemma read_rows_keep (start_dt end_dt : option PyDate.date) (r r' : row)
    (rest : list row) :
  process_row start_dt end_dt r = Ok (Some r') ->
  read_rows start_dt end_dt (r :: rest)
  = (r' ::.) <$> read_rows start_dt end_dt rest.
Proof. intros H. simpl. rewrite H. reflexivity. Qed.


(** When the loop ends normally, the rows kept are those for which the
    body of the loop reached the [append]. *)
Lemma read_rows_elem (start_dt end_dt : option PyDate.date) (rows l : list row)
    (r' : row) :
  read_rows start_dt end_dt rows = Ok l ->
  r' ∈ l <-> exists r, r ∈ rows /\ process_row start_dt end_dt r = Ok (Some r').
Proof.
  revert l. induction rows as [|r rows IH]; intros l H; simpl in H.
  - injection H as <-. split; [intros []%elem_of_nil|].
    intros (r & []%elem_of_nil & _).
  - destruct (process_row start_dt end_dt r) as [[r1|]|e] eqn:E.
    + destruct (read_rows start_dt end_dt rows) as [l'|] eqn:El;
        simpl in H; [|discriminate].
      injection H as <-. rewrite elem_of_cons, (IH l' eq_refl). split.
      * intros [->|(r0 & H0 & H1)]; [exists r|exists r0];
          rewrite elem_of_cons; auto.
      * intros (r0 & [->|H0]%elem_of_cons & H1); [left; congruence|eauto].
    + rewrite (IH l H). split.
      * intros (r0 & H0 & H1). exists r0. rewrite elem_of_cons. auto.
      * intros (r0 & [->|H0]%elem_of_cons & H1); [congruence|eauto].
    + assert (read_rows start_dt end_dt rows = Ok l) as H'
        by (destruct e; try discriminate; exact H).
      rewrite (IH l H'). split.
      * intros (r0 & H0 & H1). exists r0. rewrite elem_of_cons. auto.
      * intros (r0 & [->|H0]%elem_of_cons & H1); [congruence|eauto].
Qed.

Lemma process_row_loaded (start_dt end_dt : option PyDate.date) (r r' : row) :
  process_row start_dt end_dt r = Ok (Some r') -> loaded r'.
Proof.
  intros (sd & d & _ & _ & _ & H)%process_row_kept.
  apply normalize_row_loaded in H as (Hd & Hk & _). split; [eauto|].
  intros k Hin. destruct (Hk k Hin) as (x & _ & Hx). eauto.
Qed.

Lemma read_rows_loaded (start_dt end_dt : option PyDate.date) (rows l : list row) :
  read_rows start_dt end_dt rows = Ok l -> Forall loaded l.
Proof.
  intros H. apply Forall_forall. intros r' Hr'.
  apply (read_rows_elem _ _ _ _ r' H) in Hr' as (r & _ & Hr).
  eapply process_row_loaded, Hr.
Qed.

Lemma all_metrics_loaded (csv : option (list row)) (start_date end_date : option string) :
  Forall loaded (all_metrics csv start_date end_date).
Proof.
  unfold all_metrics. destruct csv as [rows|]; [|constructor].
  destruct (read_rows _ _ rows) eqn:E; [|constructor].
  eapply read_rows_loaded, E.
Qed.

End LoopFacts.

(* ===================================================================== *)
(** ** C2: what the loader drops *)
(* ===================================================================== *)

Section C2.




End C2.

(* ===================================================================== *)
(** ** C4: the date filter *)
(* ===================================================================== *)

Section C4.





End C4.

(* ===================================================================== *)
(** ** Sorting and slicing inside the loader *)
(* ===================================================================== *)

Section LoaderFacts.

Lemma slice_length {A : Type} (l : list A) (start stop : Z) :
  length (PyList.slice l start stop)
  = Z.to_nat (PyList.clip (Z.of_nat (length l)) stop
              - PyList.clip (Z.of_nat (length l)) start).
Proof.
  unfold PyList.slice. rewrite length_take, length_drop.
  unfold PyList.clip.
  destruct (Z.ltb_spec stop 0), (Z.ltb_spec start 0); lia.
Qed.

Lemma slice_from_zero {A : Type} (l : list A) (stop : Z) :
  PyList.slice l 0 stop
  = take (Z.to_nat (PyList.clip (Z.of_nat (length l)) stop)) l.
Proof.
  unfold PyList.slice. replace (PyList.clip (Z.of_nat (length l)) 0) with 0
    by (unfold PyList.clip; simpl; lia).
  rewrite Z.sub_0_r. reflexivity.
Qed.

Lemma slice_Forall {A : Type} (P : A -> Prop) (l : list A) (start stop : Z) :
  Forall P l -> Forall P (PyList.slice l start stop).
Proof. intros H. unfold PyList.slice. apply Forall_take, Forall_drop, H. Qed.

Lemma sort_data_perm (data : list row) (sort_by : string) (sort_desc : bool) :
  Permutation (sort_data data sort_by sort_desc) data.
Proof.
  unfold sort_data. repeat case_decide; try apply sort_perm. reflexivity.
Qed.

Lemma sort_data_length (data : list row) (sort_by : string) (sort_desc : bool) :
  length (sort_data data sort_by sort_desc) = length data.
Proof. apply Permutation_length, sort_data_perm. Qed.

Lemma sort_data_Forall (P : row -> Prop) (data : list row) (sort_by : string)
    (sort_desc : bool) :
  Forall P data -> Forall P (sort_data data sort_by sort_desc).
Proof. intros H. rewrite sort_data_perm. exact H. Qed.

(** The loader returns a slice of the sorted kept rows, and their number. *)
Lemma load_metrics_optimized_eq (csv : option (list row))
    (start_date end_date : option string) (sort_by : string) (sort_desc : bool)
    (page page_size : Z) :
  load_metrics_optimized csv start_date end_date sort_by sort_desc page page_size
  = (PyList.slice (sort_data (all_metrics csv start_date end_date) sort_by sort_desc)
       ((page - 1) * page_size) ((page - 1) * page_size + page_size),
     Z.of_nat (length (all_metrics csv start_date end_date))).
Proof.
  assert (forall a b, PyList.slice (sort_data [] sort_by sort_desc) a b = []) as Hnil.
  { intros a b. assert (sort_data [] sort_by sort_desc = []) as ->.
    { apply Permutation_nil. symmetry. apply sort_data_perm. }
    unfold PyList.slice. rewrite drop_nil, take_nil. reflexivity. }
  unfold load_metrics_optimized, all_metrics. destruct csv as [rows|].
  - destruct (read_rows _ _ rows); [reflexivity|]. rewrite Hnil. reflexivity.
  - rewrite Hnil. reflexivity.
Qed.

Lemma load_metrics_optimized_loaded (csv : option (list row))
    (start_date end_date : option string) (sort_by : string) (sort_desc : bool)
    (page page_size : Z) :
  Forall loaded
    (load_metrics_optimized csv start_date end_date sort_by sort_desc
       page page_size).1.
Proof.
  rewrite load_metrics_optimized_eq. simpl.
  apply slice_Forall, sort_data_Forall, all_metrics_loaded.
Qed.

(** The number of rows on a page, for a page size of at least one. *)
Lemma page_length (csv : option (list row)) (start_date end_date : option string)
    (sort_by : string) (sort_desc : bool) (page page_size : Z) :
  1 <= page -> 1 <= page_size ->
  Z.of_nat (length (load_metrics_optimized csv start_date end_date sort_by
                      sort_desc page page_size).1)
  = Z.min page_size
      (Z.max 0 (Z.of_nat (length (all_metrics csv start_date end_date))
                - (page - 1) * page_size)).
Proof.
  intros Hp Hs. rewrite load_metrics_optimized_eq. simpl.
  rewrite slice_length, sort_data_length. unfold PyList.clip.
  assert (0 <= (page - 1) * page_size) by nia.
  destruct (Z.ltb_spec ((page - 1) * page_size + page_size) 0),
    (Z.ltb_spec ((page - 1) * page_size) 0); lia.
Qed.

End LoaderFacts.

(* ===================================================================== *)
(** ** The presenter on loaded rows *)
(* ===================================================================== *)

Section PresenterFacts.

Lemma bind_Ok {E A B : Type} (a : A) (f : A -> result E B) :
  (Ok a ≫= f) = f a.
Proof. reflexivity. Qed.

Lemma fmap_Ok {E A B : Type} (a : A) (f : A -> B) :
  f <$> (Ok a : result E A) = Ok (f a).
Proof. reflexivity. Qed.

Lemma eq_str_iff (v : value) (s : string) : eq_str v s = true <-> v = VStr s.
Proof.
  destruct v as [t| | |]; simpl; try (split; [discriminate|congruence]).
  rewrite String.eqb_eq. split; congruence.
Qed.

Lemma format_br_float (x : PyFloat.float) : exists v, format_br (VFloat x) = Ok v.
Proof. simpl. destruct (PyFloat.eq x PyFloat.zero); eauto. Qed.

Lemma format_field_loaded (k : string) (r : row) :
  loaded r -> k ∈ numeric_fields -> exists v, format_field k r = Ok v.
Proof.
  intros [_ H] Hk. destruct (H k Hk) as [x Hx].
  unfold format_field. rewrite Hx. apply format_br_float.
Qed.

Lemma format_date_loaded (now : PyDate.date) (r : row) :
  loaded r -> exists v, format_date now r = Ok v.
Proof.
  intros [[d Hd] _]. unfold format_date. rewrite Hd. simpl. eauto.
Qed.

(** The item built for a loaded row: the seven public keys, and
    [cost_micros] exactly for the role [admin]. *)
Lemma format_row_loaded (now : PyDate.date) (current_user r : row) (role : value) :
  loaded r -> current_user !! "role" = Some role ->
  exists item, format_row now current_user r = Ok item
    /\ (is_Some (item !! "cost_micros") <-> role = VStr "admin")
    /\ Forall (fun k => is_Some (item !! k))
         ["account_id"; "campaign_id"; "clicks"; "conversions"; "impressions";
          "interactions"; "date"].
Proof.
  intros Hr Hrole.
  destruct (format_field_loaded "clicks" r Hr) as [v1 H1]; [set_solver|].
  destruct (format_field_loaded "conversions" r Hr) as [v2 H2]; [set_solver|].
  destruct (format_field_loaded "impressions" r Hr) as [v3 H3]; [set_solver|].
  destruct (format_field_loaded "interactions" r Hr) as [v4 H4]; [set_solver|].
  destruct (format_field_loaded "cost_micros" r Hr) as [v5 H5]; [set_solver|].
  destruct (format_date_loaded now r Hr) as [v6 H6].
  unfold format_row, subscript.
  rewrite H1, bind_Ok, H2, bind_Ok, H3, bind_Ok, H4, bind_Ok, H6, bind_Ok,
    Hrole, bind_Ok.
  destruct (eq_str role "admin") eqn:E.
  - rewrite H5, bind_Ok. eexists. split; [reflexivity|]. split.
    + rewrite lookup_insert_eq. apply eq_str_iff in E. split; eauto.
    + repeat constructor;
        repeat (rewrite lookup_insert_ne by discriminate);
        rewrite lookup_insert_eq; eauto.
  - eexists. split; [reflexivity|]. split.
    + repeat (rewrite lookup_insert_ne by discriminate). rewrite lookup_empty.
      split; [intros [? [=]]|]. intros ->. discriminate.
    + repeat constructor;
        repeat (rewrite lookup_insert_ne by discriminate);
        rewrite lookup_insert_eq; eauto.
Qed.

Lemma format_rows_loaded (now : PyDate.date) (current_user : row)
    (data : list row) (role : value) :
  Forall loaded data -> current_user !! "role" = Some role ->
  exists items, format_rows now current_user data = Ok items
    /\ length items = length data
    /\ Forall (fun item => is_Some (item !! "cost_micros") <-> role = VStr "admin")
         items.
Proof.
  intros Hd Hrole. induction Hd as [|r data Hr Hd (items & E & Hl & Hi)].
  - exists []. repeat split. constructor.
  - destruct (format_row_loaded now current_user r role Hr Hrole)
      as (item & Ei & Hc & _).
    exists (item :: items). simpl. rewrite Ei, bind_Ok, E, fmap_Ok.
    repeat split; [simpl; lia|constructor; assumption].
Qed.

(** Without a [role] key the first row already raises. *)
Lemma format_rows_no_role (now : PyDate.date) (current_user r : row)
    (data : list row) :
  loaded r -> current_user !! "role" = None ->
  format_rows now current_user (r :: data) = Raise (Exn KeyError "'role'").
Proof.
  intros Hr Hrole.
  destruct (format_field_loaded "clicks" r Hr) as [v1 H1]; [set_solver|].
  destruct (format_field_loaded "conversions" r Hr) as [v2 H2]; [set_solver|].
  destruct (format_field_loaded "impressions" r Hr) as [v3 H3]; [set_solver|].
  destruct (format_field_loaded "interactions" r Hr) as [v4 H4]; [set_solver|].
  destruct (format_date_loaded now r Hr) as [v6 H6].
  simpl. unfold format_row, subscript.
  rewrite H1, bind_Ok, H2, bind_Ok, H3, bind_Ok, H4, bind_Ok, H6, bind_Ok, Hrole.
  reflexivity.
Qed.

End PresenterFacts.

(* ===================================================================== *)
(** ** The two shapes of the answer of [GET /data] *)
(* ===================================================================== *)

Section DataFacts.

Context (csv : option (list row)) (now : PyDate.date)
  (start_date end_date : option string) (sort_by : string) (sort_desc : bool)
  (page page_size : Z) (current_user : row).

Local Abbreviation the_page :=
  (requested_page csv start_date end_date sort_by sort_desc page page_size).

Lemma get_metrics_data_empty (u : value) :
  current_user !! "username" = Some u -> the_page = [] ->
  get_metrics_data csv now start_date end_date sort_by sort_desc page page_size
    current_user
  = Ok200 {[ "data" := JList [];
             "total" := JInt 0;
             "page" := JInt (Z.max 1 page);
             "page_size" := JInt (Z.min page_size MAX_RECORDS_PER_REQUEST);
             "total_pages" := JInt 0;
             "message" := JStr "Nenhum dado encontrado" ]}.
Proof.
  unfold requested_page, get_metrics_data, get_metrics_data_body, subscript.
  intros -> H. rewrite bind_Ok.
  destruct (load_metrics_optimized _ _ _ _ _ _ _) as [data total].
  simpl in H. subst data. reflexivity.
Qed.

Lemma get_metrics_data_page (u role : value) :
  current_user !! "username" = Some u -> current_user !! "role" = Some role ->
  the_page <> [] ->
  exists items,
    get_metrics_data csv now start_date end_date sort_by sort_desc page page_size
      current_user
    = Ok200 {[ "data" := JList items;
               "total" := JInt (Z.of_nat (length (all_metrics csv start_date end_date)));
               "page" := JInt (Z.max 1 page);
               "page_size" := JInt (Z.min page_size MAX_RECORDS_PER_REQUEST);
               "total_pages" :=
                 JInt ((Z.of_nat (length (all_metrics csv start_date end_date))
                        + Z.min page_size MAX_RECORDS_PER_REQUEST - 1)
                       / Z.min page_size MAX_RECORDS_PER_REQUEST);
               "showing" := JInt (Z.of_nat (length items)) ]}
    /\ length items = length the_page
    /\ Forall (fun item => is_Some (item !! "cost_micros") <-> role = VStr "admin")
         items.
Proof.
  intros Hu Hrole Hne.
  destruct (format_rows_loaded now current_user the_page role) as (items & E & Hl & Hi);
    [apply load_metrics_optimized_loaded|exact Hrole|].
  exists items. split; [|split; assumption].
  unfold requested_page in *.
  unfold get_metrics_data, get_metrics_data_body, subscript.
  rewrite Hu, bind_Ok. rewrite load_metrics_optimized_eq in *. simpl in *.
  destruct (PyList.slice _ _ _) as [|r data]; [congruence|].
  rewrite E, bind_Ok. reflexivity.
Qed.

End DataFacts.

(* ===================================================================== *)
(** ** C3, C9, C10: pagination *)
(* ===================================================================== *)

Section Pagination.

Lemma ceil_div (total ps : Z) :
  0 <= total -> 1 <= ps ->
  ((total + ps - 1) / ps - 1) * ps < total <= (total + ps - 1) / ps * ps.
Proof.
  intros Ht Hp.
  pose proof (Z.div_mod (total + ps - 1) ps ltac:(lia)).
  pose proof (Z.mod_pos_bound (total + ps - 1) ps ltac:(lia)). nia.
Qed.

Lemma div_negative (a k : Z) :
  0 <= a -> 1 <= k -> a / (- k) <= 0 /\ (a / (- k) < 0 <-> 0 < a).
Proof.
  intros Ha Hk.
  pose proof (Z.div_mod a (- k) ltac:(lia)).
  pose proof (Z.mod_neg_bound a (- k) ltac:(lia)). nia.
Qed.

(** C3, as the spec states it, fails: three rows are kept, page 2 of
    size 5 starts beyond them, and the answer gives 0 pages, not
    [ceil(3 / 5) = 1]. *)
Lemma empty_page_total_pages :
  length (all_metrics (Some three_rows) None None) = 3%nat
  /\ response_field
       (get_metrics_data (Some three_rows) some_day None None "date" false 2 5
          viewer_user) "total_pages" = Some (JInt 0)
  /\ (3 + 5 - 1) / 5 = 1.
Proof. vm_compute. repeat split; reflexivity. Qed.

(** C3 (amended).  For a caller with a user name and a role, a requested
    page size of at least 1, [page] clamped to at least 1 and
    [page_size] to at most 1000, and [total] rows kept by the filter:
    - the answer is a 200 whose [data] has
      [min(page_size, max(0, total - (page-1)*page_size))] items;
    - when that number is positive, [total] is the number of kept rows
      and [total_pages] is [ceil(total / page_size)];
    - when it is zero, as for a page that starts beyond the data, the
      answer is still a 200, with empty [data], and it reports [total]
      0 and [total_pages] 0. *)
Theorem page_count_and_total_pages (csv : option (list row)) (now : PyDate.date)
    (start_date end_date : option string) (sort_by : string) (sort_desc : bool)
    (page page_size : Z) (current_user : row) (u role : value) :
  current_user !! "username" = Some u -> current_user !! "role" = Some role ->
  1 <= page_size ->
  let p := Z.max 1 page in
  let ps := Z.min page_size MAX_RECORDS_PER_REQUEST in
  let total := Z.of_nat (length (all_metrics csv start_date end_date)) in
  let count := Z.min ps (Z.max 0 (total - (p - 1) * ps)) in
  exists body,
    get_metrics_data csv now start_date end_date sort_by sort_desc page page_size
      current_user = Ok200 body
    /\ Z.of_nat (length (items_of body "data")) = count
    /\ (0 < count ->
          body !! "total" = Some (JInt total)
          /\ body !! "total_pages" = Some (JInt ((total + ps - 1) / ps))
          /\ ((total + ps - 1) / ps - 1) * ps < total <= (total + ps - 1) / ps * ps)
    /\ (count = 0 ->
          body !! "data" = Some (JList [])
          /\ body !! "total" = Some (JInt 0)
          /\ body !! "total_pages" = Some (JInt 0))
    /\ (total <= (p - 1) * ps -> count = 0).
Proof.
  intros Hu Hrole Hps p ps total count.
  assert (1 <= p) as Hp by (unfold p; lia).
  assert (1 <= ps) as Hps' by (unfold ps, MAX_RECORDS_PER_REQUEST; lia).
  pose proof (page_length csv start_date end_date sort_by sort_desc p ps Hp Hps')
    as Hlen.
  fold total in Hlen. fold count in Hlen.
  change (load_metrics_optimized _ _ _ _ _ _ _).1
    with (requested_page csv start_date end_date sort_by sort_desc page page_size)
    in Hlen.
  destruct (requested_page csv start_date end_date sort_by sort_desc page page_size)
    as [|r data] eqn:E.
  - eexists. split; [eapply get_metrics_data_empty; eassumption|].
    simpl in Hlen. split; [exact Hlen|]. split; [lia|].
    split; [|lia]. intros _. repeat split; reflexivity.
  - destruct (get_metrics_data_page csv now start_date end_date sort_by sort_desc
                page page_size current_user u role Hu Hrole) as (items & Eq & Hl & _);
      [rewrite E; discriminate|].
    eexists. split; [exact Eq|]. rewrite E in Hl.
    unfold items_of at 1. rewrite lookup_insert_eq.
    rewrite Hl, Hlen. split; [reflexivity|]. split; [|split].
    + intros _. split; [reflexivity|]. split; [reflexivity|].
      apply ceil_div; lia.
    + simpl length in Hlen. lia.
    + lia.
Qed.

Lemma page_count_and_total_pages_witness :
  exists body,
    get_metrics_data (Some three_rows) some_day None None "clicks" true 2 2
      admin_user = Ok200 body
    /\ Z.of_nat (length (items_of body "data")) = 1
    /\ body !! "total_pages" = Some (JInt 2).
Proof.
  destruct (page_count_and_total_pages (Some three_rows) some_day None None
              "clicks" true 2 2 admin_user (VStr "ana") (VStr "admin")
              eq_refl eq_refl ltac:(lia))
    as (body & E & Hn & Hpos & _).
  exists body. split; [exact E|]. split; [exact Hn|].
  apply Hpos. reflexivity.
Defined.

(** C9.  When the filter keeps at least one row but the requested page
    is empty, [GET /data] answers 200 with [total] 0, [total_pages] 0
    and a [message], and so does not report the number of kept rows.
    A page that starts at or beyond the end of the kept rows is empty. *)
Theorem empty_page_reports_zero (csv : option (list row)) (now : PyDate.date)
    (start_date end_date : option string) (sort_by : string) (sort_desc : bool)
    (page page_size : Z) (current_user : row) (u : value) :
  current_user !! "username" = Some u ->
  0 < Z.of_nat (length (all_metrics csv start_date end_date)) ->
  (requested_page csv start_date end_date sort_by sort_desc page page_size = [] ->
     get_metrics_data csv now start_date end_date sort_by sort_desc page page_size
       current_user
     = Ok200 {[ "data" := JList [];
                "total" := JInt 0;
                "page" := JInt (Z.max 1 page);
                "page_size" := JInt (Z.min page_size MAX_RECORDS_PER_REQUEST);
                "total_pages" := JInt 0;
                "message" := JStr "Nenhum dado encontrado" ]}
     /\ response_field
          (get_metrics_data csv now start_date end_date sort_by sort_desc page
             page_size current_user) "total"
        <> Some (JInt (Z.of_nat (length (all_metrics csv start_date end_date)))))
  /\ (1 <= page_size ->
       Z.of_nat (length (all_metrics csv start_date end_date))
       <= (Z.max 1 page - 1) * Z.min page_size MAX_RECORDS_PER_REQUEST ->
       requested_page csv start_date end_date sort_by sort_desc page page_size = []).
Proof.
  intros Hu Htotal. split.
  - intros He.
    rewrite (get_metrics_data_empty csv now start_date end_date sort_by sort_desc
               page page_size current_user u Hu He).
    split; [reflexivity|]. simpl. rewrite lookup_insert_ne by discriminate.
    rewrite lookup_insert_eq. intros [= H]. lia.
  - intros Hps Hbeyond. apply length_zero_iff_nil.
    pose proof (page_length csv start_date end_date sort_by sort_desc
                  (Z.max 1 page) (Z.min page_size MAX_RECORDS_PER_REQUEST)) as H.
    unfold requested_page. unfold MAX_RECORDS_PER_REQUEST in *. lia.
Qed.

Lemma empty_page_reports_zero_witness :
  response_field
    (get_metrics_data (Some three_rows) some_day None None "date" false 2 5
       viewer_user) "total" = Some (JInt 0)
  /\ response_field
       (get_metrics_data (Some three_rows) some_day None None "date" false 2 5
          viewer_user) "message" = Some (JStr "Nenhum dado encontrado").
Proof.
  destruct (empty_page_reports_zero (Some three_rows) some_day None None "date"
              false 2 5 viewer_user (VStr "bia") eq_refl ltac:(vm_compute; reflexivity))
    as [H _].
  destruct (H eq_refl) as [-> _]. split; reflexivity.
Defined.

(** C10, as stated, fails on its last clause: with three kept rows and
    [page_size = -2] the answer holds one row and [total_pages] is
    [(3 - 2 - 1) // -2 = 0], which is not negative. *)
Lemma negative_page_size_zero_pages :
  length (all_metrics (Some three_rows) None None) = 3%nat
  /\ response_field
       (get_metrics_data (Some three_rows) some_day None None "date" false 1 (-2)
          viewer_user) "total_pages" = Some (JInt 0)
  /\ length (items_of
               match get_metrics_data (Some three_rows) some_day None None "date"
                       false 1 (-2) viewer_user with
               | Ok200 body => body
               | HTTPException _ _ => ∅
               end "data") = 1%nat.
Proof. vm_compute. repeat split; reflexivity. Qed.

(** C10 (amended).  A page size of 0 or less passes the clamp unchanged.
    With [page = 1]: a page size of 0 gives the empty answer, reported
    with [total] 0; a page size of [-k], [k >= 1], with more than [k]
    kept rows gives all the sorted rows but the last [k], and
    [total_pages = (total - k - 1) // -k], which is never positive: it
    is 0 when [total = k + 1] and negative when [total > k + 1]. *)
Theorem nonpositive_page_size (csv : option (list row)) (now : PyDate.date)
    (start_date end_date : option string) (sort_by : string) (sort_desc : bool)
    (current_user : row) (u role : value) (k : Z) :
  current_user !! "username" = Some u -> current_user !! "role" = Some role ->
  let total := Z.of_nat (length (all_metrics csv start_date end_date)) in
  (forall page_size, page_size <= 0 ->
     Z.min page_size MAX_RECORDS_PER_REQUEST = page_size)
  /\ get_metrics_data csv now start_date end_date sort_by sort_desc 1 0 current_user
     = Ok200 {[ "data" := JList [];
                "total" := JInt 0;
                "page" := JInt 1;
                "page_size" := JInt 0;
                "total_pages" := JInt 0;
                "message" := JStr "Nenhum dado encontrado" ]}
  /\ (1 <= k -> k < total ->
       requested_page csv start_date end_date sort_by sort_desc 1 (- k)
       = take (Z.to_nat (total - k))
           (sort_data (all_metrics csv start_date end_date) sort_by sort_desc)
       /\ (exists items,
            get_metrics_data csv now start_date end_date sort_by sort_desc 1 (- k)
              current_user
            = Ok200 {[ "data" := JList items;
                       "total" := JInt total;
                       "page" := JInt 1;
                       "page_size" := JInt (- k);
                       "total_pages" := JInt ((total + - k - 1) / (- k));
                       "showing" := JInt (Z.of_nat (length items)) ]}
            /\ Z.of_nat (length items) = total - k)
       /\ (total + - k - 1) / (- k) <= 0
       /\ ((total + - k - 1) / (- k) < 0 <-> k + 1 < total)).
Proof.
  intros Hu Hrole total. split; [|split].
  - intros ps Hps. unfold MAX_RECORDS_PER_REQUEST. lia.
  - apply (get_metrics_data_empty csv now start_date end_date sort_by sort_desc
             1 0 current_user u Hu).
    unfold requested_page. rewrite load_metrics_optimized_eq. simpl.
    apply length_zero_iff_nil. rewrite slice_length. unfold PyList.clip. simpl. lia.
  - intros Hk Hlt.
    assert (Z.min (- k) MAX_RECORDS_PER_REQUEST = - k) as Hmin
      by (unfold MAX_RECORDS_PER_REQUEST; lia).
    assert (requested_page csv start_date end_date sort_by sort_desc 1 (- k)
            = take (Z.to_nat (total - k))
                (sort_data (all_metrics csv start_date end_date) sort_by sort_desc))
      as Hpage.
    { unfold requested_page. rewrite load_metrics_optimized_eq, Hmin. simpl fst.
      replace ((Z.max 1 1 - 1) * - k) with 0 by lia.
      rewrite slice_from_zero, sort_data_length. unfold PyList.clip. fold total.
      destruct (Z.ltb_spec (0 + - k) 0); [|lia]. f_equal. lia. }
    split; [exact Hpage|]. split;
      [|destruct (div_negative (total + - k - 1) k) as [H1 H2]; [lia..|];
        split; [exact H1|rewrite H2; lia]].
    destruct (get_metrics_data_page csv now start_date end_date sort_by sort_desc
                1 (- k) current_user u role Hu Hrole) as (items & Eq & Hl & _).
    { rewrite Hpage. intros H. apply (f_equal length) in H.
      rewrite length_take, sort_data_length in H. simpl in H. lia. }
    exists items. rewrite Hmin in Eq. split; [exact Eq|].
    rewrite Hl, Hpage, length_take, sort_data_length. lia.
Qed.

Lemma nonpositive_page_size_witness :
  exists items,
    response_field
      (get_metrics_data (Some three_rows) some_day None None "date" false 1 (-1)
         viewer_user) "data" = Some (JList items)
    /\ Z.of_nat (length items) = 2
    /\ (3 + -1 - 1) / (-1) < 0.
Proof.
  destruct (nonpositive_page_size (Some three_rows) some_day None None "date" false
              viewer_user (VStr "bia") (VStr "user") 1 eq_refl eq_refl)
    as (_ & _ & H).
  destruct H as (_ & (items & E & Hn) & _ & Hneg);
    [lia|vm_compute; reflexivity|].
  exists items. split; [|split; [exact Hn|]].
  - exact (f_equal (fun r => response_field r "data") E).
  - apply Hneg. vm_compute. reflexivity.
Defined.

End Pagination.

(* ===================================================================== *)
(** ** C6: role gating of [cost_micros] *)
(* ===================================================================== *)

Section C6.

Lemma base_columns_public :
  Forall (fun c : gmap string string => c !! "key" <> Some "cost_micros") base_columns.
Proof. repeat constructor; vm_compute; discriminate. Qed.

Lemma get_available_columns_role (current_user : row) (role : value) :
  current_user !! "role" = Some role ->
  exists cols, get_available_columns current_user = Ok {[ "columns" := JList cols ]}
    /\ ((exists c, c ∈ cols /\ c !! "key" = Some "cost_micros") <-> role = VStr "admin").
Proof.
  intros Hrole. unfold get_available_columns, subscript. rewrite Hrole, bind_Ok.
  eexists. split; [reflexivity|]. rewrite <- eq_str_iff.
  destruct (eq_str role "admin").
  - split; [reflexivity|]. intros _.
    exists (column "cost_micros" "Cost (Micros)"). split; [|reflexivity].
    unfold list_insert_at. simpl. set_solver.
  - split; [|discriminate]. intros (c & Hc & Hk). exfalso.
    pose proof base_columns_public as H. rewrite Forall_forall in H.
    exact (H c Hc Hk).
Qed.

(** C6.  For a caller with a user name and a role: every item of the
    [data] of [GET /data] has the key [cost_micros] if and only if the
    role is [admin], and has no such key at all otherwise; the answer
    of [GET /columns] lists a column with key [cost_micros] if and only
    if the role is [admin]. *)
Theorem cost_micros_only_for_admin (csv : option (list row)) (now : PyDate.date)
    (start_date end_date : option string) (sort_by : string) (sort_desc : bool)
    (page page_size : Z) (current_user : row) (u role : value) :
  current_user !! "username" = Some u -> current_user !! "role" = Some role ->
  (exists items,
     response_field
       (get_metrics_data csv now start_date end_date sort_by sort_desc page
          page_size current_user) "data" = Some (JList items)
     /\ length items
        = length (requested_page csv start_date end_date sort_by sort_desc
                    page page_size)
     /\ Forall (fun item =>
                  (is_Some (item !! "cost_micros") <-> role = VStr "admin")
                  /\ (role <> VStr "admin" -> item !! "cost_micros" = None))
          items)
  /\ (exists cols,
        get_available_columns current_user = Ok {[ "columns" := JList cols ]}
        /\ ((exists c, c ∈ cols /\ c !! "key" = Some "cost_micros")
            <-> role = VStr "admin")).
Proof.
  intros Hu Hrole. split; [|apply get_available_columns_role, Hrole].
  destruct (requested_page csv start_date end_date sort_by sort_desc page page_size)
    as [|r data] eqn:E.
  - exists []. rewrite (get_metrics_data_empty _ _ _ _ _ _ _ _ _ u Hu E).
    repeat split. constructor.
  - destruct (get_metrics_data_page csv now start_date end_date sort_by sort_desc
                page page_size current_user u role Hu Hrole) as (items & Eq & Hl & Hi);
      [rewrite E; discriminate|].
    exists items. rewrite Eq, <- E. split; [reflexivity|]. split; [exact Hl|].
    eapply Forall_impl; [exact Hi|]. intros item H. split; [exact H|].
    intros Hne. destruct (item !! "cost_micros") eqn:Ec; [|reflexivity].
    exfalso. apply Hne, H. eauto.
Qed.

Lemma cost_micros_only_for_admin_witness :
  (exists items,
     response_field
       (get_metrics_data (Some three_rows) some_day None None "date" false 1 25
          viewer_user) "data" = Some (JList items)
     /\ length items = 3%nat
     /\ Forall (fun item : gmap string string => item !! "cost_micros" = None) items)
  /\ (exists items,
        response_field
          (get_metrics_data (Some three_rows) some_day None None "date" false 1 25
             admin_user) "data" = Some (JList items)
        /\ length items = 3%nat
        /\ Forall (fun item : gmap string string => is_Some (item !! "cost_micros"))
             items).
Proof.
  split.
  - destruct (cost_micros_only_for_admin (Some three_rows) some_day None None
                "date" false 1 25 viewer_user (VStr "bia") (VStr "user")
                eq_refl eq_refl) as [(items & E & Hl & Hi) _].
    exists items. split; [exact E|]. split; [exact Hl|].
    eapply Forall_impl; [exact Hi|]. intros item [_ H]. apply H. discriminate.
  - destruct (cost_micros_only_for_admin (Some three_rows) some_day None None
                "date" false 1 25 admin_user (VStr "ana") (VStr "admin")
                eq_refl eq_refl) as [(items & E & Hl & Hi) _].
    exists items. split; [exact E|]. split; [exact Hl|].
    eapply Forall_impl; [exact Hi|]. intros item [H _]. apply H. reflexivity.
Defined.

End C6.

(* ===================================================================== *)
(** ** C7: the sample of [GET /stats] *)
(* ===================================================================== *)

Section C7.

Lemma date_lt_asym (a b : PyDate.date) :
  True -> True -> PyDate.lt a b = true -> PyDate.lt b a = false.
Proof. intros _ _. rewrite !date_lt_rank. apply lex_lt_asym. Qed.

Lemma date_lt_negtrans (a b c : PyDate.date) :
  True -> True -> True ->
  PyDate.lt a c = true -> PyDate.lt a b = true \/ PyDate.lt b c = true.
Proof. intros _ _ _. rewrite !date_lt_rank. apply lex_lt_negtrans. Qed.

Lemma sort_by_date_ascending (data : list row) :
  StronglySorted (fun a b => date_le (date_key a) (date_key b) = true)
    (sort_data data "date" false).
Proof.
  unfold sort_data. rewrite decide_True by reflexivity.
  destruct (sort_sorted date_key PyDate.lt (fun _ => True)
              date_lt_asym date_lt_negtrans data) as [H _].
  { apply Forall_forall. auto. }
  eapply StronglySorted_weaken; [|exact H].
  intros a b _ _ Hab. unfold date_le. rewrite Hab. reflexivity.
Qed.

Lemma sum_from_loaded (k : string) (rows : list row) (acc : option PyFloat.float) :
  k ∈ numeric_fields -> Forall loaded rows ->
  exists acc', sum_from acc k rows = Ok acc'
    /\ default PyFloat.zero acc'
       = fold_left PyFloat.add (map (field k) rows) (default PyFloat.zero acc).
Proof.
  intros Hk Hl. revert acc. induction Hl as [|r rows [_ Hr] Hl IH]; intros acc.
  - exists acc. split; reflexivity.
  - destruct (Hr k Hk) as [x Hx].
    assert (field k r = x) as Hf by (unfold field; rewrite Hx; reflexivity).
    simpl. rewrite Hx, Hf.
    destruct (IH (Some (PyFloat.add (default PyFloat.zero acc) x)))
      as (acc' & E & H).
    exists acc'. split; [exact E|exact H].
Qed.

Lemma sum_field_loaded (k : string) (rows : list row) :
  k ∈ numeric_fields -> Forall loaded rows ->
  sum_field k rows = Ok (float_sum (map (field k) rows)).
Proof.
  intros Hk Hl. unfold sum_field.
  destruct (sum_from_loaded k rows None Hk Hl) as (acc' & E & H).
  rewrite E, fmap_Ok, H. reflexivity.
Qed.

(** C7.  For a caller with a user name, [GET /stats] answers 200; with
    [total] the number of rows kept by the date filter and [sample] the
    first 5000 of them in ascending order of date (all of them when there
    are fewer):
    - [sample] has [min(5000, total)] rows, and the order it is taken
      from is ascending in the date and keeps the kept rows;
    - [total_records] is [total];
    - the three sums are those of the rows of [sample];
    - when [total] exceeds the size of the sample, [note] names that
      size. *)
Theorem stats_over_sample (csv : option (list row))
    (start_date end_date : option string) (current_user : row) (u : value) :
  current_user !! "username" = Some u ->
  let kept := all_metrics csv start_date end_date in
  let total := Z.of_nat (length kept) in
  let sample := take 5000 (sort_data kept "date" false) in
  Z.of_nat (length sample) = Z.min 5000 total
  /\ Permutation (sort_data kept "date" false) kept
  /\ StronglySorted (fun a b => date_le (date_key a) (date_key b) = true)
       (sort_data kept "date" false)
  /\ exists body,
       get_basic_stats csv start_date end_date current_user = Ok200 body
       /\ body !! "total_records" = Some (JInt total)
       /\ body !! "total_clicks"
          = Some (JStr (PyFloat.format_f 0 (float_sum (map (field "clicks") sample))))
       /\ body !! "total_conversions"
          = Some (JStr (PyFloat.format_f 0
                          (float_sum (map (field "conversions") sample))))
       /\ body !! "total_impressions"
          = Some (JStr (PyFloat.format_f 0
                          (float_sum (map (field "impressions") sample))))
       /\ (Z.of_nat (length sample) < total ->
             body !! "note"
             = Some (JStr ("Calculado com amostra de " +:+ pretty (length sample)
                             +:+ " registros")))
       /\ body !! "error" = None.
Proof.
  intros Hu kept total sample.
  assert (Z.of_nat (length sample) = Z.min 5000 total) as Hlen.
  { unfold sample. rewrite length_take, sort_data_length. fold kept. lia. }
  split; [exact Hlen|]. split; [apply sort_data_perm|].
  split; [apply sort_by_date_ascending|].
  assert ((load_metrics_optimized csv start_date end_date "date" false 1 5000)
          = (sample, total)) as Hload.
  { rewrite load_metrics_optimized_eq. f_equal.
    change ((1 - 1) * 5000) with 0. rewrite slice_from_zero. unfold sample.
    fold kept. set (sorted := sort_data kept "date" false).
    assert (PyList.clip (Z.of_nat (length sorted)) (0 + 5000)
            = Z.min 5000 (Z.of_nat (length sorted))) as Hc
      by (unfold PyList.clip; simpl; lia).
    rewrite Hc. destruct (Z.le_gt_cases 5000 (Z.of_nat (length sorted))).
    - replace (Z.to_nat (Z.min 5000 (Z.of_nat (length sorted)))) with 5000%nat
        by lia. reflexivity.
    - rewrite !take_ge by lia. reflexivity. }
  assert (Forall loaded sample) as Hs.
  { unfold sample. apply Forall_take, sort_data_Forall, all_metrics_loaded. }
  unfold get_basic_stats, get_basic_stats_body, subscript.
  rewrite Hu, bind_Ok, Hload.
  destruct sample as [|r data] eqn:E.
  - eexists. split; [reflexivity|]. simpl in Hlen.
    replace total with 0 by lia. repeat split. intros H. lia.
  - rewrite !sum_field_loaded by (assumption || set_solver). rewrite !bind_Ok.
    eexists. split; [reflexivity|]. repeat split.
    intros Hlt. apply Z.ltb_lt in Hlt.
    rewrite lookup_insert_ne, lookup_insert_ne, lookup_insert_ne,
      lookup_insert_ne by discriminate.
    rewrite lookup_singleton_eq, Hlt. reflexivity.
Qed.

Lemma stats_over_sample_witness :
  response_field (get_basic_stats (Some three_rows) None None viewer_user)
    "total_records" = Some (JInt 3)
  /\ response_field (get_basic_stats (Some three_rows) None None viewer_user)
       "total_clicks" = Some (JStr "60").
Proof.
  destruct (stats_over_sample (Some three_rows) None None viewer_user (VStr "bia")
              eq_refl) as (_ & _ & _ & body & E & Ht & Hc & _).
  rewrite E. simpl response_field. split; [exact Ht|].
  rewrite Hc. vm_compute. reflexivity.
Defined.

End C7.

(* ===================================================================== *)
(** ** C8: what becomes of an exception in the two handlers *)
(* ===================================================================== *)

Section C8.

(** C8.  Whatever exception [e] the [try] block of a handler raises:
    [GET /data] raises the HTTP error 500 whose detail ends with
    [str(e)]; [GET /stats] answers 200 with the record count 0, the
    three sums ["0"] and [str(e)] under [error].  [GET /stats] answers
    200 in every case, and [GET /data] answers 200 only when its block
    raises nothing. *)
Theorem failure_asymmetry (csv : option (list row)) (now : PyDate.date)
    (start_date end_date : option string) (sort_by : string) (sort_desc : bool)
    (page page_size : Z) (current_user : row) :
  (forall e,
     get_metrics_data_body csv now start_date end_date sort_by sort_desc page
       page_size current_user = Raise e ->
     get_metrics_data csv now start_date end_date sort_by sort_desc page page_size
       current_user
     = HTTPException 500 ("Erro interno do servidor: " +:+ exn_str e))
  /\ (forall e,
        get_basic_stats_body csv start_date end_date current_user = Raise e ->
        get_basic_stats csv start_date end_date current_user
        = Ok200 {[ "total_records" := JInt 0;
                   "total_clicks" := JStr "0";
                   "total_conversions" := JStr "0";
                   "total_impressions" := JStr "0";
                   "error" := JStr (exn_str e) ]})
  /\ (exists body, get_basic_stats csv start_date end_date current_user = Ok200 body)
  /\ (forall body,
        get_metrics_data csv now start_date end_date sort_by sort_desc page
          page_size current_user = Ok200 body ->
        get_metrics_data_body csv now start_date end_date sort_by sort_desc page
          page_size current_user = Ok body)
  /\ (current_user !! "username" = None ->
        get_metrics_data_body csv now start_date end_date sort_by sort_desc page
          page_size current_user = Raise (Exn KeyError "'username'")
        /\ get_basic_stats_body csv start_date end_date current_user
           = Raise (Exn KeyError "'username'")).
Proof.
  split; [|split; [|split; [|split]]].
  - intros e H. unfold get_metrics_data. rewrite H. reflexivity.
  - intros e H. unfold get_basic_stats. rewrite H. reflexivity.
  - unfold get_basic_stats.
    destruct (get_basic_stats_body csv start_date end_date current_user); eauto.
  - intros body. unfold get_metrics_data.
    destruct (get_metrics_data_body _ _ _ _ _ _ _ _ _); [congruence|discriminate].
  - intros H. unfold get_metrics_data_body, get_basic_stats_body, subscript.
    rewrite H. split; reflexivity.
Qed.

Lemma failure_asymmetry_witness :
  get_metrics_data (Some three_rows) some_day None None "date" false 1 25 ∅
  = HTTPException 500 "Erro interno do servidor: 'username'"
  /\ get_basic_stats (Some three_rows) None None ∅
     = Ok200 {[ "total_records" := JInt 0;
                "total_clicks" := JStr "0";
                "total_conversions" := JStr "0";
                "total_impressions" := JStr "0";
                "error" := JStr "'username'" ]}
  /\ get_metrics_data (Some three_rows) some_day None None "date" false 1 25
       {[ "username" := VStr "caio" ]}
     = HTTPException 500 "Erro interno do servidor: 'role'".
Proof.
  destruct (failure_asymmetry (Some three_rows) some_day None None "date" false
              1 25 ∅) as (Hd & Hs & _ & _ & Hu).
  destruct (Hu eq_refl) as [Ed Es].
  split; [exact (Hd _ Ed)|]. split; [exact (Hs _ Es)|].
  destruct (failure_asymmetry (Some three_rows) some_day None None "date" false
              1 25 {[ "username" := VStr "caio" ]}) as (Hd' & _).
  apply (Hd' (Exn KeyError "'role'")). vm_compute. reflexivity.
Defined.

End C8.

(* ===================================================================== *)
(** ** C5: the sorter *)
(* ===================================================================== *)

Section C5.

Lemma float_lt_asym (a b : PyFloat.float) :
  not_nan a -> not_nan b -> PyFloat.lt a b = true -> PyFloat.lt b a = false.
Proof.
  intros Ha Hb. rewrite (float_lt_rank a b Ha Hb), (float_lt_rank b a Hb Ha).
  apply lex_lt_asym.
Qed.

Lemma float_lt_negtrans (a b c : PyFloat.float) :
  not_nan a -> not_nan b -> not_nan c ->
  PyFloat.lt a c = true -> PyFloat.lt a b = true \/ PyFloat.lt b c = true.
Proof.
  intros Ha Hb Hc.
  rewrite (float_lt_rank a c Ha Hc), (float_lt_rank a b Ha Hb),
    (float_lt_rank b c Hb Hc).
  apply lex_lt_negtrans.
Qed.

Lemma string_ltb_irrefl (a : string) : String.ltb a a = false.
Proof.
  unfold String.ltb. pose proof (String.compare_antisym a a) as H.
  destruct (String.compare a a); simpl in H; congruence.
Qed.

Lemma string_eqb_not_lt (a b : string) :
  String.eqb a b = negb (String.ltb a b) && negb (String.ltb b a).
Proof.
  destruct (String.eqb_spec a b) as [->|Hne].
  - rewrite string_ltb_irrefl. reflexivity.
  - destruct (String.ltb a b) eqn:E1; [reflexivity|].
    destruct (String.ltb b a) eqn:E2; [reflexivity|].
    exfalso. apply Hne, string_ltb_total; assumption.
Qed.

Lemma date_eq_not_lt (a b : PyDate.date) :
  PyDate.eq a b = negb (PyDate.lt a b) && negb (PyDate.lt b a).
Proof. unfold PyDate.eq, PyDate.lt. lia. Qed.

(** Filtering on a key value is compatible with the moves of the sort. *)
Lemma respects_float_eq (key : row -> PyFloat.float) (x : PyFloat.float) :
  respects key PyFloat.lt not_nan (fun r => PyFloat.eq (key r) x).
Proof.
  destruct (PyFloat.is_nan x) eqn:Hx.
  - intros a b _ _ Ha. destruct x; try discriminate. cbv beta in Ha.
    destruct (float_nan_unordered (key a)) as (_ & _ & _ & _ & H).
    unfold PyFloat.nan in H. congruence.
  - intros a b Ha Hb Hpa Hlt. cbv beta in *.
    rewrite (float_eq_not_lt _ _ Ha Hx) in Hpa.
    rewrite (float_eq_not_lt _ _ Hb Hx).
    exact (respects_unordered key PyFloat.lt not_nan float_lt_negtrans x Hx
             a b Ha Hb Hpa Hlt).
Qed.

Lemma respects_date_eq (d : PyDate.date) :
  respects date_key PyDate.lt (fun _ => True) (fun r => PyDate.eq (date_key r) d).
Proof.
  intros a b Ha Hb Hpa Hlt. cbv beta in *. rewrite date_eq_not_lt in *.
  exact (respects_unordered date_key PyDate.lt (fun _ => True) date_lt_negtrans
           d I a b I I Hpa Hlt).
Qed.

Lemma respects_string_eq (key : row -> string) (s : string) :
  respects key String.ltb (fun _ => True) (fun r => String.eqb (key r) s).
Proof.
  intros a b Ha Hb Hpa Hlt. cbv beta in *. rewrite string_eqb_not_lt in *.
  exact (respects_unordered key String.ltb (fun _ => True)
           (fun a b c _ _ _ => string_ltb_negtrans a b c) s I a b I I Hpa Hlt).
Qed.

Lemma all_ok {A : Type} (l : list A) : Forall (fun _ => True) l.
Proof. apply Forall_forall. auto. Qed.

Lemma numeric_field_not_date (k : string) : k ∈ numeric_fields -> k <> "date".
Proof.
  intros Hk ->. revert Hk. unfold numeric_fields.
  rewrite !elem_of_cons, elem_of_nil. intros [H|[H|[H|[H|[H|[]]]]]]; discriminate.
Qed.

(** C5, as the spec states it, fails: the loader reads the text [nan]
    as a NaN, a NaN is not ordered with any number, and sorting the
    three rows by clicks leaves 2.0, NaN, 1.0 in place. *)
Lemma nan_breaks_numeric_order :
  map (num_key "clicks") (sort_data nan_rows "clicks" false)
  = [PyFloat.of_Z 2; PyFloat.nan; PyFloat.of_Z 1]
  /\ PyFloat.le (PyFloat.of_Z 2) PyFloat.nan = false
  /\ PyFloat.lt (PyFloat.of_Z 1) (PyFloat.of_Z 2) = true.
Proof. vm_compute. repeat split; reflexivity. Qed.

(** C5 (amended).  [sort_data] returns a permutation of its input, and:
    - for one of the five numeric fields, when no coerced value of that
      field is a NaN, the ascending sort leaves the coerced values
      non-decreasing, and in either direction the rows whose coerced
      value equals a given number keep their relative order;
    - for [date], and for [account_id] and [campaign_id], the rows with
      a given key keep their relative order;
    - for any other field name the list is returned as it is. *)
Theorem sort_data_spec (data : list row) (sort_by : string) (sort_desc : bool) :
  Permutation (sort_data data sort_by sort_desc) data
  /\ (sort_by ∈ numeric_fields ->
      Forall (fun r => not_nan (num_key sort_by r)) data ->
      StronglySorted
        (fun a b => PyFloat.le (num_key sort_by a) (num_key sort_by b) = true)
        (sort_data data sort_by false)
      /\ forall x,
           List.filter (fun r => PyFloat.eq (num_key sort_by r) x)
             (sort_data data sort_by sort_desc)
           = List.filter (fun r => PyFloat.eq (num_key sort_by r) x) data)
  /\ (sort_by = "date" ->
      forall d,
        List.filter (fun r => PyDate.eq (date_key r) d)
          (sort_data data sort_by sort_desc)
        = List.filter (fun r => PyDate.eq (date_key r) d) data)
  /\ (sort_by ∈ ["account_id"; "campaign_id"] ->
      forall s,
        List.filter (fun r => String.eqb (str_key sort_by r) s)
          (sort_data data sort_by sort_desc)
        = List.filter (fun r => String.eqb (str_key sort_by r) s) data)
  /\ (sort_by ∉ "date" :: numeric_fields ++ ["account_id"; "campaign_id"] ->
      sort_data data sort_by sort_desc = data).
Proof.
  split; [apply sort_data_perm|]. split; [|split; [|split]].
  - intros Hk Hnan. pose proof (numeric_field_not_date _ Hk) as Hd.
    assert (forall desc, sort_data data sort_by desc
                         = PyList.sort (num_key sort_by) PyFloat.lt desc data) as Hs
      by (intros; unfold sort_data;
          rewrite decide_False, decide_True by assumption; reflexivity).
    split.
    + rewrite Hs. destruct (sort_sorted (num_key sort_by) PyFloat.lt not_nan
                  float_lt_asym float_lt_negtrans data Hnan) as [H _].
      eapply StronglySorted_weaken; [|exact H].
      intros a b Ha Hb Hab. unfold may_precede in Hab.
      rewrite float_le_not_lt, Hab; [reflexivity|..];
        rewrite Forall_forall in Hnan; apply Hnan;
        [revert Ha|revert Hb]; apply elem_of_Permutation_proper;
        symmetry; apply sort_perm.
    + intros x. rewrite Hs.
      apply (sort_stable (num_key sort_by) PyFloat.lt not_nan);
        [apply respects_float_eq|exact Hnan].
  - intros -> d. unfold sort_data. rewrite decide_True by reflexivity.
    apply (sort_stable date_key PyDate.lt (fun _ => True));
      [apply respects_date_eq|apply all_ok].
  - intros Hk s. unfold sort_data.
    assert (sort_by <> "date") as Hd
      by (intros ->; revert Hk; rewrite !elem_of_cons, elem_of_nil;
          intros [H|[H|[]]]; discriminate).
    assert (sort_by ∉ numeric_fields) as Hn
      by (unfold numeric_fields; revert Hk; rewrite !elem_of_cons, !elem_of_nil;
          intros [->|[->|[]]] [H|[H|[H|[H|[H|[]]]]]]; discriminate).
    rewrite !decide_False, decide_True by assumption.
    apply (sort_stable (str_key sort_by) String.ltb (fun _ => True));
      [apply respects_string_eq|apply all_ok].
  - intros Hk. unfold sort_data.
    rewrite elem_of_cons, elem_of_app in Hk.
    rewrite !decide_False by tauto. reflexivity.
Qed.

Lemma sort_data_spec_witness :
  StronglySorted
    (fun a b => PyFloat.le (num_key "clicks" a) (num_key "clicks" b) = true)
    (sort_data (all_metrics (Some three_rows) None None) "clicks" false)
  /\ sort_data three_rows "region" true = three_rows.
Proof.
  split.
  - destruct (sort_data_spec (all_metrics (Some three_rows) None None) "clicks"
                false) as (_ & H & _).
    apply H.
    + unfold numeric_fields. rewrite !elem_of_cons. auto.
    + unfold not_nan. apply Forall_fold_right. vm_compute. tauto.
  - destruct (sort_data_spec three_rows "region" true) as (_ & _ & _ & _ & H).
    apply H. unfold numeric_fields. simpl app.
    rewrite !not_elem_of_cons. repeat split; try discriminate.
    apply not_elem_of_nil.
Defined.

(** No ordering of the three rows of [nan_rows] has non-decreasing
    clicks: the failure does not depend on the sorting algorithm. *)
Lemma nan_rows_unsortable (l : list row) :
  Permutation l nan_rows ->
  ~ Sorted (fun a b => PyFloat.le (num_key "clicks" a) (num_key "clicks" b) = true) l.
Proof.
  intros Hp Hs.
  assert (exists r, r ∈ l /\ num_key "clicks" r = PyFloat.nan) as (r & Hr & Hk).
  { exists (nan_rows !!! 1%nat). split; [|vm_compute; reflexivity].
    rewrite Hp. apply list_elem_of_lookup. exists 1%nat.
    apply list_lookup_lookup_total_lt. vm_compute. lia. }
  pose proof (Permutation_length Hp) as Hlen.
  change (length nan_rows) with 3%nat in Hlen.
  destruct l as [|a [|b [|c [|]]]]; try discriminate.
  inversion Hs as [|? ? Hs1 H1]; subst. inversion H1 as [|? ? Hab]; subst.
  inversion Hs1 as [|? ? Hs2 H2]; subst. inversion H2 as [|? ? Hbc]; subst.
  rewrite !elem_of_cons, elem_of_nil in Hr.
  destruct Hr as [->|[->|[->|[]]]]; rewrite Hk in *;
    match goal with
    | H : PyFloat.le PyFloat.nan ?x = true |- _ =>
        destruct (float_nan_unordered x) as (E & _); congruence
    | H : PyFloat.le ?x PyFloat.nan = true |- _ =>
        destruct (float_nan_unordered x) as (_ & E & _); congruence
    end.
Qed.

End C5.

(* ===================================================================== *)
(** ** More on the loader *)
(* ===================================================================== *)

Section Blanks.

Lemma lstrip_blank (s : string) :
  blank_text s = true -> PyStr.lstrip_where PyStr.is_space s = "".
Proof.
  induction s as [|c s IH]; simpl; [reflexivity|].
  destruct (PyStr.is_space c); [exact IH|discriminate].
Qed.

Lemma lstrip_not_blank (s : string) :
  blank_text s = false ->
  exists c t, PyStr.lstrip_where PyStr.is_space s = String c t
    /\ PyStr.is_space c = false.
Proof.
  induction s as [|c s IH]; simpl; [discriminate|].
  destruct (PyStr.is_space c) eqn:E; [exact IH|]. eauto.
Qed.

Lemma rstrip_head (c : ascii) (t : string) :
  PyStr.is_space c = false ->
  exists t', PyStr.rstrip_where PyStr.is_space (String c t) = String c t'.
Proof.
  intros E. simpl. rewrite E.
  destruct (PyStr.rstrip_where PyStr.is_space t); eauto.
Qed.

Lemma rstrip_idem (s : string) :
  PyStr.rstrip_where PyStr.is_space (PyStr.rstrip_where PyStr.is_space s)
  = PyStr.rstrip_where PyStr.is_space s.
Proof.
  induction s as [|c s IH]; [reflexivity|]. simpl.
  destruct (PyStr.rstrip_where PyStr.is_space s) as [|d r] eqn:E.
  - destruct (PyStr.is_space c) eqn:Ec; [reflexivity|]. simpl. rewrite Ec.
    reflexivity.
  - simpl in *. rewrite IH. reflexivity.
Qed.

Lemma strip_blank_iff (s : string) : PyStr.strip s = "" <-> blank_text s = true.
Proof.
  unfold PyStr.strip, PyStr.strip_where. split.
  - intros H. destruct (blank_text s) eqn:E; [reflexivity|].
    destruct (lstrip_not_blank s E) as (c & t & Hl & Hc). rewrite Hl in H.
    destruct (rstrip_head c t Hc) as [t' Ht]. congruence.
  - intros H. rewrite (lstrip_blank s H). reflexivity.
Qed.

Lemma strip_idem (s : string) : PyStr.strip (PyStr.strip s) = PyStr.strip s.
Proof.
  unfold PyStr.strip, PyStr.strip_where.
  destruct (blank_text s) eqn:E.
  - rewrite (lstrip_blank s E). reflexivity.
  - destruct (lstrip_not_blank s E) as (c & t & Hl & Hc). rewrite Hl.
    destruct (rstrip_head c t Hc) as [t' Ht].
    assert (PyStr.lstrip_where PyStr.is_space
              (PyStr.rstrip_where PyStr.is_space (String c t))
            = PyStr.rstrip_where PyStr.is_space (String c t)) as ->
      by (rewrite Ht; simpl; rewrite Hc; reflexivity).
    apply rstrip_idem.
Qed.

(** X1.  Blanks around a number are ignored by [normalize_num], but
    text made of blanks only is not read as the empty text: it raises
    [ValueError], whereas the empty text gives 0.0. *)
Theorem normalize_num_blanks (s : string) :
  s <> "" ->
  (blank_text s = true -> normalize_num (VStr s) = Raise ValueError)
  /\ (blank_text s = false ->
      normalize_num (VStr s) = normalize_num (VStr (PyStr.strip s))).
Proof.
  intros Hs. split; intros Hb.
  - rewrite (normalize_num_text s Hs).
    rewrite (proj2 (strip_blank_iff s) Hb). reflexivity.
  - assert (PyStr.strip s <> "") as Hne
      by (rewrite strip_blank_iff, Hb; discriminate).
    rewrite (normalize_num_text s Hs), (normalize_num_text _ Hne), strip_idem.
    reflexivity.
Qed.

Lemma normalize_num_blanks_witness :
  normalize_num (VStr "   ") = Raise ValueError
  /\ normalize_num (VStr "  7,5 ") = normalize_num (VStr "7,5").
Proof.
  split.
  - destruct (normalize_num_blanks "   ") as [H _]; [discriminate|].
    apply H. reflexivity.
  - destruct (normalize_num_blanks "  7,5 ") as [_ H]; [discriminate|].
    apply H. reflexivity.
Defined.

End Blanks.

Section LoaderOutput.

Lemma read_rows_raises (start_dt end_dt : option PyDate.date) (rows : list row)
    (r : row) (e : exn_class) :
  r ∈ rows -> process_row start_dt end_dt r = Raise e ->
  e <> ValueError -> e <> KeyError ->
  exists e', read_rows start_dt end_dt rows = Raise e'.
Proof.
  intros Hin Hr Hv Hk. induction rows as [|r0 rest IH]; [inversion Hin|].
  assert ((exists e', read_rows start_dt end_dt rest = Raise e')
          -> exists e', read_rows start_dt end_dt (r0 :: rest) = Raise e') as Hrest.
  { intros [e' He']. simpl. rewrite He'.
    destruct (process_row start_dt end_dt r0) as [[r'|]|[]]; simpl; eauto. }
  apply elem_of_cons in Hin as [->|Hin]; [|auto].
  simpl. rewrite Hr. destruct e; try congruence; eauto.
Qed.

Lemma process_row_no_text (start_dt end_dt : option PyDate.date) (r : row)
    (v : value) :
  r !! "date" = Some v -> is_str v = false ->
  process_row start_dt end_dt r = Raise TypeError.
Proof.
  intros Hd Hv. unfold process_row. rewrite Hd.
  destruct v; try discriminate; reflexivity.
Qed.

Lemma read_rows_length (start_dt end_dt : option PyDate.date) (rows l : list row) :
  read_rows start_dt end_dt rows = Ok l -> (length l <= length rows)%nat.
Proof.
  revert l. induction rows as [|r rest IH]; intros l H; simpl in H.
  - injection H as <-. simpl. lia.
  - destruct (process_row start_dt end_dt r) as [[r'|]|[]];
      try discriminate; try (simpl; specialize (IH _ H); lia).
    destruct (read_rows start_dt end_dt rest) as [l'|]; [|discriminate].
    injection H as <-. specialize (IH _ eq_refl). simpl. lia.
Qed.

Lemma all_metrics_length (rows : list row) (start_date end_date : option string) :
  (length (all_metrics (Some rows) start_date end_date) <= length rows)%nat.
Proof.
  unfold all_metrics.
  destruct (read_rows _ _ rows) as [l|] eqn:E; [|simpl; lia].
  exact (read_rows_length _ _ _ _ E).
Qed.

Lemma slice_elem {A : Type} (l : list A) (start stop : Z) (x : A) :
  x ∈ PyList.slice l start stop -> x ∈ l.
Proof.
  intros H.
  assert (Forall (fun y => y ∈ l) (PyList.slice l start stop)) as HF
    by (apply slice_Forall, Forall_forall; auto).
  exact (proj1 (Forall_forall _ _) HF x H).
Qed.

Lemma sort_data_elem (data : list row) (sort_by : string) (sort_desc : bool)
    (x : row) :
  x ∈ sort_data data sort_by sort_desc <-> x ∈ data.
Proof.
  split; intros H.
  - eapply elem_of_Permutation_proper; [symmetry; apply sort_data_perm|exact H].
  - eapply elem_of_Permutation_proper; [apply sort_data_perm|exact H].
Qed.

Lemma example_row_kept (date clicks : string) (d : PyDate.date)
    (x : PyFloat.float) :
  PyDate.strptime date = Some d -> normalize_num (VStr clicks) = Ok x ->
  exists r', process_row None None (example_row date clicks) = Ok (Some r').
Proof.
  intros Hd Hx.
  rewrite (process_row_parsed None None (example_row date clicks) date d
             eq_refl Hd).
  change (in_bounds None None d) with true. cbv iota.
  erewrite normalize_row_ok; [eexists; reflexivity|..];
    first [exact Hx|vm_compute; reflexivity].
Qed.

Lemma three_rows_read : exists l0, read_rows None None three_rows = Ok l0.
Proof.
  unfold three_rows.
  edestruct (example_row_kept "2024-01-03" "30") as [r1 E1];
    [vm_compute; reflexivity..|].
  edestruct (example_row_kept "2024-01-01" "10") as [r2 E2];
    [vm_compute; reflexivity..|].
  edestruct (example_row_kept "2024-01-02" "20") as [r3 E3];
    [vm_compute; reflexivity..|].
  rewrite (read_rows_keep _ _ _ _ _ E1), (read_rows_keep _ _ _ _ _ E2),
    (read_rows_keep _ _ _ _ _ E3).
  eexists. reflexivity.
Qed.

(** X2.  One row whose date cell holds something other than text (a
    line of the file that is too short leaves [None] there) ends the
    loop of the loader with a [TypeError], which only the outer handler
    catches: the loader returns no row and a total of 0, whatever the
    other rows hold, and [GET /data] answers with its empty result. *)
Theorem short_line_empties_the_load (rows : list row) (r : row) (v u : value)
    (now : PyDate.date) (start_date end_date : option string) (sort_by : string)
    (sort_desc : bool) (page page_size : Z) (current_user : row) :
  r ∈ rows -> r !! "date" = Some v -> is_str v = false ->
  current_user !! "username" = Some u ->
  process_row (parse_bound start_date) (parse_bound end_date) r = Raise TypeError
  /\ load_metrics_optimized (Some rows) start_date end_date sort_by sort_desc
       page page_size = ([], 0)
  /\ get_metrics_data (Some rows) now start_date end_date sort_by sort_desc
       page page_size current_user
     = Ok200 {[ "data" := JList [];
                "total" := JInt 0;
                "page" := JInt (Z.max 1 page);
                "page_size" := JInt (Z.min page_size MAX_RECORDS_PER_REQUEST);
                "total_pages" := JInt 0;
                "message" := JStr "Nenhum dado encontrado" ]}.
Proof.
  intros Hin Hd Hv Hu.
  assert (forall sb sd p ps,
            load_metrics_optimized (Some rows) start_date end_date sb sd p ps
            = ([], 0)) as Hload.
  { intros sb sd p ps. unfold load_metrics_optimized.
    destruct (read_rows_raises (parse_bound start_date) (parse_bound end_date)
                rows r TypeError Hin (process_row_no_text _ _ r v Hd Hv))
      as [e' ->]; [discriminate|discriminate|reflexivity]. }
  split; [exact (process_row_no_text _ _ r v Hd Hv)|].
  split; [apply Hload|].
  apply (get_metrics_data_empty _ _ _ _ _ _ _ _ _ u Hu).
  unfold requested_page. rewrite Hload. reflexivity.
Qed.

Lemma short_line_empties_the_load_witness :
  load_metrics_optimized
    (Some (three_rows ++ [ {[ "account_id" := VStr "acc"; "date" := VNone ]} ]))
    None None "date" false 1 25 = ([], 0).
Proof.
  refine (proj1 (proj2 (short_line_empties_the_load
            (three_rows ++ [ {[ "account_id" := VStr "acc"; "date" := VNone ]} ])
            {[ "account_id" := VStr "acc"; "date" := VNone ]} VNone (VStr "bia")
            some_day None None "date" false 1 25 viewer_user _ _ _ _)));
    try reflexivity.
  apply elem_of_app. right. apply list_elem_of_singleton. reflexivity.
Defined.

(** X3.  The loader invents nothing: every row of the page it returns
    comes from a row of the file whose date text parses to a date within
    the bounds; it holds that date, the five numbers that [normalize_num]
    reads in the file row, and the other columns unchanged.  The page is
    never longer than the total, nor the total than the file. *)
Theorem loader_returns_file_rows (rows : list row)
    (start_date end_date : option string) (sort_by : string) (sort_desc : bool)
    (page page_size : Z) :
  let answer := load_metrics_optimized (Some rows) start_date end_date sort_by
                  sort_desc page page_size in
  (forall r', r' ∈ answer.1 ->
     exists r s d,
       r ∈ rows /\ r !! "date" = Some (VStr s) /\ PyDate.strptime s = Some d
       /\ in_bounds (parse_bound start_date) (parse_bound end_date) d = true
       /\ r' !! "date" = Some (VDate d)
       /\ (forall k, k ∈ numeric_fields ->
             exists x, normalize_num (cell k r) = Ok x /\ r' !! k = Some (VFloat x))
       /\ (forall k, k <> "date" -> k ∉ numeric_fields -> r' !! k = r !! k))
  /\ Z.of_nat (length answer.1) <= answer.2 <= Z.of_nat (length rows).
Proof.
  intros answer. subst answer. rewrite load_metrics_optimized_eq. cbn [fst snd].
  split.
  - intros r' Hin. apply slice_elem, sort_data_elem in Hin.
    unfold all_metrics in Hin.
    destruct (read_rows _ _ rows) as [l|] eqn:E; [|inversion Hin].
    apply (read_rows_elem _ _ _ _ _ E) in Hin as (r & Hr & Hp).
    destruct (process_row_kept _ _ _ _ Hp) as (s & d & Hs & Hd & Hb & Hn).
    destruct (normalize_row_loaded _ _ _ Hn) as (H1 & H2 & H3).
    exists r, s, d. auto 10.
  - pose proof (all_metrics_length rows start_date end_date).
    rewrite slice_length, sort_data_length. unfold PyList.clip.
    repeat match goal with
           | |- context [?a <? ?b] => destruct (Z.ltb_spec a b)
           end; lia.
Qed.

Lemma loader_returns_file_rows_witness :
  let answer :=
    load_metrics_optimized (Some three_rows) None None "date" false 1 25 in
  Z.of_nat (length answer.1) <= answer.2 <= 3.
Proof.
  exact (proj2 (loader_returns_file_rows three_rows None None "date" false 1 25)).
Defined.

End LoaderOutput.

Section DateFilter.

Lemma date_key_loaded (r : row) (d : PyDate.date) :
  r !! "date" = Some (VDate d) -> date_key r = d.
Proof. intros H. unfold date_key. rewrite H. reflexivity. Qed.

Lemma read_rows_filter (start_dt end_dt : option PyDate.date) (rows l0 : list row) :
  read_rows None None rows = Ok l0 ->
  read_rows start_dt end_dt rows
  = Ok (List.filter (fun r => in_bounds start_dt end_dt (date_key r)) l0).
Proof.
  revert l0. induction rows as [|r rest IH]; intros l0 H.
  - injection H as <-. reflexivity.
  - destruct (r !! "date") as [v|] eqn:Hd.
    + destruct v as [s| | |].
      * destruct (PyDate.strptime s) as [d|] eqn:Hs.
        -- cbn [read_rows] in *.
           rewrite (process_row_parsed None None r s d Hd Hs) in H.
           rewrite (process_row_parsed start_dt end_dt r s d Hd Hs).
           change (in_bounds None None d) with true in H. cbv iota in H.
           destruct (normalize_row d r) as [r'|e] eqn:Hn.
           ++ rewrite fmap_Ok in H.
              destruct (read_rows None None rest) as [l0'|]; [|discriminate].
              rewrite fmap_Ok in H. injection H as <-.
              rewrite (IH _ eq_refl). cbn [List.filter].
              destruct (normalize_row_loaded _ _ _ Hn) as (Hdate & _).
              rewrite (date_key_loaded _ _ Hdate).
              destruct (in_bounds start_dt end_dt d); reflexivity.
           ++ destruct (in_bounds start_dt end_dt d);
                destruct e; simpl in *; try discriminate; auto.
        -- cbn [read_rows] in *.
           rewrite (process_row_unparsed None None r s Hd Hs) in H.
           rewrite (process_row_unparsed start_dt end_dt r s Hd Hs). auto.
      * cbn [read_rows] in H.
        rewrite (process_row_no_text _ _ r VNone Hd eq_refl) in H. discriminate.
      * cbn [read_rows] in H.
        rewrite (process_row_no_text _ _ r (VFloat x) Hd eq_refl) in H.
        discriminate.
      * cbn [read_rows] in H.
        rewrite (process_row_no_text _ _ r (VDate d) Hd eq_refl) in H.
        discriminate.
    + cbn [read_rows] in *. unfold process_row in *. rewrite Hd in *.
      simpl in *. auto.
Qed.

(** X4.  Filtering by date commutes with loading: when the loop over the
    file ends normally without bounds, the rows kept with bounds are, in
    the same order, the rows kept without bounds whose date lies within
    them, and the total that the loader reports is their number. *)
Theorem date_bounds_filter_the_load (rows l0 : list row)
    (start_date end_date : option string) (sort_by : string) (sort_desc : bool)
    (page page_size : Z) :
  read_rows None None rows = Ok l0 ->
  let within r :=
    in_bounds (parse_bound start_date) (parse_bound end_date) (date_key r) in
  read_rows (parse_bound start_date) (parse_bound end_date) rows
  = Ok (List.filter within l0)
  /\ all_metrics (Some rows) start_date end_date
     = List.filter within (all_metrics (Some rows) None None)
  /\ (load_metrics_optimized (Some rows) start_date end_date sort_by sort_desc
        page page_size).2
     = Z.of_nat (length (List.filter within l0)).
Proof.
  intros H within.
  pose proof (read_rows_filter (parse_bound start_date) (parse_bound end_date)
                rows l0 H) as Hf.
  split; [exact Hf|]. split.
  - unfold all_metrics. cbn [parse_bound]. rewrite Hf, H. reflexivity.
  - rewrite load_metrics_optimized_eq. cbn [snd]. unfold all_metrics.
    rewrite Hf. reflexivity.
Qed.

Lemma date_bounds_filter_the_load_witness :
  exists l0,
    read_rows None None three_rows = Ok l0
    /\ (load_metrics_optimized (Some three_rows) (Some "2024-01-02") None "date"
          false 1 25).2
       = Z.of_nat (length (List.filter
            (fun r => in_bounds (parse_bound (Some "2024-01-02"))
                        (parse_bound None) (date_key r)) l0)).
Proof.
  destruct three_rows_read as [l0 E]. exists l0. split; [exact E|].
  exact (proj2 (proj2 (date_bounds_filter_the_load three_rows l0
           (Some "2024-01-02") None "date" false 1 25 E))).
Defined.

End DateFilter.

Section Pages.

Lemma slice_window {A : Type} (l : list A) (a n : nat) :
  PyList.slice l (Z.of_nat a) (Z.of_nat a + Z.of_nat n) = take n (drop a l).
Proof.
  unfold PyList.slice, PyList.clip.
  destruct (Z.ltb_spec (Z.of_nat a) 0); [lia|].
  destruct (Z.ltb_spec (Z.of_nat a + Z.of_nat n) 0); [lia|].
  destruct (decide (length l <= a)%nat) as [Hle|Hgt].
  - rewrite (drop_ge l a Hle).
    replace (Z.to_nat (Z.min (Z.of_nat a) (Z.of_nat (length l))))
      with (length l) by lia.
    rewrite drop_all, !take_nil. reflexivity.
  - replace (Z.to_nat (Z.min (Z.of_nat a) (Z.of_nat (length l)))) with a by lia.
    destruct (decide (a + n <= length l)%nat).
    + f_equal. lia.
    + rewrite !take_ge; [reflexivity| |]; rewrite length_drop; lia.
Qed.

Lemma pages_join {A : Type} (l : list A) (k n : nat) :
  concat (map (fun p => take k (drop ((p - 1) * k) l)) (seq 1 n))
  = take (n * k) l.
Proof.
  induction n as [|n IH]; [reflexivity|].
  rewrite seq_S, map_app, concat_app, IH. cbn [map concat Nat.add].
  rewrite app_nil_r.
  replace (S n - 1)%nat with n by lia.
  rewrite take_take_drop. f_equal. lia.
Qed.

(** X5.  The pages partition the sorted rows: for a page size of at
    least 1, pages 1 to n put end to end are the first n * page_size
    rows kept by the loader, in the order of [sort_data]; from the page
    that reaches the total on, that is every kept row, once. *)
Theorem pages_partition_the_rows (csv : option (list row))
    (start_date end_date : option string) (sort_by : string) (sort_desc : bool)
    (page_size : Z) (n : nat) :
  1 <= page_size ->
  let sorted := sort_data (all_metrics csv start_date end_date) sort_by sort_desc in
  let pages :=
    concat (map (page_rows csv start_date end_date sort_by sort_desc page_size)
              (seq 1 n)) in
  pages = take (n * Z.to_nat page_size) sorted
  /\ (Z.of_nat (length sorted) <= Z.of_nat n * page_size ->
      pages = sorted /\ Permutation pages (all_metrics csv start_date end_date)).
Proof.
  intros Hps sorted pages.
  assert (pages = take (n * Z.to_nat page_size) sorted) as E.
  { subst pages. rewrite <- pages_join. f_equal.
    apply map_ext_in. intros p Hp. apply in_seq in Hp.
    unfold page_rows. rewrite load_metrics_optimized_eq. cbn [fst].
    fold sorted. rewrite <- slice_window. f_equal; nia. }
  split; [exact E|]. intros Hn.
  assert (pages = sorted) as E' by (rewrite E; apply take_ge; nia).
  split; [exact E'|]. rewrite E'. apply sort_data_perm.
Qed.

Lemma pages_partition_the_rows_witness :
  concat (map (page_rows (Some three_rows) None None "clicks" true 2) (seq 1 2))
  = sort_data (all_metrics (Some three_rows) None None) "clicks" true.
Proof.
  refine (proj1 (proj2 (pages_partition_the_rows (Some three_rows) None None
            "clicks" true 2 2 _) _)).
  - lia.
  - rewrite sort_data_length.
    pose proof (all_metrics_length three_rows None None) as H.
    change (length three_rows) with 3%nat in H. lia.
Defined.

End Pages.

Section Sorter.

Lemma sort_data_date (data : list row) (sort_desc : bool) :
  sort_data data "date" sort_desc = PyList.sort date_key PyDate.lt sort_desc data.
Proof. unfold sort_data. rewrite decide_True by reflexivity. reflexivity. Qed.

Lemma sort_data_numeric (data : list row) (sort_by : string) (sort_desc : bool) :
  sort_by ∈ numeric_fields ->
  sort_data data sort_by sort_desc
  = PyList.sort (num_key sort_by) PyFloat.lt sort_desc data.
Proof.
  intros Hk. unfold sort_data.
  rewrite decide_False by (apply numeric_field_not_date, Hk).
  rewrite decide_True by exact Hk. reflexivity.
Qed.

Lemma sort_data_text (data : list row) (sort_by : string) (sort_desc : bool) :
  sort_by ∈ ["account_id"; "campaign_id"] ->
  sort_data data sort_by sort_desc
  = PyList.sort (str_key sort_by) String.ltb sort_desc data.
Proof.
  intros Hk. unfold sort_data.
  assert (sort_by <> "date") as Hd
    by (intros ->; revert Hk; rewrite !elem_of_cons, elem_of_nil;
        intros [H|[H|[]]]; discriminate).
  assert (sort_by ∉ numeric_fields) as Hn
    by (unfold numeric_fields; revert Hk; rewrite !elem_of_cons, !elem_of_nil;
        intros [->|[->|[]]] [H|[H|[H|[H|[H|[]]]]]]; discriminate).
  rewrite !decide_False, decide_True by assumption. reflexivity.
Qed.

Lemma text_lt_asym (a b : string) :
  True -> True -> String.ltb a b = true -> String.ltb b a = false.
Proof. intros _ _. apply string_ltb_asym. Qed.

Lemma text_lt_negtrans (a b c : string) :
  True -> True -> True ->
  String.ltb a c = true -> String.ltb a b = true \/ String.ltb b c = true.
Proof. intros _ _ _. apply string_ltb_negtrans. Qed.

Lemma text_leb_not_lt (a b : string) : String.leb a b = negb (String.ltb b a).
Proof.
  unfold String.leb, String.ltb. rewrite (String.compare_antisym a b).
  destruct (String.compare b a); reflexivity.
Qed.

Lemma Forall_elem {A : Type} (P : A -> Prop) (l l' : list A) (x : A) :
  Forall P l -> Permutation l' l -> x ∈ l' -> P x.
Proof.
  intros HF Hp Hx. rewrite Forall_forall in HF. apply HF.
  revert Hx. apply elem_of_Permutation_proper. symmetry. exact Hp.
Qed.

(** X6.  With [sort_desc] set, [sort_data] leaves the keys in
    non-increasing order: the dates for [date], the numbers for a
    numeric field none of whose keys is NaN, the texts for [account_id]
    and [campaign_id]; without it the texts are in non-decreasing
    order. *)
Theorem sort_data_descending (data : list row) (sort_by : string) :
  StronglySorted (fun a b => date_le (date_key b) (date_key a) = true)
    (sort_data data "date" true)
  /\ (sort_by ∈ numeric_fields ->
      Forall (fun r => not_nan (num_key sort_by r)) data ->
      StronglySorted
        (fun a b => PyFloat.le (num_key sort_by b) (num_key sort_by a) = true)
        (sort_data data sort_by true))
  /\ (sort_by ∈ ["account_id"; "campaign_id"] ->
      StronglySorted
        (fun a b => String.leb (str_key sort_by b) (str_key sort_by a) = true)
        (sort_data data sort_by true)
      /\ StronglySorted
           (fun a b => String.leb (str_key sort_by a) (str_key sort_by b) = true)
           (sort_data data sort_by false)).
Proof.
  split; [|split].
  - rewrite sort_data_date.
    destruct (sort_sorted date_key PyDate.lt (fun _ => True)
                date_lt_asym date_lt_negtrans data (all_ok data)) as [_ H].
    eapply StronglySorted_weaken; [|exact H].
    intros a b _ _ Hab. unfold may_follow in Hab. unfold date_le.
    rewrite Hab. reflexivity.
  - intros Hk Hnan. rewrite (sort_data_numeric _ _ _ Hk).
    destruct (sort_sorted (num_key sort_by) PyFloat.lt not_nan
                float_lt_asym float_lt_negtrans data Hnan) as [_ H].
    eapply StronglySorted_weaken; [|exact H].
    intros a b Ha Hb Hab. unfold may_follow in Hab.
    rewrite float_le_not_lt, Hab; [reflexivity|..].
    + exact (Forall_elem _ _ _ b Hnan (sort_perm _ _ true data) Hb).
    + exact (Forall_elem _ _ _ a Hnan (sort_perm _ _ true data) Ha).
  - intros Hk. rewrite !(sort_data_text _ _ _ Hk).
    destruct (sort_sorted (str_key sort_by) String.ltb (fun _ => True)
                text_lt_asym text_lt_negtrans data (all_ok data)) as [Ha Hd].
    split.
    + eapply StronglySorted_weaken; [|exact Hd].
      intros a b _ _ Hab. unfold may_follow in Hab.
      rewrite text_leb_not_lt, Hab. reflexivity.
    + eapply StronglySorted_weaken; [|exact Ha].
      intros a b _ _ Hab. unfold may_precede in Hab.
      rewrite text_leb_not_lt, Hab. reflexivity.
Qed.

Lemma sort_data_descending_witness :
  StronglySorted
    (fun a b => PyFloat.le (num_key "clicks" b) (num_key "clicks" a) = true)
    (sort_data (all_metrics (Some three_rows) None None) "clicks" true)
  /\ StronglySorted
       (fun a b => String.leb (str_key "account_id" a) (str_key "account_id" b)
                   = true)
       (sort_data three_rows "account_id" false).
Proof.
  split.
  - refine (proj1 (proj2 (sort_data_descending
              (all_metrics (Some three_rows) None None) "clicks")) _ _).
    + unfold numeric_fields. rewrite !elem_of_cons. auto.
    + unfold not_nan. apply Forall_fold_right. vm_compute. tauto.
  - refine (proj2 (proj2 (proj2 (sort_data_descending three_rows "account_id")) _)).
    rewrite !elem_of_cons. auto.
Defined.

Lemma sorted_fixed {A K : Type} (key : A -> K) (lt : K -> K -> bool) (l : list A) :
  StronglySorted (may_precede key lt) l -> PyList.sort_ascending key lt l = l.
Proof.
  induction 1 as [|x l Hs IH Hx]; [reflexivity|].
  unfold PyList.sort_ascending in *. cbn [foldr]. rewrite IH.
  destruct l as [|y l']; [reflexivity|].
  cbn [PyList.insert]. apply Forall_cons in Hx as [Hxy _].
  unfold may_precede in Hxy. rewrite Hxy. reflexivity.
Qed.

Lemma sort_twice {A K : Type} (key : A -> K) (lt : K -> K -> bool) (ok : K -> Prop)
    (reverse : bool) (l : list A) :
  (forall a b, ok a -> ok b -> lt a b = true -> lt b a = false) ->
  (forall a b c, ok a -> ok b -> ok c ->
     lt a c = true -> lt a b = true \/ lt b c = true) ->
  Forall (fun y => ok (key y)) l ->
  PyList.sort key lt reverse (PyList.sort key lt reverse l)
  = PyList.sort key lt reverse l.
Proof.
  intros Ha Hn Hl. destruct reverse; cbn [PyList.sort].
  - rewrite rev_involutive. f_equal. apply sorted_fixed.
    apply (sort_ascending_sorted key lt ok Ha Hn).
    apply Forall_rev. exact Hl.
  - apply sorted_fixed. apply (sort_ascending_sorted key lt ok Ha Hn). exact Hl.
Qed.

(** X7.  Sorting is idempotent: [sort_data] applied to its own result,
    with the same field and direction, changes nothing (for a numeric
    field, when no key is NaN). *)
Theorem sort_data_idempotent (data : list row) (sort_by : string)
    (sort_desc : bool) :
  (sort_by ∈ numeric_fields -> Forall (fun r => not_nan (num_key sort_by r)) data) ->
  sort_data (sort_data data sort_by sort_desc) sort_by sort_desc
  = sort_data data sort_by sort_desc.
Proof.
  intros Hnan.
  destruct (decide (sort_by = "date")) as [->|Hd].
  { rewrite !sort_data_date.
    apply (sort_twice _ _ (fun _ => True) _ _ date_lt_asym date_lt_negtrans),
      all_ok. }
  destruct (decide (sort_by ∈ numeric_fields)) as [Hk|Hk].
  { rewrite !(sort_data_numeric _ _ _ Hk).
    apply (sort_twice _ _ not_nan _ _ float_lt_asym float_lt_negtrans), Hnan, Hk. }
  destruct (decide (sort_by ∈ ["account_id"; "campaign_id"])) as [Ht|Ht].
  { rewrite !(sort_data_text _ _ _ Ht).
    apply (sort_twice _ _ (fun _ => True) _ _ text_lt_asym text_lt_negtrans),
      all_ok. }
  unfold sort_data. rewrite !decide_False by assumption. reflexivity.
Qed.

Lemma sort_data_idempotent_witness :
  sort_data (sort_data (all_metrics (Some three_rows) None None) "clicks" true)
    "clicks" true
  = sort_data (all_metrics (Some three_rows) None None) "clicks" true.
Proof.
  apply sort_data_idempotent. intros _.
  unfold not_nan. apply Forall_fold_right. vm_compute. tauto.
Defined.

End Sorter.

Section Answers.

Lemma format_rows_elem (now : PyDate.date) (current_user : row) (data : list row)
    (items : list (gmap string string)) :
  format_rows now current_user data = Ok items ->
  length items = length data
  /\ Forall (fun item => exists r, r ∈ data /\ format_row now current_user r = Ok item)
       items.
Proof.
  revert items. induction data as [|r data IH]; intros items H; simpl in H.
  - injection H as <-. split; [reflexivity|constructor].
  - destruct (format_row now current_user r) as [item|] eqn:Er; [|discriminate].
    rewrite bind_Ok in H.
    destruct (format_rows now current_user data) as [items'|]; [|discriminate].
    rewrite fmap_Ok in H. injection H as <-.
    destruct (IH _ eq_refl) as [Hl Hf]. split; [simpl; lia|].
    constructor.
    + exists r. split; [left|exact Er].
    + eapply Forall_impl; [exact Hf|].
      intros item' (r' & Hr' & E'). exists r'. split; [right; exact Hr'|exact E'].
Qed.

(** The two ways [GET /data] answers with a 200. *)
Lemma get_metrics_data_inv (csv : option (list row)) (now : PyDate.date)
    (start_date end_date : option string) (sort_by : string) (sort_desc : bool)
    (page page_size : Z) (current_user : row) (body : gmap string json) :
  get_metrics_data csv now start_date end_date sort_by sort_desc page page_size
    current_user = Ok200 body ->
  let the_page :=
    requested_page csv start_date end_date sort_by sort_desc page page_size in
  exists items,
    items_of body "data" = items
    /\ body !! "page" = Some (JInt (Z.max 1 page))
    /\ body !! "page_size" = Some (JInt (Z.min page_size MAX_RECORDS_PER_REQUEST))
    /\ format_rows now current_user the_page = Ok items
    /\ (items <> [] -> body !! "showing" = Some (JInt (Z.of_nat (length items)))).
Proof.
  intros H the_page. subst the_page. unfold requested_page.
  unfold get_metrics_data, get_metrics_data_body in H.
  destruct (subscript current_user "username") as [u|]; [|discriminate].
  rewrite bind_Ok in H.
  destruct (load_metrics_optimized csv start_date end_date sort_by sort_desc
              (Z.max 1 page) (Z.min page_size MAX_RECORDS_PER_REQUEST))
    as [data total].
  destruct data as [|r data].
  - injection H as <-. exists []. repeat split; try reflexivity.
    intros []. reflexivity.
  - cbn [fst].
    destruct (format_rows now current_user (r :: data)) as [items|];
      [|discriminate].
    rewrite bind_Ok in H. injection H as <-. exists items.
    repeat split; reflexivity.
Qed.

(** X8.  Whoever the caller is, a 200 of [GET /data] holds one item for
    each row of the page asked from the loader, reports a page of at
    least 1 and a page size of at most 1000, and, when the page size
    asked is not negative, never holds more items than the smaller of
    that page size and 1000. *)
Theorem data_respects_the_cap (csv : option (list row)) (now : PyDate.date)
    (start_date end_date : option string) (sort_by : string) (sort_desc : bool)
    (page page_size : Z) (current_user : row) (body : gmap string json) :
  get_metrics_data csv now start_date end_date sort_by sort_desc page page_size
    current_user = Ok200 body ->
  length (items_of body "data")
  = length (requested_page csv start_date end_date sort_by sort_desc page page_size)
  /\ (exists p ps, body !! "page" = Some (JInt p) /\ 1 <= p
        /\ body !! "page_size" = Some (JInt ps)
        /\ ps <= MAX_RECORDS_PER_REQUEST /\ ps <= page_size)
  /\ (0 <= page_size ->
      Z.of_nat (length (items_of body "data"))
      <= Z.min page_size MAX_RECORDS_PER_REQUEST).
Proof.
  intros H.
  destruct (get_metrics_data_inv _ _ _ _ _ _ _ _ _ _ H)
    as (items & -> & Hp & Hps & Hf & _).
  destruct (format_rows_elem _ _ _ _ Hf) as [Hl _].
  split; [exact Hl|]. split.
  - exists (Z.max 1 page), (Z.min page_size MAX_RECORDS_PER_REQUEST).
    repeat split; try assumption; lia.
  - intros H0. rewrite Hl. unfold requested_page.
    rewrite load_metrics_optimized_eq. cbn [fst].
    rewrite slice_length, sort_data_length.
    unfold PyList.clip, MAX_RECORDS_PER_REQUEST.
    repeat match goal with
           | |- context [?a <? ?b] => destruct (Z.ltb_spec a b)
           end; nia.
Qed.

Lemma data_respects_the_cap_witness :
  match get_metrics_data (Some three_rows) some_day None None "date" false 1 2
          viewer_user with
  | Ok200 body => Z.of_nat (length (items_of body "data")) <= 2
  | HTTPException _ _ => False
  end.
Proof.
  destruct (get_metrics_data (Some three_rows) some_day None None "date" false
              1 2 viewer_user) as [body|] eqn:E.
  - refine (proj2 (proj2 (data_respects_the_cap _ _ _ _ _ _ _ _ _ _ E)) _). lia.
  - vm_compute in E. discriminate.
Defined.

Lemma column_key (key label : string) : column key label !! "key" = Some key.
Proof. apply lookup_insert_eq. Qed.

(** The keys of an item, in the order of their insertion. *)
Lemma format_row_keys (now : PyDate.date) (current_user r : row)
    (item : gmap string string) (role : value) :
  current_user !! "role" = Some role ->
  format_row now current_user r = Ok item ->
  forall k, is_Some (item !! k)
    <-> k ∈ ["account_id"; "campaign_id"; "clicks"; "conversions"; "impressions";
             "interactions"; "date"] ++
            (if eq_str role "admin" then ["cost_micros"] else []).
Proof.
  intros Hrole H k. unfold format_row, subscript in H. rewrite Hrole in H.
  destruct (format_field "clicks" r); [|discriminate].
  destruct (format_field "conversions" r); [|discriminate].
  destruct (format_field "impressions" r); [|discriminate].
  destruct (format_field "interactions" r); [|discriminate].
  destruct (format_date now r); [|discriminate].
  rewrite !bind_Ok in H.
  destruct (eq_str role "admin").
  - destruct (format_field "cost_micros" r); [|discriminate].
    rewrite bind_Ok in H. injection H as <-.
    rewrite !lookup_insert_is_Some, lookup_empty, is_Some_alt.
    cbn [app]. rewrite !elem_of_cons, elem_of_nil. intuition congruence.
  - injection H as <-.
    rewrite !lookup_insert_is_Some, lookup_empty, is_Some_alt.
    cbn [app]. rewrite !elem_of_cons, elem_of_nil. intuition congruence.
Qed.

Lemma columns_keys (current_user : row) (columns : gmap string json) (role : value) :
  current_user !! "role" = Some role ->
  get_available_columns current_user = Ok columns ->
  forall k, (exists c, c ∈ items_of columns "columns" /\ c !! "key" = Some k)
    <-> k ∈ ["account_id"; "campaign_id"; "clicks"; "conversions"; "impressions";
             "interactions"; "date"] ++
            (if eq_str role "admin" then ["cost_micros"] else []).
Proof.
  intros Hrole H k. unfold get_available_columns, subscript in H.
  rewrite Hrole, bind_Ok in H. injection H as <-.
  unfold items_of. rewrite lookup_singleton_eq.
  transitivity (Some k ∈ (fun c : gmap string string => c !! "key")
                  <$> (if eq_str role "admin"
                       then list_insert_at 2 (column "cost_micros" "Cost (Micros)")
                              base_columns
                       else base_columns)).
  { rewrite list_elem_of_fmap. split; intros (c & H1 & H2); eauto. }
  destruct (eq_str role "admin"); unfold list_insert_at, base_columns;
    cbn [take drop app fmap list_fmap]; rewrite !column_key;
    rewrite !elem_of_cons, !elem_of_nil; intuition congruence.
Qed.

(** X9.  The two endpoints agree on the columns: for one caller, the
    keys of every item of a 200 of [GET /data] are exactly the keys of
    the columns that [GET /columns] lists. *)
Theorem data_items_have_the_listed_columns (csv : option (list row))
    (now : PyDate.date) (start_date end_date : option string) (sort_by : string)
    (sort_desc : bool) (page page_size : Z) (current_user : row)
    (body columns : gmap string json) :
  get_metrics_data csv now start_date end_date sort_by sort_desc page page_size
    current_user = Ok200 body ->
  get_available_columns current_user = Ok columns ->
  Forall (fun item : gmap string string =>
            forall k, is_Some (item !! k)
              <-> exists c, c ∈ items_of columns "columns" /\ c !! "key" = Some k)
    (items_of body "data").
Proof.
  intros H Hc.
  destruct (current_user !! "role") as [role|] eqn:Hrole;
    [|unfold get_available_columns, subscript in Hc; rewrite Hrole in Hc;
      discriminate].
  destruct (get_metrics_data_inv _ _ _ _ _ _ _ _ _ _ H)
    as (items & -> & _ & _ & Hf & _).
  destruct (format_rows_elem _ _ _ _ Hf) as [_ Hi].
  eapply Forall_impl; [exact Hi|].
  intros item (r & _ & Hr) k.
  rewrite (format_row_keys _ _ _ _ _ Hrole Hr k).
  rewrite (columns_keys _ _ _ Hrole Hc k). reflexivity.
Qed.

Lemma data_items_have_the_listed_columns_witness :
  match get_metrics_data (Some three_rows) some_day None None "date" false 1 25
          admin_user, get_available_columns admin_user with
  | Ok200 body, Ok columns =>
      Forall (fun item : gmap string string =>
                forall k, is_Some (item !! k)
                  <-> exists c, c ∈ items_of columns "columns"
                                /\ c !! "key" = Some k)
        (items_of body "data")
  | _, _ => False
  end.
Proof.
  destruct (get_metrics_data (Some three_rows) some_day None None "date" false
              1 25 admin_user) as [body|] eqn:E;
    [|vm_compute in E; discriminate].
  destruct (get_available_columns admin_user) as [columns|] eqn:Ec;
    [|vm_compute in Ec; discriminate].
  exact (data_items_have_the_listed_columns _ _ _ _ _ _ _ _ _ _ _ E Ec).
Defined.

End Answers.

(* ===================================================================== *)
(** ** Users, login and the bearer token *)
(* ===================================================================== *)

Section Validator.

(** X10.  The validator of the user name of a login request rejects
    with [ValueError] exactly the names made of blanks only, the empty
    name included; any other name is accepted and replaced by itself
    without the blanks at its ends, which is not empty and which the
    validator accepts unchanged. *)
Theorem username_validator (v : string) :
  (blank_text v = true ->
     username_must_not_be_empty v
     = Raise (Exn ValueError "Username não pode estar vazio"))
  /\ (blank_text v = false ->
      username_must_not_be_empty v = Ok (PyStr.strip v)
      /\ PyStr.strip v <> ""
      /\ username_must_not_be_empty (PyStr.strip v) = Ok (PyStr.strip v)).
Proof.
  unfold username_must_not_be_empty. split; intros Hb.
  - rewrite (proj2 (strip_blank_iff v) Hb). rewrite orb_true_r. reflexivity.
  - assert (PyStr.strip v <> "") as Hs
      by (rewrite strip_blank_iff, Hb; discriminate).
    assert (v <> "") as Hv by (intros ->; discriminate).
    rewrite strip_idem, !(text_nonempty _ Hs), (text_nonempty _ Hv).
    auto.
Qed.

Lemma username_validator_witness :
  username_must_not_be_empty "   "
  = Raise (Exn ValueError "Username não pode estar vazio")
  /\ username_must_not_be_empty "  ana " = Ok "ana".
Proof.
  split.
  - apply (proj1 (username_validator "   ")). reflexivity.
  - apply (proj1 (proj2 (username_validator "  ana ") eq_refl)).
Defined.

End Validator.

Section Users.

Lemma value_eq_str (n : value) (s : string) : value_eq n (VStr s) = eq_str n s.
Proof. destruct n; reflexivity. Qed.

Lemma subscript_Ok (d : row) (k : string) (v : value) :
  subscript d k = Ok v <-> d !! k = Some v.
Proof.
  unfold subscript. destruct (d !! k); split; intros H;
    try discriminate; congruence.
Qed.

Lemma find_user_sound (users : list row) (username password : string) (user : row) :
  find_user users username password = Ok (Some user) ->
  exists before after,
    users = before ++ user :: after
    /\ user !! "username" = Some (VStr username)
    /\ user !! "password" = Some (VStr password)
    /\ Forall (fun u => ~ (u !! "username" = Some (VStr username)
                           /\ u !! "password" = Some (VStr password))) before.
Proof.
  induction users as [|u rest IH]; intros H; [discriminate|].
  cbn [find_user] in H.
  assert (find_user rest username password = Ok (Some user) ->
          ~ (u !! "username" = Some (VStr username)
             /\ u !! "password" = Some (VStr password)) ->
          exists before after,
            u :: rest = before ++ user :: after
            /\ user !! "username" = Some (VStr username)
            /\ user !! "password" = Some (VStr password)
            /\ Forall (fun u => ~ (u !! "username" = Some (VStr username)
                                   /\ u !! "password" = Some (VStr password)))
                 before) as Hrest.
  { intros Hr Hu. destruct (IH Hr) as (before & after & -> & H1 & H2 & H3).
    exists (u :: before), after. repeat split; try assumption.
    constructor; assumption. }
  destruct (subscript u "username") as [n|] eqn:En; [|discriminate].
  rewrite bind_Ok in H. apply subscript_Ok in En.
  destruct (eq_str n username) eqn:Eu.
  - apply eq_str_iff in Eu as ->.
    destruct (subscript u "password") as [p|] eqn:Ep; [|discriminate].
    rewrite bind_Ok in H. apply subscript_Ok in Ep.
    destruct (eq_str p password) eqn:Epw.
    + apply eq_str_iff in Epw as ->. injection H as <-.
      exists [], rest. repeat split; try assumption. constructor.
    + apply Hrest; [exact H|]. intros [_ Hp]. rewrite Hp in Ep.
      injection Ep as <-. simpl in Epw. rewrite String.eqb_refl in Epw.
      discriminate.
  - apply Hrest; [exact H|]. intros [Hn _]. rewrite Hn in En.
    injection En as <-. simpl in Eu. rewrite String.eqb_refl in Eu.
    discriminate.
Qed.

Lemma find_user_none (users : list row) (username password : string) :
  Forall (fun u => is_Some (u !! "username") /\ is_Some (u !! "password")) users ->
  Forall (fun u => ~ (u !! "username" = Some (VStr username)
                      /\ u !! "password" = Some (VStr password))) users ->
  find_user users username password = Ok None.
Proof.
  induction 1 as [|u rest [[n Hn] [p Hp]] _ IH]; intros Hno; [reflexivity|].
  apply Forall_cons in Hno as [Hu Hrest]. cbn [find_user]. unfold subscript.
  rewrite Hn, bind_Ok.
  destruct (eq_str n username) eqn:Eu; [|auto].
  rewrite Hp, bind_Ok.
  destruct (eq_str p password) eqn:Epw; [|auto].
  apply eq_str_iff in Eu as ->. apply eq_str_iff in Epw as ->. tauto.
Qed.

Lemma find_user_total (users : list row) (username password : string) :
  Forall (fun u => is_Some (u !! "username") /\ is_Some (u !! "password")) users ->
  exists res, find_user users username password = Ok res.
Proof.
  induction 1 as [|u rest [[n Hn] [p Hp]] _ IH]; [eexists; reflexivity|].
  cbn [find_user]. unfold subscript. rewrite Hn, bind_Ok.
  destruct (eq_str n username); [|exact IH].
  rewrite Hp, bind_Ok. destruct (eq_str p password); [eauto|exact IH].
Qed.

(** X11.  [authenticate_user] returns a row only if it is a row of the
    users file whose user name and password are the texts given, and
    then it is the first such row of the file. *)
Theorem authenticate_user_sound (users_csv : option (list row))
    (username password : string) (user : row) :
  authenticate_user users_csv username password = Ok (Some user) ->
  exists before after,
    users_csv = Some (before ++ user :: after)
    /\ user !! "username" = Some (VStr username)
    /\ user !! "password" = Some (VStr password)
    /\ Forall (fun u => ~ (u !! "username" = Some (VStr username)
                           /\ u !! "password" = Some (VStr password))) before.
Proof.
  unfold authenticate_user. intros H.
  destruct users_csv as [users|]; [|discriminate]. cbn [load_users] in H.
  destruct (find_user_sound _ _ _ _ H) as (before & after & -> & H1 & H2 & H3).
  exists before, after. auto.
Qed.

Lemma authenticate_user_sound_witness :
  exists before after,
    Some [viewer_password_user; admin_password_user]
    = Some (before ++ admin_password_user :: after)
    /\ admin_password_user !! "username" = Some (VStr "ana")
    /\ admin_password_user !! "password" = Some (VStr "s3cret")
    /\ Forall (fun u => ~ (u !! "username" = Some (VStr "ana")
                           /\ u !! "password" = Some (VStr "s3cret"))) before.
Proof.
  apply (authenticate_user_sound
           (Some [viewer_password_user; admin_password_user]) "ana" "s3cret"
           admin_password_user).
  reflexivity.
Defined.

(** X12.  When every row of the users file has the two columns
    [username] and [password], [authenticate_user] raises nothing, and
    it returns [None] exactly when no row holds the user name and the
    password given; without a readable users file it returns [None]
    whatever is given. *)
Theorem authenticate_user_complete (users : list row) (username password : string) :
  Forall (fun u => is_Some (u !! "username") /\ is_Some (u !! "password")) users ->
  (exists res, authenticate_user (Some users) username password = Ok res)
  /\ (authenticate_user (Some users) username password = Ok None
      <-> Forall (fun u => ~ (u !! "username" = Some (VStr username)
                              /\ u !! "password" = Some (VStr password))) users)
  /\ authenticate_user None username password = Ok None.
Proof.
  intros Hk. unfold authenticate_user. cbn [load_users].
  split; [apply find_user_total, Hk|]. split; [|reflexivity]. split.
  - intros Hnone. apply Forall_forall. intros u Hu [Hn Hp].
    apply list_elem_of_split in Hu as (l1 & l2 & ->).
    assert (exists user, find_user (l1 ++ u :: l2) username password
                         = Ok (Some user)) as [user Hf]; [|congruence].
    clear Hnone. apply Forall_app in Hk as [Hk1 _].
    induction Hk1 as [|u1 l1 [[n1 Hn1] [p1 Hp1]] _ IH].
    + exists u. cbn [app find_user]. unfold subscript.
      rewrite Hn, bind_Ok. cbn [eq_str]. rewrite String.eqb_refl.
      rewrite Hp, bind_Ok. cbn [eq_str]. rewrite String.eqb_refl. reflexivity.
    + destruct IH as [user IH]. cbn [app find_user]. unfold subscript.
      rewrite Hn1, bind_Ok. destruct (eq_str n1 username); [|eauto].
      rewrite Hp1, bind_Ok. destruct (eq_str p1 password); eauto.
  - apply find_user_none, Hk.
Qed.

Lemma authenticate_user_complete_witness :
  authenticate_user (Some [viewer_password_user; admin_password_user])
    "ana" "guess" = Ok None.
Proof.
  refine (proj2 (proj1 (proj2 (authenticate_user_complete
            [viewer_password_user; admin_password_user] "ana" "guess" _))) _).
  - repeat constructor; vm_compute; eauto.
  - repeat constructor; intros [H1 H2]; vm_compute in H1, H2; congruence.
Defined.

End Users.

Section Tokens.

Lemma first_named_sound (users : list row) (name : value) (user : row) :
  first_named users name = Ok (Some user) ->
  exists before after n,
    users = before ++ user :: after
    /\ user !! "username" = Some n /\ value_eq n name = true
    /\ Forall (fun u => exists n', u !! "username" = Some n'
                                   /\ value_eq n' name = false) before.
Proof.
  induction users as [|u rest IH]; intros H; [discriminate|].
  cbn [first_named] in H.
  destruct (subscript u "username") as [n|] eqn:En; [|discriminate].
  rewrite bind_Ok in H. apply subscript_Ok in En.
  destruct (value_eq n name) eqn:E.
  - injection H as <-. exists [], rest, n. repeat split; try assumption.
    constructor.
  - destruct (IH H) as (before & after & n' & -> & H1 & H2 & H3).
    exists (u :: before), after, n'. repeat split; try assumption.
    constructor; eauto.
Qed.

Lemma first_named_none (users : list row) (name : value) :
  first_named users name = Ok None
  <-> Forall (fun u => exists n, u !! "username" = Some n
                                 /\ value_eq n name = false) users.
Proof.
  induction users as [|u rest IH]; [split; [constructor|reflexivity]|].
  cbn [first_named]. unfold subscript. rewrite Forall_cons.
  destruct (u !! "username") as [n|].
  - rewrite bind_Ok. destruct (value_eq n name) eqn:E.
    + split; [discriminate|]. intros [(n' & [= <-] & H) _]. congruence.
    + rewrite IH. split; [eauto|tauto].
  - split; [discriminate|]. intros [(n' & [=] & _) _].
Qed.

(** X13.  [get_current_user] returns a row only for a token that the
    library decodes with the secret and HS256 and whose [sub] is not
    null; the row is then the first row of the users file whose
    [username] equals that [sub]. *)
Theorem get_current_user_sound
    (jwt_decode : string -> string -> list string -> option payload)
    (users_csv : option (list row)) (token : string)
    (user : row) :
  get_current_user jwt_decode users_csv token = Ok user ->
  exists p sub before after,
    jwt_decode token SECRET_KEY [ALGORITHM] = Some p
    /\ claims p !! "sub" = Some sub /\ sub <> VNone
    /\ users_csv = Some (before ++ user :: after)
    /\ (exists n, user !! "username" = Some n /\ value_eq n sub = true)
    /\ Forall (fun u => exists n, u !! "username" = Some n
                                  /\ value_eq n sub = false) before.
Proof.
  unfold get_current_user. intros H.
  destruct (jwt_decode token SECRET_KEY [ALGORITHM]) as [p|]; [|discriminate].
  destruct (claims p !! "sub") as [sub|] eqn:Es; [|discriminate].
  assert (sub <> VNone) as Hs by (intros ->; discriminate).
  assert (first_named (load_users users_csv) sub = Ok (Some user)) as Hf.
  { destruct sub; try congruence; rewrite bind_Ok in H;
      destruct (first_named _ _) as [[u|]|]; simpl in H; congruence. }
  destruct users_csv as [users|]; [|discriminate]. cbn [load_users] in Hf.
  destruct (first_named_sound _ _ _ Hf) as (before & after & n & -> & H1 & H2 & H3).
  exists p, sub, before, after. eauto 10.
Qed.

(** X14.  [get_current_user] answers 401 [Token inválido], with the
    header [WWW-Authenticate: Bearer], to a token that the library does
    not decode, to a payload without [sub] or with a null one, and to a
    [sub] that is the [username] of no row of the users file (or when
    the file cannot be read); it raises no other HTTP error. *)
Theorem get_current_user_rejects
    (jwt_decode : string -> string -> list string -> option payload)
    (users_csv : option (list row)) (token : string) :
  (jwt_decode token SECRET_KEY [ALGORITHM] = None ->
     get_current_user jwt_decode users_csv token = Raise credentials_exception)
  /\ (forall p, jwt_decode token SECRET_KEY [ALGORITHM] = Some p ->
        claims p !! "sub" = None \/ claims p !! "sub" = Some VNone ->
        get_current_user jwt_decode users_csv token = Raise credentials_exception)
  /\ (forall p sub, jwt_decode token SECRET_KEY [ALGORITHM] = Some p ->
        claims p !! "sub" = Some sub ->
        Forall (fun u => exists n, u !! "username" = Some n
                                   /\ value_eq n sub = false)
          (load_users users_csv) ->
        get_current_user jwt_decode users_csv token = Raise credentials_exception)
  /\ (forall p, jwt_decode token SECRET_KEY [ALGORITHM] = Some p ->
        get_current_user jwt_decode None token = Raise credentials_exception)
  /\ (forall status_code detail headers,
        get_current_user jwt_decode users_csv token
        = Raise (HTTP status_code detail headers) ->
        status_code = 401 /\ detail = "Token inválido"
        /\ headers !! "WWW-Authenticate" = Some "Bearer").
Proof.
  unfold get_current_user. split; [|split; [|split; [|split]]].
  - intros ->. reflexivity.
  - intros p -> [->| ->]; reflexivity.
  - intros p sub -> -> Hu. apply first_named_none in Hu.
    destruct sub; [| reflexivity | |]; rewrite bind_Ok, Hu; reflexivity.
  - intros p ->. destruct (claims p !! "sub") as [[]|]; reflexivity.
  - intros status_code detail headers H.
    assert (HTTP status_code detail headers = credentials_exception) as E.
    { destruct (jwt_decode token SECRET_KEY [ALGORITHM]) as [p|];
        [|simpl in H; congruence].
      destruct (claims p !! "sub") as [sub|]; [|simpl in H; congruence].
      destruct sub; try (simpl in H; congruence); rewrite bind_Ok in H;
        destruct (first_named _ _) as [[u|]|]; simpl in H; congruence. }
    injection E as -> -> ->. repeat split; reflexivity.
Qed.


Lemma get_current_user_sound_witness :
  exists p sub before after,
    example_decode "token-of-ana" SECRET_KEY [ALGORITHM] = Some p
    /\ claims p !! "sub" = Some sub /\ sub <> VNone
    /\ Some [viewer_password_user; admin_password_user]
       = Some (before ++ admin_password_user :: after)
    /\ (exists n, admin_password_user !! "username" = Some n
                  /\ value_eq n sub = true)
    /\ Forall (fun u => exists n, u !! "username" = Some n
                                  /\ value_eq n sub = false) before.
Proof.
  apply (get_current_user_sound example_decode
           (Some [viewer_password_user; admin_password_user]) "token-of-ana"
           admin_password_user).
  reflexivity.
Defined.

Lemma get_current_user_rejects_witness :
  get_current_user example_decode
    (Some [viewer_password_user; admin_password_user]) "forged"
  = Raise credentials_exception
  /\ get_current_user example_decode (Some [viewer_password_user]) "token-of-ana"
     = Raise credentials_exception.
Proof.
  split.
  - apply (proj1 (get_current_user_rejects example_decode
                    (Some [viewer_password_user; admin_password_user]) "forged")).
    reflexivity.
  - refine (proj1 (proj2 (proj2 (get_current_user_rejects example_decode
              (Some [viewer_password_user]) "token-of-ana")))
              example_payload (VStr "ana") _ _ _); try reflexivity.
    repeat constructor. exists (VStr "bia"). split; reflexivity.
Defined.

Lemma find_user_first_named (users : list row) (username password : string)
    (user : row) :
  find_user users username password = Ok (Some user) ->
  exists user' before after,
    first_named users (VStr username) = Ok (Some user')
    /\ users = before ++ user' :: after
    /\ user' !! "username" = Some (VStr username)
    /\ Forall (fun u => u !! "username" <> Some (VStr username)) before
    /\ (user' !! "password" = Some (VStr password) -> user' = user).
Proof.
  induction users as [|u rest IH]; intros H; [discriminate|].
  cbn [find_user first_named] in *.
  destruct (subscript u "username") as [n|] eqn:En; [|discriminate].
  rewrite bind_Ok in *. apply subscript_Ok in En. rewrite value_eq_str.
  assert (eq_str n username = false ->
          find_user rest username password = Ok (Some user) ->
          exists user' before after,
            first_named rest (VStr username) = Ok (Some user')
            /\ u :: rest = before ++ user' :: after
            /\ user' !! "username" = Some (VStr username)
            /\ Forall (fun u => u !! "username" <> Some (VStr username)) before
            /\ (user' !! "password" = Some (VStr password) -> user' = user))
    as Hrest.
  { intros Eu Hr.
    destruct (IH Hr) as (user' & before & after & H1 & -> & H3 & H4 & H5).
    exists user', (u :: before), after. repeat split; try assumption.
    constructor; [|assumption]. intros Hn. rewrite Hn in En.
    injection En as <-. simpl in Eu. rewrite String.eqb_refl in Eu.
    discriminate. }
  destruct (eq_str n username) eqn:Eu; [|auto].
  apply eq_str_iff in Eu as ->.
  exists u, [], rest. repeat split; try assumption; [constructor|].
  intros Hp. unfold subscript in H. rewrite Hp, bind_Ok in H.
  cbn [eq_str] in H. rewrite String.eqb_refl in H. congruence.
Qed.

Lemma authenticate_user_named (users_csv : option (list row))
    (username password : string) (found : row) :
  authenticate_user users_csv username password = Ok (Some found) ->
  found !! "username" = Some (VStr username).
Proof.
  unfold authenticate_user. intros H.
  destruct (find_user_sound _ _ _ _ H) as (_ & _ & _ & Hn & _). exact Hn.
Qed.

Lemma login_found (jwt_encode : payload -> string -> string -> string)
    (utcnow : Z) (users_csv : option (list row)) (username password : string)
    (found : row) (role : value) :
  authenticate_user users_csv username password = Ok (Some found) ->
  found !! "role" = Some role ->
  login jwt_encode utcnow users_csv username password
  = Ok (MkLoginResponse
          (jwt_encode
             (Payload {[ "sub" := VStr username ]} (Some (utcnow + 86400)))
             SECRET_KEY ALGORITHM)
          "bearer"
          {[ "username" := VStr username; "role" := role ]}).
Proof.
  intros Ha Hr. unfold login. rewrite Ha.
  pose proof (authenticate_user_named _ _ _ _ Ha) as Hn.
  cbn [uncaught]. rewrite bind_Ok.
  unfold subscript. rewrite Hn, Hr. cbn [uncaught]. rewrite !bind_Ok.
  unfold create_access_token.
  rewrite delete_singleton_ne by discriminate. reflexivity.
Qed.

Lemma login_no_role (jwt_encode : payload -> string -> string -> string)
    (utcnow : Z) (users_csv : option (list row)) (username password : string)
    (found : row) :
  authenticate_user users_csv username password = Ok (Some found) ->
  found !! "role" = None ->
  login jwt_encode utcnow users_csv username password
  = Raise (Uncaught (Exn KeyError "'role'")).
Proof.
  intros Ha Hr. unfold login. rewrite Ha.
  pose proof (authenticate_user_named _ _ _ _ Ha) as Hn.
  cbn [uncaught]. rewrite bind_Ok.
  unfold subscript. rewrite Hn, Hr. reflexivity.
Qed.

(** X15.  [POST /login] answers 401 [Credenciais inválidas] exactly when
    [authenticate_user] finds no row.  When it finds one, the token is
    the encoding, with the secret and HS256, of a payload whose [sub] is
    the user name and whose [exp] is 24 hours after the clock, and the
    body holds the type [bearer] and, of the user, the name and the
    role, never the password; a row found without a [role] column
    raises a [KeyError] that nothing catches. *)
Theorem login_answers (jwt_encode : payload -> string -> string -> string)
    (utcnow : Z) (users_csv : option (list row)) (username password : string) :
  (authenticate_user users_csv username password = Ok None
   <-> login jwt_encode utcnow users_csv username password
       = Raise (HTTP 401 "Credenciais inválidas" ∅))
  /\ (forall found role,
        authenticate_user users_csv username password = Ok (Some found) ->
        found !! "role" = Some role ->
        login jwt_encode utcnow users_csv username password
        = Ok (MkLoginResponse
                (jwt_encode
                   (Payload {[ "sub" := VStr username ]} (Some (utcnow + 86400)))
                   SECRET_KEY ALGORITHM)
                "bearer"
                {[ "username" := VStr username; "role" := role ]}))
  /\ (forall found,
        authenticate_user users_csv username password = Ok (Some found) ->
        found !! "role" = None ->
        login jwt_encode utcnow users_csv username password
        = Raise (Uncaught (Exn KeyError "'role'")))
  /\ (forall response,
        login jwt_encode utcnow users_csv username password = Ok response ->
        token_type response = "bearer"
        /\ user response !! "username" = Some (VStr username)
        /\ user response !! "password" = None).
Proof.
  split; [|split; [|split]].
  - split.
    + intros Ha. unfold login. rewrite Ha. reflexivity.
    + destruct (authenticate_user users_csv username password)
        as [[found|]|e] eqn:Ha; [|reflexivity|].
      * destruct (found !! "role") as [role|] eqn:Hr.
        -- rewrite (login_found _ _ _ _ _ _ _ Ha Hr). discriminate.
        -- rewrite (login_no_role _ _ _ _ _ _ Ha Hr). discriminate.
      * unfold login. rewrite Ha. discriminate.
  - intros found role. apply login_found.
  - intros found. apply login_no_role.
  - intros response H.
    destruct (authenticate_user users_csv username password)
      as [[found|]|e] eqn:Ha;
      [|unfold login in H; rewrite Ha in H; discriminate..].
    destruct (found !! "role") as [role|] eqn:Hr.
    + rewrite (login_found _ _ _ _ _ _ _ Ha Hr) in H. injection H as <-.
      cbn [token_type user]. split; [reflexivity|]. split.
      * apply lookup_insert_eq.
      * rewrite lookup_insert_ne by discriminate.
        apply lookup_singleton_ne. discriminate.
    + rewrite (login_no_role _ _ _ _ _ _ Ha Hr) in H. discriminate.
Qed.

Lemma login_answers_witness :
  login example_encode 0 (Some [viewer_password_user; admin_password_user])
    "ana" "s3cret"
  = Ok (MkLoginResponse "token-of-ana" "bearer"
          {[ "username" := VStr "ana"; "role" := VStr "admin" ]}).
Proof.
  apply (proj1 (proj2 (login_answers example_encode 0
           (Some [viewer_password_user; admin_password_user]) "ana" "s3cret"))
           admin_password_user (VStr "admin")); reflexivity.
Defined.

(** X16.  A token issued by [POST /login] is accepted by
    [get_current_user] as long as the library decodes it to the payload
    it was made from: the row returned is the first row of the users
    file with the user name of the login.  That row is the one the
    password was checked against whenever it holds that password; a
    file with two rows of one user name and different passwords can
    thus serve the first row to a caller who logged in as the second. *)
Theorem login_then_get_current_user
    (jwt_encode : payload -> string -> string -> string)
    (jwt_decode : string -> string -> list string -> option payload)
    (utcnow : Z) (users_csv : option (list row)) (username password : string)
    (response : LoginResponse) :
  jwt_decode
    (jwt_encode (Payload {[ "sub" := VStr username ]} (Some (utcnow + 86400)))
       SECRET_KEY ALGORITHM) SECRET_KEY [ALGORITHM]
  = Some (Payload {[ "sub" := VStr username ]} (Some (utcnow + 86400))) ->
  login jwt_encode utcnow users_csv username password = Ok response ->
  exists user user' before after,
    authenticate_user users_csv username password = Ok (Some user)
    /\ get_current_user jwt_decode users_csv (access_token response) = Ok user'
    /\ users_csv = Some (before ++ user' :: after)
    /\ user' !! "username" = Some (VStr username)
    /\ Forall (fun u => u !! "username" <> Some (VStr username)) before
    /\ (user' !! "password" = Some (VStr password) -> user' = user).
Proof.
  intros Hjwt H.
  destruct (authenticate_user users_csv username password)
    as [[found|]|e] eqn:Ha;
    [|unfold login in H; rewrite Ha in H; discriminate..].
  destruct (found !! "role") as [role|] eqn:Hr;
    [|rewrite (login_no_role _ _ _ _ _ _ Ha Hr) in H; discriminate].
  rewrite (login_found _ _ _ _ _ _ _ Ha Hr) in H.
  injection H as <-. cbn [access_token].
  unfold authenticate_user in Ha.
  destruct (find_user_first_named _ _ _ _ Ha)
    as (user' & before & after & Hf & Hu & H1 & H2 & H3).
  exists found, user', before, after.
  destruct users_csv as [users|]; [|destruct before; discriminate].
  cbn [load_users] in *. subst users.
  repeat split; try assumption; try reflexivity.
  unfold get_current_user. rewrite Hjwt. cbn [claims].
  rewrite lookup_singleton_eq, bind_Ok. cbn [load_users]. rewrite Hf.
  reflexivity.
Qed.

Lemma login_then_get_current_user_witness :
  exists user user' before after,
    authenticate_user (Some [viewer_password_user; admin_password_user])
      "ana" "s3cret" = Ok (Some user)
    /\ get_current_user example_decode
         (Some [viewer_password_user; admin_password_user]) "token-of-ana"
       = Ok user'
    /\ Some [viewer_password_user; admin_password_user]
       = Some (before ++ user' :: after)
    /\ user' !! "username" = Some (VStr "ana")
    /\ Forall (fun u => u !! "username" <> Some (VStr "ana")) before
    /\ (user' !! "password" = Some (VStr "s3cret") -> user' = user).
Proof.
  apply (login_then_get_current_user example_encode example_decode 0
           (Some [viewer_password_user; admin_password_user]) "ana" "s3cret"
           (MkLoginResponse "token-of-ana" "bearer"
              {[ "username" := VStr "ana"; "role" := VStr "admin" ]}));
    reflexivity.
Defined.

End Tokens.

(* ===================================================================== *)
(** ** The Brazilian number format of [GET /data] *)
(* ===================================================================== *)

Section NumberFormat.

Lemma through_temp_step (c : ascii) (s : string) :
  Ascii.eqb c "T" = false ->
  through_temp (String c s) = String (swap_separator c) (through_temp s).
Proof.
  intros HT. unfold through_temp, swap_separator, PyStr.replace.
  destruct (Ascii.eqb c ",") eqn:Ec.
  - apply Ascii.eqb_eq in Ec as ->. reflexivity.
  - destruct (Ascii.eqb c ".") eqn:Ep.
    + apply Ascii.eqb_eq in Ep as ->. reflexivity.
    + cbn [PyStr.replace_from PyStr.starts_with].
      rewrite (Ascii.eqb_sym "," c), Ec. cbn [andb].
      cbn [PyStr.replace_from PyStr.starts_with].
      rewrite (Ascii.eqb_sym "." c), Ep. cbn [andb].
      cbn [PyStr.replace_from PyStr.starts_with].
      rewrite (Ascii.eqb_sym "T" c), HT. reflexivity.
Qed.

Lemma through_temp_swaps (s : string) :
  PyStr.contains "T" s = false -> through_temp s = swap_separators s.
Proof.
  induction s as [|c s IH]; [reflexivity|]. cbn [PyStr.contains].
  destruct (Ascii.eqb c "T") eqn:E; [discriminate|]. intros H.
  rewrite (through_temp_step c s E), (IH H). reflexivity.
Qed.

(** The texts that the [f] format is made of hold no [T]. *)
Lemma pretty_N_char_no_T (d : N) : Ascii.eqb (pretty_N_char d) "T" = false.
Proof. destruct d as [|[[[|[]|]|[[]|[]|]|]|[[|[]|]|[[]|[]|]|]|]]; reflexivity. Qed.

Lemma pretty_N_go_no_T (x : N) (s : string) :
  PyStr.contains "T" s = false -> PyStr.contains "T" (pretty_N_go x s) = false.
Proof.
  revert s. induction (N.lt_wf_0 x) as [x _ IH]; intros s Hs.
  destruct (N.eq_dec x 0%N) as [->|Hx]; [rewrite pretty_N_go_0; exact Hs|].
  rewrite pretty_N_go_step by lia. apply IH; [apply N.div_lt; lia|].
  cbn [PyStr.contains]. rewrite pretty_N_char_no_T. exact Hs.
Qed.

Lemma pretty_Z_no_T (n : Z) : PyStr.contains "T" (pretty n) = false.
Proof.
  assert (forall p : positive, PyStr.contains "T" (pretty p) = false) as Hp.
  { intros p. unfold pretty, pretty_positive, pretty, pretty_N.
    case_decide; [reflexivity|]. apply pretty_N_go_no_T. reflexivity. }
  destruct n as [|p|p]; unfold pretty, pretty_Z; [reflexivity|apply Hp|].
  rewrite contains_app, Hp. reflexivity.
Qed.

Lemma zeros_no_T (k : nat) : PyStr.contains "T" (PyStr.zeros k) = false.
Proof. induction k as [|k IH]; [reflexivity|exact IH]. Qed.

Lemma substring_no_T (s : string) (n m : nat) :
  PyStr.contains "T" s = false ->
  PyStr.contains "T" (String.substring n m s) = false.
Proof.
  revert n m. induction s as [|c s IH]; intros n m H.
  - destruct n, m; reflexivity.
  - cbn [PyStr.contains] in H.
    destruct (Ascii.eqb c "T") eqn:E; [discriminate|].
    destruct n as [|n]; [destruct m as [|m]|]; cbn [String.substring];
      [reflexivity| |apply IH, H].
    cbn [PyStr.contains]. rewrite E. apply IH, H.
Qed.

Lemma group_from_no_T (k : nat) (s : string) :
  PyStr.contains "T" s = false ->
  PyStr.contains "T" (PyFloat.group_from k s) = false.
Proof.
  revert k. induction s as [|c s IH]; intros k H; [reflexivity|].
  cbn [PyStr.contains] in H.
  destruct (Ascii.eqb c "T") eqn:E; [discriminate|].
  destruct k; cbn [PyFloat.group_from PyStr.contains]; rewrite ?E;
    cbn [Ascii.eqb Bool.eqb]; apply IH, H.
Qed.

Lemma fixed_text_no_T (neg : bool) (n : Z) (nd : nat) :
  PyStr.contains "T" (PyFloat.fixed_text neg n nd) = false.
Proof.
  unfold PyFloat.fixed_text.
  assert (PyStr.contains "T" (PyStr.zfill (S nd) (pretty n)) = false) as Hds
    by (unfold PyStr.zfill; rewrite contains_app, zeros_no_T, pretty_Z_no_T;
        reflexivity).
  rewrite !contains_app. unfold PyFloat.group_thousands.
  rewrite (group_from_no_T _ _ (substring_no_T _ 0 _ Hds)).
  destruct neg, nd; cbn [PyFloat.sign_text orb]; try reflexivity;
    rewrite contains_app, (substring_no_T _ _ _ Hds); reflexivity.
Qed.

Lemma format_f_no_T (nd : nat) (x : PyFloat.float) :
  PyStr.contains "T" (PyFloat.format_f nd x) = false.
Proof.
  destruct x as [neg|neg| |neg m e]; cbn [PyFloat.format_f];
    try apply fixed_text_no_T; [destruct neg|]; reflexivity.
Qed.

(** X17.  [format_br] writes a float that is not zero as
    [format(x, ',.2f')] with every comma turned into a point and every
    point into a comma, the Brazilian notation: the detour through
    [TEMP] changes nothing else, because the formatted text never holds
    a [T].  Zero, of either sign, is written [0,00]. *)
Theorem format_br_swaps_separators (x : PyFloat.float) :
  format_br (VFloat x)
  = Ok (if PyFloat.eq x PyFloat.zero then "0,00"
        else swap_separators (PyFloat.format_f 2 x))
  /\ through_temp (PyFloat.format_f 2 x) = swap_separators (PyFloat.format_f 2 x)
  /\ PyStr.contains "T" (PyFloat.format_f 2 x) = false.
Proof.
  pose proof (format_f_no_T 2 x) as HT.
  pose proof (through_temp_swaps _ HT) as Hs.
  split; [|split; assumption].
  unfold format_br. destruct (PyFloat.eq x PyFloat.zero); [reflexivity|].
  f_equal. exact Hs.
Qed.

Lemma format_br_swaps_separators_witness :
  format_br (VFloat (PyFloat.of_decimal false 123456789 (-2))) = Ok "1.234.567,89".
Proof.
  rewrite (proj1 (format_br_swaps_separators
                    (PyFloat.of_decimal false 123456789 (-2)))).
  vm_compute. reflexivity.
Defined.

End NumberFormat.

(* ===================================================================== *)
(** ** The date of an item *)
(* ===================================================================== *)

Section DateText.

Lemma strptime_valid (s : string) (d : PyDate.date) :
  PyDate.strptime s = Some d ->
  PyDate.valid (PyDate.year d) (PyDate.month d) (PyDate.day d) = true.
Proof.
  unfold PyDate.strptime. intros H.
  destruct (PyDate.read_year s) as [[y r1]|]; [|discriminate].
  cbn in H. destruct r1 as [|c r2]; [discriminate|].
  destruct (Ascii.eqb c "-") eqn:Ec;
    [apply Ascii.eqb_eq in Ec as ->
    |destruct c as [[] [] [] [] [] [] [] []]; try discriminate].
  destruct (PyDate.first_month (PyDate.month_alts r2)) as [[[m dd] r3]|];
    [|discriminate].
  cbn in H. destruct r3; [|discriminate].
  destruct (PyDate.valid y m dd) eqn:Hv; [|discriminate].
  injection H as <-. exact Hv.
Qed.

Lemma four_digit_years (y : Z) : 1000 <= y <= 9999 -> four_digits y = true.
Proof.
  intros Hy.
  assert (forallb four_digits
            (map (fun i => 1000 + Z.of_nat i) (seq 0 (Z.to_nat 9000))) = true) as H
    by (vm_compute; reflexivity).
  rewrite forallb_forall in H. apply H. apply in_map_iff.
  exists (Z.to_nat (y - 1000)). split; [lia|]. apply in_seq. lia.
Qed.

Lemma months_and_days (m d : Z) :
  1 <= m <= 12 -> 1 <= d <= 31 -> month_day_read_back m d = true.
Proof.
  intros Hm Hd.
  assert (forallb (fun m => forallb (fun d => month_day_read_back m d)
                              (map Z.of_nat (seq 1 31)))
            (map Z.of_nat (seq 1 12)) = true) as H
    by (vm_compute; reflexivity).
  rewrite forallb_forall in H.
  assert (In m (map Z.of_nat (seq 1 12))) as Hin
    by (apply in_map_iff; exists (Z.to_nat m); split; [lia|apply in_seq; lia]).
  specialize (H m Hin). rewrite forallb_forall in H. apply H.
  apply in_map_iff. exists (Z.to_nat d). split; [lia|apply in_seq; lia].
Qed.

Lemma days_in_month_max (y m : Z) : PyDate.days_in_month y m <= 31.
Proof.
  unfold PyDate.days_in_month.
  repeat match goal with |- context [if ?b then _ else _] => destruct b end; lia.
Qed.

Lemma strftime_reads_back (y m d : Z) :
  PyDate.valid y m d = true -> 1000 <= y ->
  PyDate.strptime (PyDate.strftime (PyDate.Date y m d)) = Some (PyDate.Date y m d).
Proof.
  intros Hv Hy. pose proof Hv as Hv'. unfold PyDate.valid in Hv'.
  rewrite !andb_true_iff, !Z.leb_le in Hv'.
  destruct Hv' as [[[[[H1 H2] H3] H4] H5] H6].
  pose proof (days_in_month_max y m) as Hmax.
  pose proof (four_digit_years y ltac:(lia)) as Hyear.
  pose proof (months_and_days m d ltac:(lia) ltac:(lia)) as Hmd.
  unfold PyDate.strftime, PyDate.strptime. cbn [PyDate.year PyDate.month PyDate.day].
  unfold four_digits in Hyear.
  destruct (pretty y) as [|a [|b [|c [|e [|]]]]]; try discriminate.
  rewrite !andb_true_iff, Z.eqb_eq in Hyear.
  destruct Hyear as [[[[Ha Hb] Hc] He] Hval].
  change (String a (String b (String c (String e "")))
            +:+ "-" +:+ PyStr.zfill 2 (pretty m) +:+ "-" +:+ PyStr.zfill 2 (pretty d))
    with (String a (String b (String c (String e (String "-"
            (PyStr.zfill 2 (pretty m) +:+ "-" +:+ PyStr.zfill 2 (pretty d))))))).
  cbn [PyDate.read_year]. rewrite Ha, Hb, Hc, He. cbn [andb]. rewrite Hval.
  cbn [mbind option_bind].
  unfold month_day_read_back in Hmd.
  destruct (PyDate.first_month _) as [[[m' d'] [|]]|]; try discriminate.
  rewrite andb_true_iff, !Z.eqb_eq in Hmd. destruct Hmd as [-> ->].
  cbn [mbind option_bind]. rewrite Hv. reflexivity.
Qed.

(** X18.  The date that an item of [GET /data] shows can be given back
    as a bound: for a row kept by the loader, whose date text parsed to
    a date of year 1000 or later, the item holds that date printed by
    [strftime], and this text parses to the same date, as a date of a
    file and as the [start_date] or [end_date] of a request. *)
Theorem shown_date_reads_back (start_dt end_dt : option PyDate.date)
    (now : PyDate.date) (r r' : row) :
  process_row start_dt end_dt r = Ok (Some r') ->
  exists s d,
    r !! "date" = Some (VStr s) /\ PyDate.strptime s = Some d
    /\ format_date now r' = Ok (PyDate.strftime d)
    /\ (1000 <= PyDate.year d ->
        PyDate.strptime (PyDate.strftime d) = Some d
        /\ parse_bound (Some (PyDate.strftime d)) = Some d).
Proof.
  intros H.
  destruct (process_row_kept _ _ _ _ H) as (s & d & Hs & Hd & _ & Hn).
  destruct (normalize_row_loaded _ _ _ Hn) as (Hdate & _).
  exists s, d. repeat split; try assumption.
  - unfold format_date. rewrite Hdate. reflexivity.
  - apply strptime_valid in Hd. destruct d as [y m dd]. cbn in *.
    apply strftime_reads_back; assumption.
  - apply strptime_valid in Hd. destruct d as [y m dd]. cbn in *.
    unfold parse_bound.
    rewrite (strftime_reads_back y m dd Hd H0).
    destruct (String.eqb _ "") eqn:E; [|reflexivity].
    apply String.eqb_eq in E.
    pose proof (strftime_reads_back y m dd Hd H0) as Hr.
    rewrite E in Hr. discriminate.
Qed.

Lemma shown_date_reads_back_witness :
  exists r',
    process_row None None (example_row "2024-1-5" "7") = Ok (Some r')
    /\ format_date some_day r' = Ok "2024-01-05"
    /\ parse_bound (Some "2024-01-05") = Some (PyDate.Date 2024 1 5).
Proof.
  edestruct (example_row_kept "2024-1-5" "7") as [r' E];
    [vm_compute; reflexivity..|].
  exists r'. split; [exact E|].
  destruct (shown_date_reads_back None None some_day _ _ E)
    as (s & d & Hs & Hd & Hf & Hb).
  vm_compute in Hs. injection Hs as <-.
  vm_compute in Hd. injection Hd as <-.
  split; [exact Hf|]. apply Hb. cbn. lia.
Defined.

End DateText.

(* ===================================================================== *)
(** ** Ranges and page counts *)
(* ===================================================================== *)

Section Ranges.

Lemma inverted_bounds (s e d : PyDate.date) :
  PyDate.lt e s = true -> in_bounds (Some s) (Some e) d = false.
Proof.
  intros Hes. unfold in_bounds, date_le.
  destruct (PyDate.lt d s) eqn:Hds; [reflexivity|].
  destruct (PyDate.lt e d) eqn:Hed; [reflexivity|]. exfalso.
  destruct (date_lt_negtrans e d s I I I Hes) as [H|H]; congruence.
Qed.

Lemma slice_nil {A : Type} (start stop : Z) :
  PyList.slice (@nil A) start stop = [].
Proof. unfold PyList.slice. rewrite drop_nil, take_nil. reflexivity. Qed.

(** X19.  A range whose end lies before its start selects nothing and
    is no error: when both bounds are dates and [end_date] is earlier
    than [start_date], the loader keeps no row and returns a total of
    0, whatever the file holds, and [GET /data] answers with its empty
    result. *)
Theorem inverted_range_is_empty (csv : option (list row)) (now : PyDate.date)
    (start_date end_date : option string) (s e : PyDate.date) (sort_by : string)
    (sort_desc : bool) (page page_size : Z) (current_user : row) (u : value) :
  parse_bound start_date = Some s -> parse_bound end_date = Some e ->
  PyDate.lt e s = true ->
  current_user !! "username" = Some u ->
  all_metrics csv start_date end_date = []
  /\ load_metrics_optimized csv start_date end_date sort_by sort_desc page page_size
     = ([], 0)
  /\ get_metrics_data csv now start_date end_date sort_by sort_desc page page_size
       current_user
     = Ok200 {[ "data" := JList [];
                "total" := JInt 0;
                "page" := JInt (Z.max 1 page);
                "page_size" := JInt (Z.min page_size MAX_RECORDS_PER_REQUEST);
                "total_pages" := JInt 0;
                "message" := JStr "Nenhum dado encontrado" ]}.
Proof.
  intros Hs He Hes Hu.
  assert (all_metrics csv start_date end_date = []) as Hnone.
  { unfold all_metrics. destruct csv as [rows|]; [|reflexivity].
    rewrite Hs, He.
    destruct (read_rows (Some s) (Some e) rows) as [l|] eqn:E; [|reflexivity].
    destruct l as [|r' l]; [reflexivity|]. exfalso.
    destruct (proj1 (read_rows_elem _ _ _ _ r' E)) as (r & _ & Hr); [left|].
    destruct (process_row_kept _ _ _ _ Hr) as (sd & d & _ & _ & Hb & _).
    rewrite (inverted_bounds s e d Hes) in Hb. discriminate. }
  assert (forall p ps,
            load_metrics_optimized csv start_date end_date sort_by sort_desc p ps
            = ([], 0)) as Hload.
  { intros p ps. rewrite load_metrics_optimized_eq, Hnone.
    rewrite (nil_length_inv (sort_data [] sort_by sort_desc))
      by (rewrite sort_data_length; reflexivity).
    rewrite slice_nil. reflexivity. }
  split; [exact Hnone|]. split; [apply Hload|].
  apply (get_metrics_data_empty _ _ _ _ _ _ _ _ _ u Hu).
  unfold requested_page. rewrite Hload. reflexivity.
Qed.

Lemma inverted_range_is_empty_witness :
  load_metrics_optimized (Some three_rows) (Some "2024-01-03") (Some "2024-01-01")
    "date" false 1 25 = ([], 0).
Proof.
  refine (proj1 (proj2 (inverted_range_is_empty (Some three_rows) some_day
            (Some "2024-01-03") (Some "2024-01-01") (PyDate.Date 2024 1 3)
            (PyDate.Date 2024 1 1) "date" false 1 25 viewer_user (VStr "bia")
            _ _ _ _))); reflexivity.
Defined.

(** X20.  The page count that [GET /data] computes counts the pages
    that hold rows: for a page size of at least 1, page p (from 1) of
    the loader is not empty if and only if p is at most
    (total + page_size - 1) // page_size. *)
Theorem nonempty_pages_are_counted (csv : option (list row))
    (start_date end_date : option string) (sort_by : string) (sort_desc : bool)
    (page_size : Z) (p : nat) :
  1 <= page_size -> (1 <= p)%nat ->
  let total := Z.of_nat (length (all_metrics csv start_date end_date)) in
  let total_pages := (total + page_size - 1) / page_size in
  page_rows csv start_date end_date sort_by sort_desc page_size p <> []
  <-> Z.of_nat p <= total_pages.
Proof.
  intros Hps Hp total total_pages.
  pose proof (page_length csv start_date end_date sort_by sort_desc
                (Z.of_nat p) page_size ltac:(lia) Hps) as Hlen.
  fold (page_rows csv start_date end_date sort_by sort_desc page_size p) in Hlen.
  fold total in Hlen.
  pose proof (ceil_div total page_size ltac:(lia) Hps) as Hceil.
  fold total_pages in Hceil.
  split.
  - intros Hne.
    assert (0 < Z.of_nat (length (page_rows csv start_date end_date sort_by
                                    sort_desc page_size p))) as Hpos
      by (destruct (page_rows _ _ _ _ _ _ _); [congruence|simpl; lia]).
    nia.
  - intros Hle Hnil. rewrite Hnil in Hlen. simpl in Hlen. nia.
Qed.

Lemma nonempty_pages_are_counted_witness :
  page_rows (Some three_rows) None None "date" false 2 2 <> []
  /\ ~ page_rows (Some three_rows) None None "date" false 2 3 <> [].
Proof.
  assert (length (all_metrics (Some three_rows) None None) = 3%nat) as Hlen
    by (vm_compute; reflexivity).
  split.
  - apply (nonempty_pages_are_counted (Some three_rows) None None "date" false
             2 2); [lia|lia|]. rewrite Hlen. reflexivity.
  - intros H.
    apply (nonempty_pages_are_counted (Some three_rows) None None "date" false
             2 3) in H; [|lia|lia].
    rewrite Hlen in H. vm_compute in H. apply H. reflexivity.
Defined.

End Ranges.
